(** * Request orchestrator of the fitness backend (index.js, supabaseClient.js)

    A shallow embedding of the Express route handlers and of the store
    client they talk to.  A handler is a program in a small monad whose
    only effect is [await]ing a query built with the client's chained
    methods; it is run either against an arbitrary answering function
    (what the hosted store may reply), against the fallback stub of
    supabaseClient.js, or against an in-memory table store.

    Conventions: a request reads the clock once ([now]); the callbacks
    of one [Promise.all] run one after the other; strings are byte
    strings, whose letters, white space and digits are those of ASCII;
    numbers are integers; what is logged is left out. *)

From Stdlib Require Import ZArith String Ascii List Bool Lia DecimalString Sorted.
From Stdlib Require DecimalZ DecimalPos.
From stdpp Require Import gmap strings list fin_maps.

Set Warnings "-register-all".

Local Open Scope string_scope.
Local Open Scope Z_scope.

(** ** JavaScript values *)

(** JSON values as the handlers see them, with [undefined] and [NaN].
    [VNum n] is the double of integer value [n]; the arithmetic of the
    engine rounds to the nearest double ([round_double]). Objects keep
    their fields in literal order. *)
Inductive Val : Type :=
| VUndef
| VNull
| VBool (b : bool)
| VNum (n : Z)
| VNaN
| VStr (s : string)
| VArr (items : list Val)
| VObj (fields : list (string * Val)).

Definition Row : Type := list (string * Val).

(** [!!v]: the values that pass [if (v)]. *)
Definition truthy (v : Val) : bool :=
  match v with
  | VUndef | VNull | VNaN => false
  | VBool b => b
  | VNum n => negb (n =? 0)
  | VStr s => negb (String.eqb s EmptyString)
  | VArr _ | VObj _ => true
  end.

(** [a || b] and [a && b]. *)
Definition js_or (a b : Val) : Val := if truthy a then a else b.
Definition js_and (a b : Val) : Val := if truthy a then b else a.

(** [v == null]. *)
Definition nullish (v : Val) : bool :=
  match v with VUndef | VNull => true | _ => false end.

Fixpoint assoc (k : string) (fs : Row) : Val :=
  match fs with
  | [] => VUndef
  | (k', v) :: fs' => if String.eqb k k' then v else assoc k fs'
  end.

(** [o.k] (and [o?.k]): a missing property reads [undefined]. The
    handlers guard every read on a possibly null object. *)
Definition get (k : string) (o : Val) : Val :=
  match o with VObj fs => assoc k fs | _ => VUndef end.

(** ** Strings *)

Definition is_space (c : ascii) : bool :=
  let n := nat_of_ascii c in
  ((9 <=? n) && (n <=? 13))%nat || (n =? 32)%nat.

Definition lower_ascii (c : ascii) : ascii :=
  let n := nat_of_ascii c in
  if ((65 <=? n) && (n <=? 90))%nat then ascii_of_nat (n + 32) else c.

(** [s.toLowerCase()] on the ASCII letters. *)
Fixpoint toLowerCase (s : string) : string :=
  match s with
  | EmptyString => EmptyString
  | String c s' => String (lower_ascii c) (toLowerCase s')
  end.

Fixpoint trimStart (s : string) : string :=
  match s with
  | EmptyString => EmptyString
  | String c s' => if is_space c then trimStart s' else s
  end.

Definition trimEnd (s : string) : string :=
  String.rev (trimStart (String.rev s)).

(** [s.trim()] on the ASCII white space and line terminators. *)
Definition trim (s : string) : string := trimEnd (trimStart s).

(** ** Numbers *)

(** The double nearest to an integer, ties to the even significand (53
    bits). Every integer up to 2^53 in magnitude is a double. The
    routes stay far below the largest double; there are no infinities. *)
Definition round_double (z : Z) : Z :=
  let a := Z.abs z in
  if a <? 2 ^ 53 then z
  else
    let k := Z.log2 a - 52 in
    let q := a / 2 ^ k in
    let r := a mod 2 ^ k in
    let half := 2 ^ (k - 1) in
    let q' := if (r <? half) || ((r =? half) && Z.even q) then q else q + 1 in
    Z.sgn z * (q' * 2 ^ k).

(** An integer in decimal digits. *)
Definition decimal (n : Z) : string :=
  NilZero.string_of_int (Z.to_int n).

(** The decimal of fewest significant digits that reads back as the
    double [x]: with [p] the power of ten under trial, the multiples of
    [p] on both sides of [x], the nearer one first, the even one on a
    tie. *)
Fixpoint shortest (fuel : nat) (p x : Z) : Z :=
  match fuel with
  | O => x
  | S fuel' =>
      if p <=? 1 then x
      else
        let lo := x / p * p in
        let hi := lo + p in
        match round_double lo =? x, round_double hi =? x with
        | true, true =>
            if (x - lo <? hi - x) || ((x - lo =? hi - x) && Z.even (x / p))
            then lo else hi
        | true, false => lo
        | false, true => hi
        | false, false => shortest fuel' (p / 10) x
        end
  end.

Fixpoint strip_zeros (s : string) : string :=
  match s with
  | EmptyString => EmptyString
  | String c s' =>
      match strip_zeros s' with
      | EmptyString => if Ascii.eqb c "0" then EmptyString
                       else String c EmptyString
      | rest => String c rest
      end
  end.

(** [n.toString()] for an integer: its digits below 2^53; above, the
    shortest digits that identify the double, followed by zeros up to
    21 digits and by an exponent beyond. *)
Definition Number_toString (n : Z) : string :=
  let a := Z.abs n in
  if a <? 2 ^ 53 then decimal n
  else
    let len := String.length (decimal a) in
    let text := decimal (shortest len (10 ^ (Z.of_nat len - 1)) a) in
    let sign := if n <? 0 then "-" else EmptyString in
    if (String.length text <=? 21)%nat then sign ++ text
    else
      let mantissa :=
        match strip_zeros text with
        | String d EmptyString => String d EmptyString
        | String d rest => String d ("." ++ rest)
        | EmptyString => EmptyString
        end in
      sign ++ mantissa ++ "e+" ++ decimal (Z.of_nat (String.length text) - 1).

(** The text of a value: what [v.toString()], [String(v)], a template
    literal and the string side of [+] produce when the conversion goes
    through (see [printable]). An array joins the texts of its items,
    [null] and [undefined] as the empty text. *)
Fixpoint toString (v : Val) : string :=
  match v with
  | VUndef => "undefined"
  | VNull => "null"
  | VBool true => "true"
  | VBool false => "false"
  | VNum n => Number_toString n
  | VNaN => "NaN"
  | VStr s => s
  | VArr items =>
      String.concat ","
        (List.map (fun x => if nullish x then EmptyString else toString x) items)
  | VObj _ => "[object Object]"
  end.

(** ** parseInt, Math.min, Math.max *)

Definition digit_of (radix : Z) (c : ascii) : option Z :=
  let n := Z.of_nat (nat_of_ascii c) in
  let d :=
    if (48 <=? n) && (n <=? 57) then Some (n - 48)
    else if (97 <=? n) && (n <=? 122) then Some (n - 87)
    else if (65 <=? n) && (n <=? 90) then Some (n - 55)
    else None in
  match d with
  | Some d => if d <? radix then Some d else None
  | None => None
  end.

(** The longest prefix of digits, read in [radix]; [None] when empty. *)
Fixpoint digits (radix : Z) (s : string) (acc : option Z) : option Z :=
  match s with
  | EmptyString => acc
  | String c s' =>
      match digit_of radix c with
      | Some d => digits radix s' (Some (radix * default 0 acc + d))
      | None => acc
      end
  end.





(** [a + b] on operands that print: string concatenation as soon as one
    side is (or prints as) a string, numeric addition otherwise. *)
Definition to_number (v : Val) : Val :=
  match v with
  | VNum n => VNum n
  | VBool true => VNum 1
  | VBool false | VNull => VNum 0
  | _ => VNaN
  end.

Definition is_stringy (v : Val) : bool :=
  match v with VStr _ | VArr _ | VObj _ => true | _ => false end.

Definition js_add (a b : Val) : Val :=
  if is_stringy a || is_stringy b then VStr (toString a ++ toString b)
  else match to_number a, to_number b with
       | VNum x, VNum y => VNum (round_double (x + y))
       | _, _ => VNaN
       end.


(** [Array.isArray(v) && v.length > 0]. *)
Definition nonempty_array (v : Val) : bool :=
  match v with VArr (_ :: _) => true | _ => false end.

(** ** Dates

    [new Date(v)] and [toISOString] belong to the engine. [Date_parse v]
    is the time value of [new Date(v)] in milliseconds, [None] for an
    invalid date. [Date_roundtrip]: an ISO string printed by the engine
    parses back to the time it was printed from. *)
Class JsDate : Type := {
  Date_parse : Val -> option Z;
  toISOString : Z -> string
}.


(** ** The store client: queries and answers *)

(** One chained method call of the client, with its arguments. *)
Inductive Step : Type :=
| q_select (columns : string)
| q_select_count (columns : string)
    (* .select(columns, { count: 'exact', head: true }) *)
| q_insert (values : Val)
| q_update (values : Val)
| q_delete
| q_upsert (values : Val) (onConflict : string)
| q_eq (column : string) (value : Val)
| q_order (column : string) (ascending : bool)
| q_range (lo hi : Val)
| q_limit (n : Z)
| q_maybeSingle
| q_single.

(** [supabase.from(table).m1(..).m2(..)...] *)
Record Query : Type := supabase_from { table : string; chain : list Step }.

(** An [Error]: the store's [{ code, message, details }] or a thrown
    exception (no code, a stack). *)
Record JsError : Type := Error_ {
  code : option string;
  message : string;
  details : option string;
  stack : option string
}.

(** [new Error(msg)]; the frames of its stack are left out. *)
Definition new_Error (msg : string) : JsError :=
  {| code := None; message := msg; details := None;
     stack := Some ("Error: " ++ msg) |}.

(** What an awaited query resolves to: [{ data, error, count }]. *)
Record Result : Type := {
  data : Val;
  error : option JsError;
  count : Val
}.

Definition success (d : Val) : Result :=
  {| data := d; error := None; count := VNull |}.

Definition failure (e : JsError) : Result :=
  {| data := VNull; error := Some e; count := VNull |}.

Inductive Settled : Type :=
| Fulfilled (r : Result)
| Rejected (e : JsError).

(** ** Handler programs *)

Record Response : Type := { status : Z; body : Val }.

(** A program awaits queries one after the other. [timer] is the
    rejection that wins a [Promise.race] when the store stays silent. *)
Inductive Prog (A : Type) : Type :=
| Ret (a : A)
| Await (timer : option JsError) (q : Query) (k : Settled -> Prog A).

Arguments Ret {A} a.
Arguments Await {A} timer q k.

Fixpoint bindP {A B : Type} (p : Prog A) (f : A -> Prog B) : Prog B :=
  match p with
  | Ret a => f a
  | Await t q k => Await t q (fun s => bindP (k s) f)
  end.

(** How a block of statements ends: it falls through with a value, it
    has sent the response ([return res.json(..)]), or it threw. *)
Inductive Completion (A : Type) : Type :=
| Normal (a : A)
| Responded (r : Response)
| Thrown (e : JsError).

Arguments Normal {A} a.
Arguments Responded {A} r.
Arguments Thrown {A} e.

Definition Handler (A : Type) : Type := Prog (Completion A).

Definition ret {A : Type} (a : A) : Handler A := Ret (Normal a).

Definition bind {A B : Type} (m : Handler A) (f : A -> Handler B) : Handler B :=
  bindP m (fun c =>
    match c with
    | Normal a => f a
    | Responded r => Ret (Responded r)
    | Thrown e => Ret (Thrown e)
    end).

Definition throw {A : Type} (e : JsError) : Handler A := Ret (Thrown e).

(** [try { m } catch (e) { h e }] *)
Definition try_catch {A : Type} (m : Handler A) (h : JsError -> Handler A)
  : Handler A :=
  bindP m (fun c =>
    match c with
    | Thrown e => h e
    | _ => Ret c
    end).

(** [return res.status(s).json(b)] and [return res.json(b)]. *)
Definition res_status_json {A : Type} (s : Z) (b : Val) : Handler A :=
  Ret (Responded {| status := s; body := b |}).

Definition res_json {A : Type} (b : Val) : Handler A := res_status_json 200 b.

(** [await supabase.from(..)...]: a rejection is thrown. *)
Definition await (q : Query) : Handler Result :=
  Await None q (fun s =>
    match s with
    | Fulfilled r => Ret (Normal r)
    | Rejected e => Ret (Thrown e)
    end).

(** [await Promise.race([query, rejectAfter(ms, e)])] *)
Definition await_race (q : Query) (e : JsError) : Handler Result :=
  Await (Some e) q (fun s =>
    match s with
    | Fulfilled r => Ret (Normal r)
    | Rejected e' => Ret (Thrown e')
    end).

(** [if (error) throw error] *)
Definition throw_if_error (r : Result) : Handler unit :=
  match error r with
  | Some e => throw e
  | None => ret tt
  end.

Notation "'let*' x ':=' m 'in' k" := (bind m (fun x => k))
  (at level 10, x name, m at level 100, k at level 200).
Notation "m ';;' k" := (bind m (fun _ => k))
  (at level 100, k at level 200, right associativity).

(** What the client of a route observes. *)
Inductive Served : Type :=
| Sent (r : Response)
| NoResponse
| Unhandled (e : JsError).

Definition serve (c : Completion unit) : Served :=
  match c with
  | Responded r => Sent r
  | Normal _ => NoResponse
  | Thrown e => Unhandled e
  end.

(** ** Running a program against a store that answers as it likes *)

Inductive Answer : Type :=
| Settles (s : Settled)
| Never.

Definition Server : Type := Query -> Answer.

(** The queries sent, in order, and the outcome; [None] when an await
    never settles, so that the request hangs. *)
Fixpoint run {A : Type} (srv : Server) (p : Prog A) : list Query * option A :=
  match p with
  | Ret a => ([], Some a)
  | Await timer q k =>
      match srv q, timer with
      | Settles s, _ => let '(t, o) := run srv (k s) in (q :: t, o)
      | Never, Some e => let '(t, o) := run srv (k (Rejected e)) in (q :: t, o)
      | Never, None => ([q], None)
      end
  end.

Definition request (srv : Server) (h : Handler unit) : option Served :=
  option_map serve (snd (run srv h)).

Definition sent_queries (srv : Server) (h : Handler unit) : list Query :=
  fst (run srv h).

(** ** Helpers shared by the routes *)

(** [const { a, b } = v] and [v.a]: reading a property of [null] or
    [undefined] throws. *)
Definition destructure (v : Val) : Handler Val :=
  if nullish v
  then throw (new_Error "Cannot destructure property of undefined")
  else ret v.

(** [v.toLowerCase()] and [v.trim()] exist on strings only. *)
Definition call_toLowerCase (v : Val) : Handler string :=
  match v with
  | VStr s => ret (toLowerCase s)
  | _ => throw (new_Error "toLowerCase is not a function")
  end.

Definition call_trim (v : Val) : Handler string :=
  match v with
  | VStr s => ret (trim s)
  | _ => throw (new_Error "trim is not a function")
  end.

(** Converting an object to text calls its [toString]. A field of that
    name, whatever JSON value it holds, hides the method of the
    prototype and cannot be called; an array converts its items, [null]
    and [undefined] apart. *)
Fixpoint printable (v : Val) : bool :=
  match v with
  | VArr items => forallb (fun x => nullish x || printable x) items
  | VObj fields =>
      negb (existsb (fun kv => String.eqb (fst kv) "toString") fields)
  | _ => true
  end.

(** [String(v)], [`${v}`] and the argument of [parseInt]. *)
Definition ToString (v : Val) : Handler string :=
  if printable v then ret (toString v)
  else throw (new_Error "Cannot convert object to primitive value").

(** [v.toString()], where [expr] is the text of the expression [v] (the
    engine names it in its message). *)
Definition call_toString (expr : string) (v : Val) : Handler string :=
  match v with
  | VUndef | VNull =>
      throw (new_Error ("Cannot read properties of " ++ toString v
                        ++ " (reading 'toString')"))
  | VObj _ =>
      if printable v then ret (toString v)
      else throw (new_Error (expr ++ ".toString is not a function"))
  | _ => ToString v
  end.

(** [a + b] *)
Definition plus (a b : Val) : Handler Val :=
  if printable a && printable b then ret (js_add a b)
  else throw (new_Error "Cannot convert object to primitive value").

(** [a === b] on scalars; two objects read from different places are
    different references. *)
Definition strict_eq (a b : Val) : bool :=
  match a, b with
  | VUndef, VUndef | VNull, VNull => true
  | VBool x, VBool y => Bool.eqb x y
  | VNum x, VNum y => x =? y
  | VStr x, VStr y => String.eqb x y
  | _, _ => false
  end.

(** [s.includes(sub)] *)
Definition includes (sub s : string) : bool :=
  match String.index 0 sub s with Some _ => true | None => false end.

(** [s.split(':')[0]] *)
Fixpoint before_colon (s : string) : string :=
  match s with
  | EmptyString => EmptyString
  | String c s' => if Ascii.eqb c ":" then EmptyString
                   else String c (before_colon s')
  end.

(** [parseInt(s, 10)] *)
Definition parseInt10 (s : string) : Val :=
  let s1 := trimStart s in
  let '(sign, s2) :=
    match s1 with
    | String "-" r => (-1, r)
    | String "+" r => (1, r)
    | _ => (1, s1)
    end in
  match digits 10 s2 None with
  | Some n => VNum (sign * n)
  | None => VNaN
  end.

(** [decodeURIComponent(s)]: [None] is the URIError of a malformed
    escape. The bytes of an escape sequence are kept as they come. *)
Fixpoint decodeURIComponent (s : string) : option string :=
  match s with
  | EmptyString => Some EmptyString
  | String "%" (String a (String b r)) =>
      match digit_of 16 a, digit_of 16 b with
      | Some x, Some y =>
          option_map (String (ascii_of_nat (Z.to_nat (16 * x + y))))
                     (decodeURIComponent r)
      | _, _ => None
      end
  | String "%" _ => None
  | String c r => option_map (String c) (decodeURIComponent r)
  end.

Definition call_decodeURIComponent (s : string) : Handler string :=
  match decodeURIComponent s with
  | Some d => ret d
  | None => throw (new_Error "URI malformed")
  end.

Definition opt_str (o : option string) : Val :=
  match o with Some s => VStr s | None => VUndef end.

(** [{ ...o, k: v }] *)
Fixpoint set_field (k : string) (v : Val) (fs : Row) : Row :=
  match fs with
  | [] => [(k, v)]
  | (k', v') :: fs' =>
      if String.eqb k k' then (k, v) :: fs' else (k', v') :: set_field k v fs'
  end.

Definition spread (o : Val) : Row :=
  match o with VObj fs => fs | _ => [] end.

(** [for (const k of required) if (!payload[k]) return res.status(400)...] *)
Fixpoint require_fields (required : list string) (payload : Val)
  : Handler unit :=
  match required with
  | [] => ret tt
  | k :: rest =>
      if truthy (get k payload) then require_fields rest payload
      else res_status_json 400
             (VObj [("error", VStr (k ++ " é obrigatório"))])
  end.

(** [xs.map(async x => f x)] under [Promise.all]: the awaits of one item
    after those of the previous one. *)
Fixpoint for_each {B : Type} (f : Val -> Handler B) (xs : list Val)
  : Handler (list B) :=
  match xs with
  | [] => ret []
  | x :: rest =>
      let* y := f x in
      let* ys := for_each f rest in
      ret (y :: ys)
  end.

(** ** The routes of index.js *)

Section Routes.
Context {D : JsDate}.

(** The clock: [now] is the time value of [new Date()] while the request
    is handled. *)
Variable now : Z.

Definition error_body (msg : string) (e : JsError) : Val :=
  VObj [("error", VStr msg); ("details", VStr (message e))].

(** [GET /users] *)
Definition get_users : Handler unit :=
  try_catch
    (let* r := await (supabase_from "users" [q_select "*"]) in
     throw_if_error r ;;
     res_json (data r))
    (fun error => res_status_json 500 (VObj [("error", VStr (message error))])).

(** [POST /treinos/:id/concluir] *)
Definition post_treinos_concluir (treinoId : string) (req_body : Val)
  : Handler unit :=
  try_catch
    (let b := js_or req_body (VObj []) in
     let aluno_email := get "aluno_email" b in
     let peso_corporal := get "peso_corporal" b in
     let loads := get "loads" b in
     let dados := get "dados" b in
     if negb (truthy (VStr treinoId)) then
       res_status_json 400 (VObj [("error", VStr "treino id é obrigatório na URL")])
     else if negb (truthy aluno_email) then
       res_status_json 400 (VObj [("error", VStr "aluno_email é obrigatório no body")])
     else
     let* text := call_toString "aluno_email" aluno_email in
     let alunoEmail := toLowerCase (trim text) in
     let payload_peso := if nullish peso_corporal then VNull else peso_corporal in
     let payload_dados := js_or dados VNull in
     let payload := VObj [
       ("aluno_email", VStr alunoEmail);
       ("treino_id", VStr treinoId);
       ("peso_corporal", payload_peso);
       ("loads", js_or loads VNull);
       ("dados", payload_dados);
       ("criado_em", VStr (toISOString now))] in
     try_catch
       (let* r := await (supabase_from "progresso"
                           [q_insert (VArr [payload]); q_select "*"]) in
        throw_if_error r ;;
        try_catch
          (let* u := await (supabase_from "users"
                              [q_select "id,email,criado_por";
                               q_eq "email" (VStr alunoEmail);
                               q_maybeSingle]) in
           let alunoUser := data u in
           let professorEmail :=
             if truthy (js_and alunoUser (get "criado_por" alunoUser))
             then get "criado_por" alunoUser else VNull in
           if truthy professorEmail then
             let* peso := ToString (js_or payload_peso (VStr "—")) in
             let* percent :=
               if truthy (js_and payload_dados (get "percent" payload_dados))
               then plus (get "percent" payload_dados) (VStr "%")
               else ret (VStr "—") in
             let* progresso := ToString percent in
             let mensagem :=
               "O aluno " ++ alunoEmail ++ " concluiu um treino (id "
               ++ treinoId ++ ") com " ++ peso
               ++ " kg e progresso " ++ progresso ++ "." in
             await (supabase_from "mensagens"
                      [q_insert (VArr [VObj [
                         ("de", VStr alunoEmail);
                         ("para", professorEmail);
                         ("mensagem", VStr mensagem);
                         ("data", VStr (toISOString now))]])]) ;;
             ret tt
           else ret tt)
          (fun notifyErr => ret tt) ;;
        res_json (js_or (data r) (VArr [])))
       (fun err =>
          if bool_decide (code err = Some "PGRST205") then
            res_status_json 500 (VObj [("error", VStr
              "Tabela 'progresso' não encontrada. Execute backend/create_progresso_table.sql no Supabase SQL Editor.")])
          else throw err))
    (fun error =>
       res_status_json 500 (error_body "Erro ao marcar treino como concluído" error)).

(** [GET /treinos/:aluno_email] *)
Definition get_treinos (aluno_email : string) : Handler unit :=
  try_catch
    (let* aluno := call_decodeURIComponent aluno_email in
     if negb (truthy (VStr aluno)) then
       res_status_json 400 (VObj [("error", VStr "aluno_email é obrigatório")])
     else
     let* r := await (supabase_from "treinos"
                        [q_select "*"; q_eq "aluno_email" (VStr aluno);
                         q_order "data" false]) in
     throw_if_error r ;;
     res_json (js_or (data r) (VArr [])))
    (fun error => res_status_json 500 (error_body "Erro ao buscar treinos" error)).

(** [POST /contract-settings]: the record built from the request and
    from its two emails once normalized. *)
Definition upsertPayload (professor_email aluno_email : string) (payload : Val)
  : Val :=
  let option1 := get "option1_value" payload in
  let option2 := get "option2_value" payload in
  VObj [
    ("professor_email", VStr professor_email);
    ("aluno_email", VStr aluno_email);
    ("professor_name", js_or (get "professor_name" payload) VNull);
    ("professor_cref", js_or (get "professor_cref" payload) VNull);
    ("option1_value", if nullish option1 then VNull else option1);
    ("option2_value", if nullish option2 then VNull else option2);
    ("updated_at", VStr (toISOString now))].

Definition post_contract_settings (req_body : Val) : Handler unit :=
  try_catch
    (let payload := js_or req_body (VObj []) in
     require_fields ["professor_email"; "aluno_email"] payload ;;
     let* professor_text :=
       call_toString "payload.professor_email" (get "professor_email" payload) in
     let* aluno_text :=
       call_toString "payload.aluno_email" (get "aluno_email" payload) in
     let upsertPayload :=
       upsertPayload (toLowerCase (trim professor_text))
                     (toLowerCase (trim aluno_text)) payload in
     let professor_email := get "professor_email" upsertPayload in
     let aluno_email := get "aluno_email" upsertPayload in
     try_catch
       (let* r := await (supabase_from "contract_settings"
                           [q_upsert (VArr [upsertPayload])
                                     "professor_email,aluno_email";
                            q_select "*"]) in
        throw_if_error r ;;
        res_json (js_or (data r) (VArr [])))
       (fun err =>
          if bool_decide (code err = Some "PGRST205") then
            res_status_json 500 (VObj [("error", VStr
              "Tabela contract_settings não encontrada no banco. Execute create_contract_settings_table.sql no Supabase SQL Editor.")])
          else if bool_decide (code err = Some "42P10") then
            try_catch
              (let* u := await (supabase_from "contract_settings"
                                  [q_update upsertPayload;
                                   q_eq "professor_email" professor_email;
                                   q_eq "aluno_email" aluno_email;
                                   q_select "*"]) in
               throw_if_error u ;;
               if nonempty_array (data u) then res_json (data u)
               else
               let* i := await (supabase_from "contract_settings"
                                  [q_insert (VArr [upsertPayload]);
                                   q_select "*"]) in
               throw_if_error i ;;
               res_json (js_or (data i) (VArr [])))
              (fun manualErr =>
                 res_status_json 500 (error_body
                   "Erro ao salvar configurações de contrato (upsert manual falhou)"
                   manualErr))
          else throw err))
    (fun error =>
       res_status_json 500
         (error_body "Erro ao salvar configurações de contrato" error)).

(** [POST /login] *)
Definition post_login (req_body : Val) : Handler unit :=
  try_catch
    (let* b := destructure req_body in
     let email := get "email" b in
     let senha := get "senha" b in
     if negb (truthy email) || negb (truthy senha) then
       res_status_json 400 (VObj [("error", VStr "Email e senha são obrigatórios")])
     else
     let* result :=
       try_catch
         (await_race
            (supabase_from "users"
               [q_select "*"; q_eq "email" email; q_eq "senha" senha])
            (new_Error "Query timeout - Supabase demorando demais"))
         (fun timeoutErr =>
            res_status_json 500 (VObj [
              ("error", VStr "Timeout ao conectar com banco de dados");
              ("details", VStr (message timeoutErr));
              ("timestamp", VStr (toISOString now))])) in
     throw_if_error result ;;
     let data := data result in
     if negb (truthy data)
        || match data with VArr [] => true | _ => false end then
       res_status_json 401 (VObj [("error", VStr "Credenciais inválidas")])
     else
     let user := match data with
                 | VArr (u :: _) => u
                 | _ => data
                 end in
     res_json user)
    (fun error =>
       res_status_json 500 (VObj [
         ("error", VStr "Erro ao realizar login");
         ("details", VStr (message error));
         ("stack", opt_str (stack error))])).

(** [handleCreateAluno], behind [POST /alunos] and
    [POST /api/professor/create-student] *)
Definition handleCreateAluno (req_body : Val) : Handler unit :=
  try_catch
    (let body := js_or req_body (VObj []) in
     let nome := get "nome" body in
     let email := get "email" body in
     let senha := get "senha" body in
     let tipo := js_or (get "tipo" body) (VStr "aluno") in
     let contract_end :=
       js_or (js_or (get "contract_end" body) (get "contractEnd" body)) VNull in
     let criado_por :=
       js_or (js_or (js_or (get "criado_por" body) (get "criadoPor" body))
                    (get "criado_by" body)) VNull in
     if negb (truthy nome) || negb (truthy email) || negb (truthy senha) then
       res_status_json 400 (VObj [("error", VStr "nome, email e senha são obrigatórios")])
     else
     let* nome_text := call_toString "nome" nome in
     let nome := VStr (trim nome_text) in
     let* email_text := call_toString "email" email in
     let email := VStr (toLowerCase (trim email_text)) in
     let* senha_text := call_toString "senha" senha in
     let senha := VStr senha_text in
     let* criado_por :=
       if truthy criado_por
       then let* criado_por_text := call_toString "criado_por" criado_por in
            ret (VStr (toLowerCase (trim criado_por_text)))
       else ret criado_por in
     let payload :=
       ([("nome", nome); ("email", email); ("senha", senha); ("tipo", tipo);
         ("criado_por", js_or criado_por VNull)]
        ++ (if truthy contract_end then [("contract_end", contract_end)] else []))%list in
     let* r := await (supabase_from "users"
                        [q_insert (VArr [VObj payload]); q_select "*";
                         q_maybeSingle]) in
     match error r with
     | Some error =>
         if bool_decide (code error = Some "23505")
            || match details error with
               | Some d => includes "already exists" (toLowerCase d)
               | None => false
               end
         then res_status_json 409
                (VObj [("error", VStr "Email já cadastrado");
                       ("details", VStr (message error))])
         else res_status_json 500
                (VObj [("error", VStr "Erro ao inserir usuário");
                       ("details", VStr (message error));
                       ("code", opt_str (code error));
                       ("hint", opt_str (details error))])
     | None =>
         if negb (truthy (data r)) then
           res_status_json 500 (VObj [("error", VStr "Inserção não retornou dados")])
         else
         (if strict_eq tipo (VStr "aluno") then
            try_catch
              (await (supabase_from "alunos"
                        [q_insert (VObj [
                           ("email", email);
                           ("nome", nome);
                           ("professor_email", criado_por);
                           ("criado_em", VStr (toISOString now))])]) ;;
               ret tt)
              (fun alunoErr => ret tt)
          else ret tt) ;;
         res_json (data r)
     end)
    (fun error =>
       res_status_json 500 (error_body "Erro interno ao criar aluno" error)).

(** [GET /alunos/:id] *)
Definition get_alunos_id (id : string) : Handler unit :=
  try_catch
    (if negb (truthy (VStr id)) then
       res_status_json 400 (VObj [("error", VStr "id é obrigatório")])
     else
     let id := parseInt10 (trim (before_colon id)) in
     if negb (truthy id) || match id with VNaN => true | _ => false end then
       res_status_json 400 (VObj [("error", VStr "id inválido")])
     else
     let* r := await (supabase_from "users"
                        [q_select "*"; q_eq "id" id; q_maybeSingle]) in
     throw_if_error r ;;
     if negb (truthy (data r)) then
       res_status_json 404 (VObj [("error", VStr "Aluno não encontrado")])
     else res_json (data r))
    (fun error => res_status_json 500 (error_body "Erro ao buscar aluno" error)).

(** [PATCH /alunos/:id/contract]. Its two preliminary blocks:
    "normalize to ISO if possible" ([toISOString] throws on an invalid
    date and the raw value is kept) and "determine blocked flag". *)
Definition contract_iso (contract_end : Val) : Val :=
  match Date_parse contract_end with
  | Some t => VStr (toISOString t)
  | None => contract_end
  end.

Definition contract_blocked (iso : Val) : bool :=
  match Date_parse iso with
  | Some end_ => end_ <=? now
  | None => false
  end.

Definition patch_alunos_contract (id : string) (req_body : Val)
  : Handler unit :=
  try_catch
    (let contract_end := get "contract_end" (js_or req_body (VObj [])) in
     if negb (truthy contract_end) then
       res_status_json 400 (VObj [("error", VStr "contract_end é obrigatório")])
     else
     let iso := contract_iso contract_end in
     let blocked := contract_blocked iso in
     let blocked01 := VNum (if blocked then 1 else 0) in
     let* upd := await (supabase_from "users"
                          [q_update (VObj [("contract_end", iso);
                                           ("blocked", blocked01)]);
                           q_eq "id" (VStr id)]) in
     throw_if_error upd ;;
     let* fetched := await (supabase_from "users"
                              [q_select "id,email,tipo,criado_por,contract_end,blocked";
                               q_eq "id" (VStr id); q_maybeSingle]) in
     throw_if_error fetched ;;
     let user := data fetched in
     try_catch
       (if truthy (js_and user (get "email" user)) then
          let* mensagem :=
            if blocked
            then ret "Seu contrato expirou. Por favor, contate seu administrador para renovar."
            else let* until := ToString iso in
                 ret ("Seu contrato foi atualizado até " ++ until
                      ++ ". Acesse sua conta para mais detalhes.") in
          await (supabase_from "mensagens"
                   [q_insert (VArr [VObj [
                      ("de", VStr "sistema");
                      ("para", get "email" user);
                      ("mensagem", VStr mensagem);
                      ("data", VStr (Number_toString now))]])]) ;;
          ret tt
        else ret tt)
       (fun e => ret tt) ;;
     try_catch
       (let is_professor :=
          truthy user && strict_eq (get "tipo" user) (VStr "professor") in
        let professorEmail :=
          if is_professor
          then get "email" user
          else js_or (js_or (js_and req_body (get "professor_email" req_body))
                            (js_and user (get "criado_por" user)))
                     VNull in
        (* [professorEmail !== user.email]; in the professor's branch the
           two sides are one and the same value *)
        let differs :=
          negb (is_professor || strict_eq professorEmail (get "email" user)) in
        if truthy professorEmail && truthy user && differs then
          let* aluno := ToString (get "email" user) in
          let* texto :=
            if blocked
            then ret ("O contrato do aluno " ++ aluno
                      ++ " expirou. Por favor, verifique e tome as providências necessárias.")
            else let* until := ToString iso in
                 ret ("O contrato do aluno " ++ aluno
                      ++ " foi renovado até " ++ until ++ ".") in
          await (supabase_from "mensagens"
                   [q_insert (VArr [VObj [
                      ("de", VStr "sistema");
                      ("para", professorEmail);
                      ("mensagem", VStr texto);
                      ("data", VStr (toISOString now))]])]) ;;
          ret tt
        else ret tt)
       (fun e => ret tt) ;;
     res_json (VObj [("id", VStr id); ("contract_end", iso);
                     ("blocked", blocked01)]))
    (fun error => res_status_json 500 (error_body "Erro ao atualizar contrato" error)).

(** [GET /mensagens/para/:email] *)
Definition get_mensagens_para (email : string) : Handler unit :=
  try_catch
    (let* r := await (supabase_from "mensagens"
                        [q_select "*"; q_eq "para" (VStr email);
                         q_order "data" false]) in
     throw_if_error r ;;
     res_json (js_or (data r) (VArr [])))
    (fun error =>
       res_status_json 500
         (error_body "Erro ao buscar mensagens para o destinatário" error)).





(** [POST /posts/:id/curtir]; [x_user_email] is the request header. *)
Definition post_posts_curtir (postId : string) (req_body x_user_email : Val)
  : Handler unit :=
  try_catch
    (let* b := destructure req_body in
     let usuarioEmail := js_or (get "usuario_email" b) x_user_email in
     if negb (truthy usuarioEmail) then
       res_status_json 400 (VObj [("error", VStr "Email do usuário não fornecido")])
     else
     let* lowered := call_toLowerCase usuarioEmail in
     let* found := await (supabase_from "curtidas"
                            [q_select "*"; q_eq "post_id" (VStr postId);
                             q_eq "usuario_email" (VStr lowered);
                             q_maybeSingle]) in
     let existente := data found in
     if truthy existente then
       let* r := await (supabase_from "curtidas"
                          [q_delete; q_eq "post_id" (VStr postId);
                           q_eq "usuario_email" (VStr lowered)]) in
       throw_if_error r ;;
       res_json (VObj [("success", VBool true); ("curtido", VBool false)])
     else
       let* r := await (supabase_from "curtidas"
                          [q_insert (VArr [VObj [
                             ("post_id", VStr postId);
                             ("usuario_email", VStr lowered);
                             ("criado_em", VStr (toISOString now))]])]) in
       throw_if_error r ;;
       res_json (VObj [("success", VBool true); ("curtido", VBool true)]))
    (fun error => res_status_json 500 (error_body "Erro ao curtir post" error)).

(** [GET /produtos] *)
Definition get_produtos : Handler unit :=
  try_catch
    (let* r := await (supabase_from "produtos_loja"
                        [q_select "*"; q_eq "ativo" (VBool true);
                         q_order "ordem" true]) in
     throw_if_error r ;;
     res_json (js_or (data r) (VArr [])))
    (fun error => res_status_json 500 (error_body "Erro ao listar produtos" error)).

(** [POST /produtos] *)
Definition post_produtos (req_body : Val) : Handler unit :=
  try_catch
    (let* b := destructure req_body in
     let titulo := get "titulo" b in
     let imagem_url := get "imagem_url" b in
     let link_mercadolivre := get "link_mercadolivre" b in
     if negb (truthy titulo) || negb (truthy imagem_url)
        || negb (truthy link_mercadolivre) then
       res_status_json 400
         (VObj [("error", VStr "Título, imagem e link são obrigatórios")])
     else
     (* Pegar o maior 'ordem' e adicionar 1 *)
     let* last := await (supabase_from "produtos_loja"
                           [q_select "ordem"; q_order "ordem" false;
                            q_limit 1; q_single]) in
     let ultimoProduto := data last in
     let* novaOrdem := plus (js_or (get "ordem" ultimoProduto) (VNum 0)) (VNum 1) in
     let* trimmed := call_trim titulo in
     let* r := await (supabase_from "produtos_loja"
                        [q_insert (VObj [
                           ("titulo", VStr trimmed);
                           ("imagem_url", imagem_url);
                           ("link_mercadolivre", link_mercadolivre);
                           ("ordem", novaOrdem);
                           ("ativo", VBool true);
                           ("criado_em", VStr (toISOString now))]);
                         q_select "*"; q_single]) in
     throw_if_error r ;;
     res_json (VObj [("success", VBool true); ("data", data r)]))
    (fun error => res_status_json 500 (error_body "Erro ao criar produto" error)).

End Routes.

(** ** The fallback client of supabaseClient.js

    When the URL or the key is missing, [supabase] is [supabaseStub]. Its
    objects are told apart by the methods they carry. *)
Inductive StubObject : Type :=
| stubFromObject   (* what [supabaseStub.from()] returns *)
| stubChain
| stubPromise.     (* what the async [stubResponse] returns *)

(** The value the promise of [stubResponse] resolves to. *)
Definition stubResponse : Result :=
  {| data := VNull;
     error := Some (new_Error
       "Supabase not configured (SUPABASE_URL/SUPABASE_SERVICE_KEY missing or invalid)");
     count := VUndef |}.

Definition method_name (s : Step) : string :=
  match s with
  | q_select _ | q_select_count _ => "select"
  | q_insert _ => "insert"
  | q_update _ => "update"
  | q_delete => "delete"
  | q_upsert _ _ => "upsert"
  | q_eq _ _ => "eq"
  | q_order _ _ => "order"
  | q_range _ _ => "range"
  | q_limit _ => "limit"
  | q_maybeSingle => "maybeSingle"
  | q_single => "single"
  end.

(** [o.m(..)]: the object returned, or [None] when [o] has no method [m]
    (a promise has none of the client's methods). *)
Definition stub_method (o : StubObject) (s : Step) : option StubObject :=
  match o, s with
  | stubFromObject, (q_select _ | q_select_count _) => Some stubChain
  | stubFromObject, (q_insert _ | q_update _ | q_delete | q_upsert _ _
                    | q_maybeSingle | q_single) => Some stubPromise
  | stubFromObject, q_eq _ _ => Some stubFromObject
  | stubFromObject, _ => None
  | stubChain, (q_select _ | q_select_count _ | q_insert _ | q_update _
               | q_delete | q_upsert _ _ | q_maybeSingle | q_single
               | q_range _ _) => Some stubPromise
  | stubChain, (q_eq _ _ | q_order _ _) => Some stubChain
  | stubChain, _ => None
  | stubPromise, _ => None
  end.

Fixpoint stub_calls (o : StubObject) (chain : list Step)
  : JsError + StubObject :=
  match chain with
  | [] => inr o
  | s :: rest =>
      match stub_method o s with
      | Some o' => stub_calls o' rest
      | None => inl (new_Error (method_name s ++ " is not a function"))
      end
  end.

(** [await o]. The [then] of [stubChain] takes no callbacks and never
    calls back, so the await never resumes; the object of [from()] is not
    a thenable and is its own value, whose [data] and [error] are
    undefined. *)
Definition stub_await (o : StubObject) : Answer :=
  match o with
  | stubPromise => Settles (Fulfilled stubResponse)
  | stubChain => Never
  | stubFromObject =>
      Settles (Fulfilled {| data := VUndef; error := None; count := VUndef |})
  end.

Definition supabaseStub : Server := fun q =>
  match stub_calls stubFromObject (chain q) with
  | inl e => Settles (Rejected e)
  | inr o => stub_await o
  end.

(** ** An in-memory store

    Tables of rows without constraints or defaults, answering the chains
    the way the hosted store does: [eq] compares the text of the two
    values, [order] sorts with NULL as the largest value, [range] and
    [limit] cut a window, [maybeSingle] and [single] check how many rows
    are left. *)
Abbreviation DB := (gmap string (list Row)).

Definition pg_error (c msg : string) : JsError :=
  {| code := Some c; message := msg; details := None; stack := None |}.

Definition pg_text (v : Val) : option string :=
  match v with
  | VStr s => Some s
  | VNum n => Some (Number_toString n)
  | VBool true => Some "true"
  | VBool false => Some "false"
  | _ => None
  end.

Definition eq_match (column : string) (v : Val) (r : Row) : bool :=
  match pg_text (assoc column r), pg_text v with
  | Some a, Some b => String.eqb a b
  | _, _ => false
  end.

Fixpoint matches (chain : list Step) (r : Row) : bool :=
  match chain with
  | [] => true
  | q_eq c v :: rest => eq_match c v r && matches rest r
  | _ :: rest => matches rest r
  end.

Definition rank (v : Val) : nat :=
  match v with
  | VBool _ => 0 | VNum _ => 1 | VStr _ => 2 | VArr _ => 3 | VObj _ => 4
  | VNaN => 5 | VNull | VUndef => 6
  end.

Definition val_compare (a b : Val) : comparison :=
  match a, b with
  | VNum x, VNum y => Z.compare x y
  | VStr x, VStr y => String.compare x y
  | _, _ => Nat.compare (rank a) (rank b)
  end.

Definition row_leb (column : string) (ascending : bool) (r1 r2 : Row) : bool :=
  let c := val_compare (assoc column r1) (assoc column r2) in
  match (if ascending then c else CompOpp c) with
  | Gt => false
  | _ => true
  end.

Fixpoint insert_by (leb : Row -> Row -> bool) (x : Row) (l : list Row)
  : list Row :=
  match l with
  | [] => [x]
  | y :: l' => if leb x y then x :: y :: l' else y :: insert_by leb x l'
  end.

Definition order_by (column : string) (ascending : bool) (rows : list Row)
  : list Row :=
  fold_right (insert_by (row_leb column ascending)) [] rows.

(** The [order], [range] and [limit] steps of a chain, in turn. *)
Fixpoint arrange (chain : list Step) (rows : list Row)
  : JsError + list Row :=
  match chain with
  | [] => inr rows
  | q_order c asc :: rest => arrange rest (order_by c asc rows)
  | q_range (VNum lo) (VNum hi) :: rest =>
      if (lo <? 0) || (hi - lo + 1 <? 0)
      then inl (pg_error "PGRST103" "Requested range not satisfiable")
      else arrange rest
             (firstn (Z.to_nat (hi - lo + 1)) (skipn (Z.to_nat lo) rows))
  | q_range _ _ :: rest =>
      inl (pg_error "PGRST103" "Requested range not satisfiable")
  | q_limit n :: rest =>
      if n <? 0
      then inl (pg_error "PGRST103" "Requested range not satisfiable")
      else arrange rest (firstn (Z.to_nat n) rows)
  | _ :: rest => arrange rest rows
  end.

Fixpoint split_comma (s : string) : list string :=
  match s with
  | EmptyString => [EmptyString]
  | String c s' =>
      let rest := split_comma s' in
      if Ascii.eqb c "," then EmptyString :: rest
      else match rest with
           | h :: t => String c h :: t
           | [] => [String c EmptyString]
           end
  end.

(** The columns of [select(columns)]; a column the row lacks reads NULL. *)
Definition project (columns : string) (r : Row) : Row :=
  if String.eqb columns "*" then r
  else List.map (fun c => (c, match assoc c r with VUndef => VNull | v => v end))
                (List.map trim (split_comma columns)).

Fixpoint has_single (chain : list Step) : bool :=
  match chain with
  | [] => false
  | q_single :: _ => true
  | _ :: rest => has_single rest
  end.

Fixpoint has_maybeSingle (chain : list Step) : bool :=
  match chain with
  | [] => false
  | q_maybeSingle :: _ => true
  | _ :: rest => has_maybeSingle rest
  end.

Definition not_one_row : JsError :=
  pg_error "PGRST116" "JSON object requested, multiple (or no) rows returned".

Definition cardinality (chain : list Step) (rows : list Row) : Result :=
  if has_single chain then
    match rows with
    | [r] => success (VObj r)
    | _ => failure not_one_row
    end
  else if has_maybeSingle chain then
    match rows with
    | [] => success VNull
    | [r] => success (VObj r)
    | _ => failure not_one_row
    end
  else success (VArr (List.map VObj rows)).

Definition answer_rows (columns : string) (chain : list Step)
  (rows : list Row) : Result :=
  match arrange chain rows with
  | inl e => failure e
  | inr rows' => cardinality chain (List.map (project columns) rows')
  end.

(** The [select(..)] that follows a write asks for the written rows. *)
Fixpoint returning (chain : list Step) : option string :=
  match chain with
  | [] => None
  | q_select columns :: _ => Some columns
  | _ :: rest => returning rest
  end.

Definition answer_write (chain : list Step) (written : list Row) : Result :=
  match returning chain with
  | Some columns => answer_rows columns chain written
  | None => success VNull
  end.

Definition rows_of (values : Val) : list Row :=
  match values with
  | VArr items => List.map spread items
  | v => [spread v]
  end.

Definition merge (patch : Row) (r : Row) : Row :=
  fold_left (fun acc kv => set_field (fst kv) (snd kv) acc) patch r.

Definition exec (db : DB) (q : Query) : Settled * DB :=
  match db !! table q with
  | None =>
      (Fulfilled (failure (pg_error "PGRST205"
         ("Could not find the table 'public." ++ table q ++ "' in the schema cache"))),
       db)
  | Some rows =>
      match chain q with
      | q_select columns :: rest =>
          (Fulfilled (answer_rows columns rest (List.filter (matches rest) rows)), db)
      | q_select_count _ :: rest =>
          (Fulfilled {| data := VNull; error := None;
                        count := VNum (Z.of_nat (length (List.filter (matches rest) rows))) |},
           db)
      | q_insert values :: rest =>
          (Fulfilled (answer_write rest (rows_of values)),
           <[table q := (rows ++ rows_of values)%list]> db)
      | q_update values :: rest =>
          (Fulfilled (answer_write rest
                        (List.map (merge (spread values))
                                  (List.filter (matches rest) rows))),
           <[table q := List.map (fun r => if matches rest r
                                           then merge (spread values) r else r)
                                 rows]> db)
      | q_delete :: rest =>
          (Fulfilled (answer_write rest (List.filter (matches rest) rows)),
           <[table q := List.filter (fun r => negb (matches rest r)) rows]> db)
      | q_upsert _ _ :: _ =>
          (Fulfilled (failure (pg_error "42P10"
             "there is no unique or exclusion constraint matching the ON CONFLICT specification")),
           db)
      | s :: _ => (Rejected (new_Error (method_name s ++ " is not a function")), db)
      | [] => (Fulfilled {| data := VUndef; error := None; count := VUndef |}, db)
      end
  end.

Fixpoint run_db {A : Type} (p : Prog A) (db : DB) : A * DB :=
  match p with
  | Ret a => (a, db)
  | Await _ q k => let '(s, db') := exec db q in run_db (k s) db'
  end.

(** One request served by the in-memory store. *)
Definition request_db (h : Handler unit) (db : DB) : Served * DB :=
  let '(c, db') := run_db h db in (serve c, db').

(** ** More helpers shared by the routes *)

(** [v.length] of a value that is neither [null] nor [undefined]. *)
Definition length_of (v : Val) : Val :=
  match v with
  | VStr s => VNum (Z.of_nat (String.length s))
  | VArr items => VNum (Z.of_nat (length items))
  | VObj fs => assoc "length" fs
  | _ => VUndef
  end.

(** [v.length]: reading a property of [null] or [undefined] throws. *)
Definition read_length (v : Val) : Handler Val :=
  if nullish v
  then throw (new_Error "Cannot read properties of null (reading 'length')")
  else ret (length_of v).

(** [v[0]] *)
Definition index0 (v : Val) : Val :=
  match v with
  | VArr (x :: _) => x
  | VStr (String c _) => VStr (String c EmptyString)
  | VObj fs => assoc "0" fs
  | _ => VUndef
  end.

(** [v.map(..)] and [v.filter(..)] exist on arrays only. *)
Definition call_array (method : string) (v : Val) : Handler (list Val) :=
  match v with
  | VArr items => ret items
  | VUndef | VNull =>
      throw (new_Error ("Cannot read properties of " ++ toString v
                        ++ " (reading '" ++ method ++ "')"))
  | _ => throw (new_Error (method ++ " is not a function"))
  end.

(** [xs.filter(x => f x)] with a callback that may throw. *)
Fixpoint filter_each (f : Val -> Handler bool) (xs : list Val)
  : Handler (list Val) :=
  match xs with
  | [] => ret []
  | x :: rest =>
      let* keep := f x in
      let* ys := filter_each f rest in
      ret (if keep then x :: ys else ys)
  end.

(** [s.split(c)[0]] *)
Fixpoint before (c : ascii) (s : string) : string :=
  match s with
  | EmptyString => EmptyString
  | String c' s' => if Ascii.eqb c' c then EmptyString
                    else String c' (before c s')
  end.

(** The own enumerable properties [Object.assign] and [{ ...v }] copy. *)
Fixpoint indexed (i : Z) (items : list Val) : Row :=
  match items with
  | [] => []
  | x :: rest => (Number_toString i, x) :: indexed (i + 1) rest
  end.

Definition own_properties (v : Val) : Row :=
  match v with
  | VObj fs => fs
  | VArr items => indexed 0 items
  | VStr s =>
      indexed 0 (List.map (fun c => VStr (String c EmptyString))
                          (list_ascii_of_string s))
  | _ => []
  end.

(** [Object.assign({}, a, b)] *)
Definition Object_assign (a b : Val) : Val :=
  VObj (fold_left (fun acc kv => set_field (fst kv) (snd kv) acc)
                  (own_properties a ++ own_properties b)%list []).

(** [xs.sort(cmp)], a stable sort: [x] stays ahead of [y] unless
    [cmp x y] is positive ([None] is a NaN, which counts as zero). For
    a comparator that orders the items consistently this is the one
    stable arrangement. *)
Fixpoint sort_insert (cmp : Val -> Val -> option Z) (x : Val) (l : list Val)
  : list Val :=
  match l with
  | [] => [x]
  | y :: l' =>
      if match cmp x y with Some c => c <=? 0 | None => true end
      then x :: y :: l'
      else y :: sort_insert cmp x l'
  end.

Definition Array_sort (cmp : Val -> Val -> option Z) (xs : list Val)
  : list Val :=
  fold_right (sort_insert cmp) [] xs.

(** [JSON.stringify] and [JSON.parse] belong to the engine; [inl] is the
    SyntaxError of a text that is not JSON. *)
Class JsJSON : Type := {
  JSON_stringify : Val -> string;
  JSON_parse : string -> JsError + Val
}.

(** ** Further routes of index.js *)

Section MoreRoutes.
Context {D : JsDate} {J : JsJSON}.
Variable now : Z.

(** [POST /test-login] *)
Definition post_test_login (req_body : Val) : Handler unit :=
  try_catch
    (let* b := destructure req_body in
     let email := get "email" b in
     let senha := get "senha" b in
     if negb (truthy email) || negb (truthy senha) then
       res_status_json 400 (VObj [("error", VStr "Email e senha são obrigatórios")])
     else
     let* r := await (supabase_from "users"
                        [q_select "*"; q_eq "email" email; q_eq "senha" senha]) in
     match error r with
     | Some error =>
         res_status_json 500
           (VObj [("error", VStr "Erro ao consultar banco de dados");
                  ("details", VStr (message error));
                  ("code", opt_str (code error))])
     | None =>
         let data := data r in
         if negb (truthy data) || strict_eq (length_of data) (VNum 0) then
           res_status_json 401 (VObj [("error", VStr "Credenciais inválidas")])
         else
         res_json (VObj [("success", VBool true);
                         ("user", index0 data);
                         ("message", VStr "Login bem-sucedido")])
     end)
    (fun error =>
       res_status_json 500 (error_body "Erro ao processar login" error)).

(** [GET /progresso/:email] *)
Definition progresso_entry (r : Val) : Handler Val :=
  let* r := destructure r in
  let dados := get "dados" r in
  ret (VObj [
    ("criado_em",
     js_or (js_or (js_or (get "criado_em" r) (get "created_at" r)) (get "data" r))
           VNull);
    ("treino_id", js_or (js_or (get "treino_id" r) (get "treinoId" r)) VNull);
    ("dados",
     Object_assign (js_or dados (VObj []))
       (VObj [("peso_corporal",
               js_or (js_or (get "peso_corporal" r)
                            (js_and dados (get "peso_corporal" dados))) VNull);
              ("loads",
               js_or (js_or (get "loads" r)
                            (js_and dados (get "loads" dados))) VNull)]))]).

Definition consultoria_entry (r : Val) : Handler Val :=
  let* r := destructure r in
  ret (VObj [("criado_em", js_or (js_or (get "data" r) (get "criado_em" r)) VNull);
             ("dados", js_or (get "dados" r) (VObj []))]).

(** [x.criado_em ? new Date(x.criado_em).getTime() : 0] *)
Definition entry_time (x : Val) : option Z :=
  if truthy (get "criado_em" x) then Date_parse (get "criado_em" x) else Some 0.

(** The comparator [(a, b) => tb - ta]. *)
Definition newest_entry_first (a b : Val) : option Z :=
  match entry_time a, entry_time b with
  | Some ta, Some tb => Some (tb - ta)
  | _, _ => None
  end.

Definition get_progresso (email : string) : Handler unit :=
  try_catch
    (let* decoded := call_decodeURIComponent email in
     let email := toLowerCase (trim decoded) in
     if negb (truthy (VStr email)) then
       res_status_json 400 (VObj [("error", VStr "email é obrigatório")])
     else
     let* u := await (supabase_from "users"
                        [q_select "id,email,criado_por";
                         q_eq "email" (VStr email); q_maybeSingle]) in
     throw_if_error u ;;
     let user := data u in
     let* progressoRows :=
       try_catch
         (let* p := await (supabase_from "progresso"
                             [q_select "*"; q_eq "aluno_email" (VStr email);
                              q_order "criado_em" false]) in
          throw_if_error p ;;
          ret (js_or (data p) (VArr [])))
         (fun pErr =>
            if bool_decide (code pErr = Some "PGRST205") then ret (VArr [])
            else throw pErr) in
     let* consultoriasRows :=
       if truthy (js_and user (get "id" user)) then
         try_catch
           (let* c := await (supabase_from "consultorias"
                               [q_select "*"; q_eq "client_id" (get "id" user);
                                q_order "data" false]) in
            throw_if_error c ;;
            ret (js_or (data c) (VArr [])))
           (fun cErr => ret (VArr []))
       else ret (VArr []) in
     let* ps := call_array "map" (js_or progressoRows (VArr [])) in
     let* mappedProgresso := for_each progresso_entry ps in
     let* cs := call_array "map" (js_or consultoriasRows (VArr [])) in
     let* mappedConsultorias := for_each consultoria_entry cs in
     let combined := (mappedProgresso ++ mappedConsultorias)%list in
     res_json (VArr (Array_sort newest_entry_first combined)))
    (fun error => res_status_json 500 (error_body "Erro ao buscar progresso" error)).

(** [POST /treinos]. The line that logs the payload parses the text of
    the workout, and so throws on a text that is not JSON. *)
Definition post_treinos (req_body : Val) : Handler unit :=
  try_catch
    (let b := js_or req_body (VObj []) in
     let aluno_email := get "aluno_email" b in
     let treino := get "treino" b in
     let dataField := get "data" b in
     if negb (truthy aluno_email) || negb (truthy treino) then
       res_status_json 400
         (VObj [("error", VStr "aluno_email e treino são obrigatórios")])
     else
     let text := match treino with
                 | VStr s => s
                 | _ => JSON_stringify treino
                 end in
     let payload := VObj [("aluno_email", aluno_email);
                          ("treino", VStr text);
                          ("data", js_or dataField (VStr (toISOString now)))] in
     let* logged :=
       match JSON_parse (toString (js_or (VStr text) (VStr "[]"))) with
       | inl e => throw e
       | inr v => ret v
       end in
     let* r := await (supabase_from "treinos"
                        [q_insert (VArr [payload]); q_select "*"]) in
     throw_if_error r ;;
     res_json (js_or (data r) (VArr [])))
    (fun error => res_status_json 500 (error_body "Erro ao salvar treino" error)).

(** [GET /contract-settings/:professor_email/:aluno_email] *)
Definition get_contract_settings (professor_email aluno_email : string)
  : Handler unit :=
  try_catch
    (let* p := call_decodeURIComponent professor_email in
     let professor := toLowerCase (trim p) in
     let* a := call_decodeURIComponent aluno_email in
     let aluno := toLowerCase (trim a) in
     if negb (truthy (VStr professor)) || negb (truthy (VStr aluno)) then
       res_status_json 400
         (VObj [("error", VStr "professor_email e aluno_email são obrigatórios")])
     else
     let* r := await (supabase_from "contract_settings"
                        [q_select "*"; q_eq "professor_email" (VStr professor);
                         q_eq "aluno_email" (VStr aluno); q_maybeSingle]) in
     throw_if_error r ;;
     res_json (js_or (data r) (VObj [])))
    (fun error =>
       res_status_json 500 (error_body "Erro ao buscar configurações" error)).

(** [GET /contracts/professor/:professor_email] *)
Definition student_email (a : Val) : Handler Val :=
  let* a := destructure a in
  let* e := call_toLowerCase (get "email" a) in
  ret (VStr e).

Definition of_student (alunosEmails : list Val) (c : Val) : Handler bool :=
  let* c := destructure c in
  let* alunoEmail :=
    call_toLowerCase (js_or (get "aluno_email" c) (VStr EmptyString)) in
  ret (existsb (strict_eq (VStr alunoEmail)) alunosEmails).

Definition get_contracts_professor (professor_email : string) : Handler unit :=
  try_catch
    (let* p := call_decodeURIComponent professor_email in
     let professor := toLowerCase (trim p) in
     if negb (truthy (VStr professor)) then
       res_status_json 400 (VObj [("error", VStr "professor_email é obrigatório")])
     else
     let* s := await (supabase_from "users"
                        [q_select "email"; q_eq "criado_por" (VStr professor)]) in
     match error s with
     | Some alunosErr =>
         res_status_json 500 (VObj [("error", VStr (message alunosErr))])
     | None =>
         let alunosDoProf := data s in
         if negb (truthy alunosDoProf)
            || strict_eq (length_of alunosDoProf) (VNum 0) then
           res_json (VArr [])
         else
         let* students := call_array "map" alunosDoProf in
         let* alunosEmails := for_each student_email students in
         let* c := await (supabase_from "contracts" [q_select "*"]) in
         match error c with
         | Some error =>
             res_status_json 500 (VObj [("error", VStr (message error))])
         | None =>
             let* contracts := call_array "filter" (data c) in
             let* filtered := filter_each (of_student alunosEmails) contracts in
             res_json (VArr filtered)
         end
     end)
    (fun error => res_status_json 500 (VObj [("error", VStr (message error))])).

(** [GET /contracts/:id] *)
Definition get_contracts_id (id : string) : Handler unit :=
  try_catch
    (if negb (truthy (VStr id)) then
       res_status_json 400 (VObj [("error", VStr "id é obrigatório")])
     else
     let* r := await (supabase_from "contracts"
                        [q_select "*"; q_eq "id" (VStr id); q_maybeSingle]) in
     throw_if_error r ;;
     if negb (truthy (data r)) then
       res_status_json 404 (VObj [("error", VStr "Contrato não encontrado")])
     else res_json (data r))
    (fun error => res_status_json 500 (error_body "Erro ao buscar contrato" error)).

(** [DELETE /contracts/:id]; [professor_email] is the query parameter,
    [undefined] when the request has none. *)
Definition delete_contracts_id (id : string) (professor_email : Val)
  : Handler unit :=
  try_catch
    (let* professorEmail :=
       if truthy professor_email then
         let* d := call_decodeURIComponent (toString professor_email) in
         ret (VStr (toLowerCase (trim d)))
       else ret VNull in
     if negb (truthy (VStr id)) then
       res_status_json 400 (VObj [("error", VStr "id é obrigatório")])
     else
     let* found := await (supabase_from "contracts"
                            [q_select "*"; q_eq "id" (VStr id); q_maybeSingle]) in
     throw_if_error found ;;
     let existing := data found in
     if negb (truthy existing) then
       res_status_json 404 (VObj [("error", VStr "Contrato não encontrado")])
     else
     let differs (owner : Val) :=
       negb (strict_eq (VStr (toLowerCase (trim (toString owner))))
                       professorEmail) in
     if truthy professorEmail
        && truthy (get "criado_por" existing)
        && differs (get "criado_por" existing)
        && truthy (get "professor_email" existing)
        && differs (get "professor_email" existing) then
       res_status_json 403
         (VObj [("error", VStr "Não autorizado para excluir este contrato")])
     else
     let* r := await (supabase_from "contracts"
                        [q_delete; q_eq "id" (VStr id)]) in
     throw_if_error r ;;
     res_json (VObj [("deleted", VBool true)]))
    (fun error => res_status_json 500 (error_body "Erro ao deletar contrato" error)).

(** [POST /setup-admin] *)
Definition adminData : Val :=
  VObj [("email", VStr "mils@admin.com"); ("senha", VStr "mils123");
        ("nome", VStr "Administrador"); ("tipo", VStr "admin")].

Definition post_setup_admin : Handler unit :=
  try_catch
    (let* t := await (supabase_from "users" [q_select "count"; q_limit 1]) in
     match error t with
     | Some tableError =>
         throw (new_Error ("Erro ao verificar tabela: " ++ message tableError))
     | None => ret tt
     end ;;
     let* found := await (supabase_from "users"
                            [q_select "*"; q_eq "email" (VStr "mils@admin.com");
                             q_maybeSingle]) in
     let existingAdmin := data found in
     if truthy existingAdmin then
       res_json (VObj [("message", VStr "Admin já existe");
                       ("data", existingAdmin)])
     else
     let* ins := await (supabase_from "users"
                          [q_insert (VArr [adminData]); q_select "*";
                           q_maybeSingle]) in
     match error ins with
     | Some insertError =>
         throw (new_Error ("Erro ao inserir admin: " ++ message insertError))
     | None => ret tt
     end ;;
     if negb (truthy (data ins)) then
       throw (new_Error "Admin não foi inserido por razão desconhecida")
     else
     res_json (VObj [("message", VStr "Admin criado com sucesso");
                     ("data", data ins);
                     ("adminData", adminData)]))
    (fun error =>
       res_status_json 500 (VObj [
         ("error", VStr "Erro ao criar admin");
         ("details", VStr (message error));
         ("stack", opt_str (stack error));
         ("timestamp", VStr (toISOString now))])).

(** [POST /admin-contracts/renovar] *)
Definition normalizedDate (contract_end : Val) : Val :=
  match contract_end with
  | VStr s => if (String.length s =? 10)%nat then VStr (s ++ "T00:00:00Z")
              else contract_end
  | _ => contract_end
  end.

Definition post_admin_contracts_renovar (req_body : Val) : Handler unit :=
  try_catch
    (let* b := destructure req_body in
     let professor_email := get "professor_email" b in
     let contract_end := get "contract_end" b in
     if negb (truthy professor_email) || negb (truthy contract_end) then
       res_status_json 400
         (VObj [("error", VStr "professor_email e contract_end são obrigatórios")])
     else
     let normalizedDate := normalizedDate contract_end in
     let* lowered := call_toLowerCase professor_email in
     let* upd := await (supabase_from "admin_contracts"
                          [q_update (VObj [("contract_end", normalizedDate);
                                           ("updated_at", VStr (toISOString now))]);
                           q_eq "professor_email" (VStr lowered);
                           q_select "*"]) in
     let updated := data upd in
     match error upd with
     | Some updateError =>
         let* create :=
           if includes "No rows found" (message updateError) then ret true
           else
             let* n := read_length updated in
             ret (strict_eq n (VNum 0)) in
         if create then
           let* ins := await (supabase_from "admin_contracts"
                                [q_insert (VArr [VObj [
                                   ("professor_email", VStr lowered);
                                   ("admin_email", VStr "mils@admin.com");
                                   ("contract_start", VStr (toISOString now));
                                   ("contract_end", normalizedDate);
                                   ("status", VStr "active")]]);
                                 q_select "*"]) in
           throw_if_error ins ;;
           res_json (VObj [("message", VStr "Contrato criado com sucesso");
                           ("data", data ins)])
         else throw updateError
     | None =>
         await (supabase_from "users"
                  [q_update (VObj [("contract_end", normalizedDate)]);
                   q_eq "email" (VStr lowered); q_select "*"]) ;;
         res_json (VObj [("message", VStr "Contrato renovado com sucesso");
                         ("data", updated)])
     end)
    (fun error => res_status_json 500 (VObj [("error", VStr (message error))])).

(** [GET /admin-contracts] *)
Definition iso_day (v : Val) : Handler Val :=
  if truthy v then
    match Date_parse v with
    | Some t => ret (VStr (before "T" (toISOString t)))
    | None => throw (new_Error "Invalid time value")
    end
  else ret VNull.

Definition normalized_contract (c : Val) : Handler Val :=
  let* c := destructure c in
  let* contract_end := iso_day (get "contract_end" c) in
  let* contract_start := iso_day (get "contract_start" c) in
  ret (VObj (set_field "contract_start" contract_start
               (set_field "contract_end" contract_end (own_properties c)))).

Definition get_admin_contracts : Handler unit :=
  try_catch
    (let* r := await (supabase_from "admin_contracts"
                        [q_select "id, professor_email, contract_end, contract_start, status";
                         q_order "contract_end" false]) in
     match error r with
     | Some _ => res_json (VArr [])
     | None =>
         let* contracts := call_array "map" (js_or (data r) (VArr [])) in
         let* normalized := for_each normalized_contract contracts in
         res_json (VArr normalized)
     end)
    (fun error => res_status_json 500 (VObj [("error", VStr (message error))])).

(** [GET /professores] and [GET /alunos] *)
Definition get_professores : Handler unit :=
  try_catch
    (let* r := await (supabase_from "users"
                        [q_select "*"; q_eq "tipo" (VStr "professor")]) in
     throw_if_error r ;;
     res_json (js_or (data r) (VArr [])))
    (fun error => res_status_json 500 (error_body "Erro ao buscar professores" error)).

Definition get_alunos : Handler unit :=
  try_catch
    (let* r := await (supabase_from "users"
                        [q_select "*"; q_eq "tipo" (VStr "aluno")]) in
     throw_if_error r ;;
     res_json (js_or (data r) (VArr [])))
    (fun error => res_status_json 500 (error_body "Erro ao buscar alunos" error)).

(** [DELETE /alunos/:id] *)
Definition delete_alunos_id (id : string) : Handler unit :=
  try_catch
    (let* r := await (supabase_from "users" [q_delete; q_eq "id" (VStr id)]) in
     throw_if_error r ;;
     res_json (VObj [("deleted", VBool true)]))
    (fun error => res_status_json 500 (error_body "Erro ao deletar usuário" error)).

(** [GET /mensagens]; [para] and [de] are the query parameters. *)
Definition get_mensagens (para de : Val) : Handler unit :=
  try_catch
    (let query :=
       ([q_select "*"]
        ++ (if truthy para then [q_eq "para" para] else [])
        ++ (if truthy de then [q_eq "de" de] else []))%list in
     let* r := await (supabase_from "mensagens" query) in
     throw_if_error r ;;
     res_json (js_or (data r) (VArr [])))
    (fun error => res_status_json 500 (error_body "Erro ao buscar mensagens" error)).

(** [POST /mensagens] *)
Definition post_mensagens (req_body : Val) : Handler unit :=
  try_catch
    (let b := js_or req_body (VObj []) in
     let de := get "de" b in
     let para := get "para" b in
     let mensagem := get "mensagem" b in
     if negb (truthy de) || negb (truthy para) || negb (truthy mensagem) then
       res_status_json 400
         (VObj [("error", VStr "de, para e mensagem são obrigatórios")])
     else
     let payload := VObj [("de", de); ("para", para); ("mensagem", mensagem)] in
     let* r := await (supabase_from "mensagens"
                        [q_insert (VArr [payload]); q_select "*"; q_maybeSingle]) in
     match error r with
     | Some error =>
         res_status_json 500
           (VObj [("error", VStr "Erro ao salvar mensagem");
                  ("details", VStr (message error));
                  ("code", opt_str (code error));
                  ("hint", opt_str (details error))])
     | None => res_json (data r)
     end)
    (fun error =>
       res_status_json 500 (error_body "Erro interno ao enviar mensagem" error)).

(** [DELETE /mensagens/:id] *)
Definition delete_mensagens_id (id : string) : Handler unit :=
  try_catch
    (if negb (truthy (VStr id)) then
       res_status_json 400 (VObj [("error", VStr "id é obrigatório")])
     else
     let* r := await (supabase_from "mensagens" [q_delete; q_eq "id" (VStr id)]) in
     match error r with
     | Some error =>
         res_status_json 500 (error_body "Erro ao deletar mensagem" error)
     | None => res_json (VObj [("deleted", VBool true)])
     end)
    (fun error => res_status_json 500 (error_body "Erro ao deletar mensagem" error)).

(** [POST /consultorias] *)
Definition post_consultorias (req_body : Val) : Handler unit :=
  try_catch
    (let b := js_or req_body (VObj []) in
     let aluno_id := get "aluno_id" b in
     let tipo := get "tipo" b in
     let dados := get "dados" b in
     let criado_por := get "criado_por" b in
     let* client_id :=
       if truthy aluno_id then ret aluno_id
       else
         let* rb := destructure req_body in
         ret (js_or (get "client_id" rb) VNull) in
     if negb (truthy client_id) then
       res_status_json 400
         (VObj [("error", VStr "aluno_id (client_id) é obrigatório")])
     else
     let* text := ToString client_id in
     let payload := VObj [("client_id", parseInt10 text);
                          ("tipo", js_or tipo (VStr "consultoria"));
                          ("dados", js_or dados (VObj []));
                          ("criado_por", js_or criado_por VNull);
                          ("data", VStr (toISOString now))] in
     let* r := await (supabase_from "consultorias"
                        [q_insert (VArr [payload]); q_select "*"]) in
     throw_if_error r ;;
     res_json (js_or (data r) (VArr [])))
    (fun error => res_status_json 500 (error_body "Erro ao salvar consultoria" error)).

(** [GET /consultorias/:clientId] *)
Definition get_consultorias (clientId : string) : Handler unit :=
  try_catch
    (if negb (truthy (VStr clientId)) then
       res_status_json 400 (VObj [("error", VStr "clientId inválido")])
     else
     let clientId := parseInt10 (trim (before_colon clientId)) in
     if negb (truthy clientId)
        || match clientId with VNaN => true | _ => false end then
       res_status_json 400 (VObj [("error", VStr "clientId inválido")])
     else
     let* r := await (supabase_from "consultorias"
                        [q_select "*"; q_eq "client_id" clientId;
                         q_order "data" false]) in
     match error r with
     | Some error =>
         if bool_decide (code error = Some "42P01")
            || includes "does not exist" (message error) then
           res_json (VArr [])
         else
           res_status_json 500
             (VObj [("error", VStr "Erro ao buscar consultorias");
                    ("details", VStr (message error));
                    ("code", opt_str (code error))])
     | None => res_json (js_or (data r) (VArr []))
     end)
    (fun error =>
       res_status_json 500
         (VObj [("error", VStr "Erro inesperado ao buscar consultorias");
                ("message", VStr (message error))])).

(** [GET /consultorias/email/:email] *)
Definition get_consultorias_email (email : string) : Handler unit :=
  try_catch
    (let* email := call_decodeURIComponent email in
     if negb (truthy (VStr email)) then
       res_status_json 400 (VObj [("error", VStr "email inválido")])
     else
     let* u := await (supabase_from "users"
                        [q_select "id,email"; q_eq "email" (VStr email);
                         q_maybeSingle]) in
     throw_if_error u ;;
     let user := data u in
     if negb (truthy user) || negb (truthy (get "id" user)) then
       res_json (VArr [])
     else
     let* r := await (supabase_from "consultorias"
                        [q_select "*"; q_eq "client_id" (get "id" user);
                         q_order "data" false]) in
     throw_if_error r ;;
     res_json (js_or (data r) (VArr [])))
    (fun error =>
       res_status_json 500 (error_body "Erro ao buscar consultorias por email" error)).

(** [DELETE /consultorias/:id] *)
Definition delete_consultorias_id (id : string) : Handler unit :=
  try_catch
    (if negb (truthy (VStr id)) then
       res_status_json 400 (VObj [("error", VStr "id é obrigatório")])
     else
     let* found := await (supabase_from "consultorias"
                            [q_select "id"; q_eq "id" (VStr id); q_maybeSingle]) in
     throw_if_error found ;;
     if negb (truthy (data found)) then
       res_status_json 404 (VObj [("error", VStr "Consultoria não encontrada")])
     else
     let* r := await (supabase_from "consultorias"
                        [q_delete; q_eq "id" (VStr id)]) in
     throw_if_error r ;;
     res_json (VObj [("deleted", VBool true)]))
    (fun error => res_status_json 500 (error_body "Erro ao deletar consultoria" error)).

(** [PUT /alunos/foto/:id] *)
Definition put_alunos_foto (id : string) (req_body : Val) : Handler unit :=
  try_catch
    (let foto := get "foto" (js_or req_body (VObj [])) in
     if negb (truthy (VStr id)) then
       res_status_json 400 (VObj [("error", VStr "id é obrigatório")])
     else
     let id := parseInt10 (trim (before_colon id)) in
     if negb (truthy id) || match id with VNaN => true | _ => false end then
       res_status_json 400 (VObj [("error", VStr "id inválido")])
     else if negb (truthy foto) then
       res_status_json 400 (VObj [("error", VStr "campo foto é obrigatório")])
     else
     let* r := await (supabase_from "users"
                        [q_update (VObj [("foto", foto)]); q_eq "id" id;
                         q_select "*"; q_maybeSingle]) in
     throw_if_error r ;;
     if negb (truthy (data r)) then
       res_status_json 404
         (VObj [("error", VStr "Aluno não encontrado para atualizar foto")])
     else res_json (VObj [("success", VBool true); ("data", data r)]))
    (fun error => res_status_json 500 (error_body "Erro ao salvar foto" error)).

(** [GET /admin/settings/:chave] and [POST /admin/settings/:chave] *)
Definition get_admin_settings (chave : string) : Handler unit :=
  try_catch
    (let* r := await (supabase_from "settings"
                        [q_select "*"; q_eq "chave" (VStr chave); q_maybeSingle]) in
     throw_if_error r ;;
     if negb (truthy (data r)) then
       res_status_json 404 (VObj [("error", VStr "Configuração não encontrada")])
     else res_json (data r))
    (fun error => res_status_json 500 (error_body "Erro ao buscar configuração" error)).

Definition post_admin_settings (chave : string) (req_body : Val) : Handler unit :=
  try_catch
    (let valor := get "valor" (js_or req_body (VObj [])) in
     if nullish valor then
       res_status_json 400 (VObj [("error", VStr "valor é obrigatório")])
     else
     let* r := await (supabase_from "settings"
                        [q_upsert (VObj [("chave", VStr chave); ("valor", valor);
                                         ("atualizado_em", VStr (toISOString now))])
                                  "chave";
                         q_select "*"; q_maybeSingle]) in
     throw_if_error r ;;
     res_json (VObj [("success", VBool true); ("data", data r)]))
    (fun error =>
       res_status_json 500 (error_body "Erro ao atualizar configuração" error)).

(** [POST /posts/:id/comentar]; [x_user_email] is the request header. *)
Definition post_posts_comentar (postId : string) (req_body x_user_email : Val)
  : Handler unit :=
  try_catch
    (let* b := destructure req_body in
     let texto := get "texto" b in
     let usuarioEmail := js_or (get "usuario_email" b) x_user_email in
     let usuarioNome := js_or (get "usuario_nome" b) (VStr "Anônimo") in
     let* blank :=
       if truthy texto then
         let* t := call_trim texto in ret (negb (truthy (VStr t)))
       else ret true in
     if blank then
       res_status_json 400
         (VObj [("error", VStr "Texto do comentário é obrigatório")])
     else if negb (truthy usuarioEmail) then
       res_status_json 400 (VObj [("error", VStr "Email do usuário não fornecido")])
     else
     let* lowered := call_toLowerCase usuarioEmail in
     let* trimmed := call_trim texto in
     let* r := await (supabase_from "comentarios"
                        [q_insert (VArr [VObj [
                           ("post_id", VStr postId);
                           ("usuario_email", VStr lowered);
                           ("usuario_nome", usuarioNome);
                           ("texto", VStr trimmed);
                           ("criado_em", VStr (toISOString now))]]);
                         q_select "*"; q_single]) in
     throw_if_error r ;;
     res_json (VObj [("success", VBool true); ("data", data r)]))
    (fun error => res_status_json 500 (error_body "Erro ao comentar" error)).

(** [GET /posts/:id/curtido-por/:usuario_email] *)
Definition get_posts_curtido_por (postId usuario_email : string) : Handler unit :=
  try_catch
    (let* r := await (supabase_from "curtidas"
                        [q_select "*"; q_eq "post_id" (VStr postId);
                         q_eq "usuario_email" (VStr (toLowerCase usuario_email));
                         q_maybeSingle]) in
     res_json (VObj [("curtido", VBool (truthy (data r)))]))
    (fun error => res_status_json 500 (error_body "Erro ao verificar curtida" error)).

(** [GET /aluno/perfil/:email] *)
Definition get_aluno_perfil (email : string) : Handler unit :=
  try_catch
    (let email := toLowerCase email in
     let* r := await (supabase_from "alunos"
                        [q_select "nome, email, data_aniversario, bio, foto_url";
                         q_eq "email" (VStr email); q_maybeSingle]) in
     throw_if_error r ;;
     if negb (truthy (data r)) then
       res_json (VObj [("email", VStr email); ("nome", VStr EmptyString);
                       ("data_aniversario", VStr EmptyString);
                       ("bio", VStr EmptyString);
                       ("foto_url", VStr EmptyString)])
     else res_json (data r))
    (fun error => res_status_json 500 (error_body "Erro ao carregar perfil" error)).

(** [POST /aluno/verify-or-create]. A [Date] among the values of a
    query is sent as its ISO string. *)
Definition post_aluno_verify_or_create (req_body : Val) : Handler unit :=
  try_catch
    (let* b := destructure req_body in
     let email := get "email" b in
     let nome := get "nome" b in
     if negb (truthy email) then
       res_status_json 400 (VObj [("error", VStr "Email é obrigatório")])
     else
     let* emailLower := call_toLowerCase email in
     let* found := await (supabase_from "alunos"
                            [q_select "email, nome";
                             q_eq "email" (VStr emailLower); q_maybeSingle]) in
     match error found with
     | Some selectError =>
         if bool_decide (code selectError = Some "PGRST116") then ret tt
         else throw selectError
     | None => ret tt
     end ;;
     let existing := data found in
     if truthy existing then
       res_json (VObj [("created", VBool false); ("aluno", existing)])
     else
     let* r := await (supabase_from "alunos"
                        [q_insert (VObj [
                           ("email", VStr emailLower);
                           ("nome", js_or nome (VStr (before "@" emailLower)));
                           ("criado_em", VStr (toISOString now))]);
                         q_select "email, nome"; q_single]) in
     throw_if_error r ;;
     res_json (VObj [("created", VBool true); ("aluno", data r)]))
    (fun error =>
       res_status_json 500 (error_body "Erro ao verificar/criar aluno" error)).

(** [PUT /produtos/:id] *)
Definition put_produtos_id (id : string) (req_body : Val) : Handler unit :=
  try_catch
    (let* b := destructure req_body in
     let titulo := get "titulo" b in
     let imagem_url := get "imagem_url" b in
     let link_mercadolivre := get "link_mercadolivre" b in
     let ordem := get "ordem" b in
     let* u1 :=
       if truthy titulo then
         let* t := call_trim titulo in ret [("titulo", VStr t)]
       else ret [] in
     let u2 := if truthy imagem_url then [("imagem_url", imagem_url)] else [] in
     let u3 := if truthy link_mercadolivre
               then [("link_mercadolivre", link_mercadolivre)] else [] in
     let u4 := match ordem with VUndef => [] | _ => [("ordem", ordem)] end in
     let updates :=
       (u1 ++ u2 ++ u3 ++ u4 ++ [("atualizado_em", VStr (toISOString now))])%list in
     let* r := await (supabase_from "produtos_loja"
                        [q_update (VObj updates); q_eq "id" (VStr id);
                         q_select "*"; q_single]) in
     throw_if_error r ;;
     res_json (VObj [("success", VBool true); ("data", data r)]))
    (fun error => res_status_json 500 (error_body "Erro ao atualizar produto" error)).

(** [DELETE /produtos/:id] *)
Definition delete_produtos_id (id : string) : Handler unit :=
  try_catch
    (let* r := await (supabase_from "produtos_loja"
                        [q_update (VObj [("ativo", VBool false)]);
                         q_eq "id" (VStr id)]) in
     throw_if_error r ;;
     res_json (VObj [("success", VBool true);
                     ("message", VStr "Produto deletado")]))
    (fun error => res_status_json 500 (error_body "Erro ao deletar produto" error)).

(** [POST /aluno/perfil] *)
Definition post_aluno_perfil (req_body : Val) : Handler unit :=
  try_catch
    (let* b := destructure req_body in
     let email := get "email" b in
     let nome := get "nome" b in
     let data_aniversario := get "data_aniversario" b in
     let bio := get "bio" b in
     let foto_url := get "foto_url" b in
     if negb (truthy email) || negb (truthy nome) then
       res_status_json 400 (VObj [("error", VStr "Email e nome são obrigatórios")])
     else
     let* emailLower := call_toLowerCase email in
     let* found := await (supabase_from "alunos"
                            [q_select "email"; q_eq "email" (VStr emailLower);
                             q_maybeSingle]) in
     let existing := data found in
     if truthy existing then
       let* r := await (supabase_from "alunos"
                          [q_update (VObj [
                             ("nome", nome);
                             ("data_aniversario", js_or data_aniversario VNull);
                             ("bio", js_or bio VNull);
                             ("foto_url", js_or foto_url VNull);
                             ("atualizado_em", VStr (toISOString now))]);
                           q_eq "email" (VStr emailLower)]) in
       throw_if_error r ;;
       res_json (VObj [("success", VBool true);
                       ("message", VStr "Perfil atualizado")])
     else
       let* r := await (supabase_from "alunos"
                          [q_insert (VObj [
                             ("email", VStr emailLower);
                             ("nome", nome);
                             ("data_aniversario", js_or data_aniversario VNull);
                             ("bio", js_or bio VNull);
                             ("foto_url", js_or foto_url VNull);
                             ("criado_em", VStr (toISOString now))])]) in
       throw_if_error r ;;
       res_json (VObj [("success", VBool true);
                       ("message", VStr "Perfil criado")]))
    (fun error => res_status_json 500 (error_body "Erro ao salvar perfil" error)).

End MoreRoutes.

(** * Definitions used to state the properties *)

(** ** The contract-settings upsert as a state machine *)

(** What the store reports for one attempt. *)
Inductive Report : Type :=
| Rows (d : Val)
| Failed (e : JsError)
| Silent.

Definition report (a : Answer) : Report :=
  match a with
  | Settles (Fulfilled r) =>
      match error r with
      | Some e => Failed e
      | None => Rows (data r)
      end
  | Settles (Rejected e) => Failed e
  | Never => Silent
  end.

(** The three attempts as the specification words them (section 4.2):
    native upsert on the composite key; on "table not found" the
    migration hint; on "no unique constraint" an UPDATE filtered by the
    key, whose rows are returned when there is at least one, and an
    INSERT otherwise; any other error a generic server error. *)
Module UpsertEmulation.

Inductive State : Type :=
| NativeUpsert
| ManualUpdate
| ManualInsert
| Terminal (r : Response)
| Unanswered.

Section Machine.
Variables (srv : Server) (professor_email aluno_email record : Val).

Definition upsert_query : Query :=
  supabase_from "contract_settings"
    [q_upsert (VArr [record]) "professor_email,aluno_email"; q_select "*"].

Definition update_query : Query :=
  supabase_from "contract_settings"
    [q_update record; q_eq "professor_email" professor_email;
     q_eq "aluno_email" aluno_email; q_select "*"].

Definition insert_query : Query :=
  supabase_from "contract_settings" [q_insert (VArr [record]); q_select "*"].

Definition ok (rows : Val) : State :=
  Terminal {| status := 200; body := rows |}.

Definition server_error (msg : string) (e : JsError) : State :=
  Terminal {| status := 500;
              body := VObj [("error", VStr msg); ("details", VStr (message e))] |}.

Definition run_migration : State :=
  Terminal {| status := 500;
              body := VObj [("error", VStr
                "Tabela contract_settings não encontrada no banco. Execute create_contract_settings_table.sql no Supabase SQL Editor.")] |}.

Definition attempt (s : State) : option Query :=
  match s with
  | NativeUpsert => Some upsert_query
  | ManualUpdate => Some update_query
  | ManualInsert => Some insert_query
  | Terminal _ | Unanswered => None
  end.

Definition step (s : State) : State :=
  match s with
  | NativeUpsert =>
      match report (srv upsert_query) with
      | Rows d => ok (js_or d (VArr []))
      | Failed e =>
          if bool_decide (code e = Some "PGRST205") then run_migration
          else if bool_decide (code e = Some "42P10") then ManualUpdate
          else server_error "Erro ao salvar configurações de contrato" e
      | Silent => Unanswered
      end
  | ManualUpdate =>
      match report (srv update_query) with
      | Rows d => if nonempty_array d then ok d else ManualInsert
      | Failed e =>
          server_error
            "Erro ao salvar configurações de contrato (upsert manual falhou)" e
      | Silent => Unanswered
      end
  | ManualInsert =>
      match report (srv insert_query) with
      | Rows d => ok (js_or d (VArr []))
      | Failed e =>
          server_error
            "Erro ao salvar configurações de contrato (upsert manual falhou)" e
      | Silent => Unanswered
      end
  | Terminal r => Terminal r
  | Unanswered => Unanswered
  end.

(** The attempts made from [s] on, and the state reached. *)
Fixpoint attempts (fuel : nat) (s : State) : list Query * State :=
  match fuel with
  | O => ([], s)
  | S fuel' =>
      match attempt s with
      | Some q => let '(qs, s') := attempts fuel' (step s) in (q :: qs, s')
      | None => ([], s)
      end
  end.

Definition outcome (s : State) : option Served :=
  match s with
  | Terminal r => Some (Sent r)
  | _ => None
  end.

End Machine.
End UpsertEmulation.


(** A store without the unique constraint and without the row: the
    native upsert is refused, the UPDATE touches nothing, the INSERT
    returns what it was given. *)
Definition store_without_constraint : Server := fun q =>
  match chain q with
  | q_upsert _ _ :: _ =>
      Settles (Fulfilled (failure (pg_error "42P10"
        "there is no unique or exclusion constraint matching the ON CONFLICT specification")))
  | q_update _ :: _ => Settles (Fulfilled (success (VArr [])))
  | q_insert values :: _ => Settles (Fulfilled (success values))
  | _ => Settles (Fulfilled (success VNull))
  end.

(** ** A date engine for the examples

    Two calendar dates carry their real time values; any other time is
    printed and read as its count of milliseconds. *)
Module DemoDate.

Definition t2020 : Z := 1577836800000.   (* 2020-01-01T00:00:00.000Z *)
Definition t2100 : Z := 4102444800000.   (* 2100-01-01T00:00:00.000Z *)

Definition known (s : string) : option Z :=
  if String.eqb s "2020-01-01" || String.eqb s "2020-01-01T00:00:00.000Z"
  then Some t2020
  else if String.eqb s "2100-01-01" || String.eqb s "2100-01-01T00:00:00.000Z"
  then Some t2100
  else None.

Definition parse (v : Val) : option Z :=
  match v with
  | VNum n => Some n
  | VStr s =>
      match NilZero.int_of_string s with
      | Some d => Some (Z.of_int d)
      | None => known s
      end
  | _ => None
  end.

Definition print (t : Z) : string :=
  if t =? t2020 then "2020-01-01T00:00:00.000Z"
  else if t =? t2100 then "2100-01-01T00:00:00.000Z"
  else decimal t.

#[export] Instance engine : JsDate :=
  {| Date_parse := parse; toISOString := print |}.

End DemoDate.

(** ** Likes *)

(** The filter under which the toggle looks a like up and deletes it. *)
Definition like_key (postId usuario_email : string) : list Step :=
  [q_eq "post_id" (VStr postId);
   q_eq "usuario_email" (VStr (toLowerCase usuario_email))].

Definition is_like_of (postId usuario_email : string) (r : Row) : bool :=
  matches (like_key postId usuario_email) r.

Definition like_count (db : DB) (postId usuario_email : string) : nat :=
  length (List.filter (is_like_of postId usuario_email)
                      (default [] (db !! "curtidas"))).

(** The like is present. *)
Definition liked (db : DB) (postId usuario_email : string) : bool :=
  negb (like_count db postId usuario_email =? 0)%nat.

Section Toggle.
Context {D : JsDate}.

(** One POST /posts/:id/curtir call at time [now]. *)
Definition toggle (postId usuario_email : string) (now : Z) (db : DB)
  : Served * DB :=
  request_db
    (post_posts_curtir now postId
       (VObj [("usuario_email", VStr usuario_email)]) VUndef)
    db.

(** Consecutive calls, one at each of the given times. *)
Fixpoint toggles (postId usuario_email : string) (times : list Z) (db : DB)
  : DB :=
  match times with
  | [] => db
  | now :: later =>
      toggles postId usuario_email later
        (snd (toggle postId usuario_email now db))
  end.

End Toggle.

Definition curtido (b : bool) : Served :=
  Sent {| status := 200;
          body := VObj [("success", VBool true); ("curtido", VBool b)] |}.

(** ** Contract updates *)

(** The success response of PATCH /alunos/:id/contract. *)
Definition contract_updated {D : JsDate} (now : Z) (id : string)
  (contract_end : Val) : Response :=
  let iso := contract_iso contract_end in
  {| status := 200;
     body := VObj [("id", VStr id); ("contract_end", iso);
                   ("blocked", VNum (if contract_blocked now iso then 1 else 0))] |}.

(** The store as it stands, answering without being changed. *)
Definition snapshot (db : DB) : Server := fun q => Settles (fst (exec db q)).

(** A store where every call on the messages table is rejected and every
    other query succeeds with [answer]. *)
Definition notifications_down (answer : Val) : Server := fun q =>
  if String.eqb (table q) "mensagens"
  then Settles (Rejected (new_Error "fetch failed"))
  else Settles (Fulfilled (success answer)).

(** One student, enrolled by a professor. *)
Definition student : Row :=
  [("id", VNum 7); ("email", VStr "ana@x.com"); ("tipo", VStr "aluno");
   ("criado_por", VStr "prof@x.com"); ("blocked", VNum 0)].

Definition one_student : DB :=
  {[ "users" := [student]; "mensagens" := []; "progresso" := [] ]}.

(** ** Login *)

(** The records of the users table with exactly the supplied email and
    password, in the order of the table. *)
Definition credentials_match (email senha : Val) (r : Row) : bool :=
  eq_match "email" email r && eq_match "senha" senha r.

Definition invalid_credentials : Response :=
  {| status := 401; body := VObj [("error", VStr "Credenciais inválidas")] |}.

(** ** Feed *)










(** ** Email keys *)

(** The key under which an email is meant to be stored and looked up. *)
Definition normalized (email : string) : string := toLowerCase (trim email).

(** The registration of the specification's scenario, and a store with
    the tables it touches. *)
Definition ana_signup : Val :=
  VObj [("nome", VStr "Ana"); ("email", VStr "ANA@X.com");
        ("senha", VStr "p1"); ("criado_por", VStr "Prof@X.com")].

Definition ana_login : Val :=
  VObj [("email", VStr "ANA@X.com"); ("senha", VStr "p1")].

Definition no_users : DB := {[ "users" := []; "alunos" := [] ]}.

(** ** Products *)

(** The ordem column holds an integer in every row, below 2^53 in
    magnitude so that adding 1 to it is exact. *)
Definition integer_ordem (rows : list Row) : Prop :=
  Forall (fun r => exists n, assoc "ordem" r = VNum n /\ Z.abs n < 2 ^ 53) rows.

(** Two products, the second one retired. *)
Definition two_products : DB :=
  {[ "produtos_loja" :=
       [[("id", VNum 1); ("titulo", VStr "Whey"); ("ordem", VNum 4);
         ("ativo", VBool true)];
        [("id", VNum 2); ("titulo", VStr "Corda"); ("ordem", VNum 9);
         ("ativo", VBool false)]] ]}.

Definition new_product : Val :=
  VObj [("titulo", VStr " Luvas "); ("imagem_url", VStr "https://img/luvas.png");
        ("link_mercadolivre", VStr "https://ml/luvas")].

(** The row POST /produtos inserts, given the ordem it has computed. *)
Definition created_product {D : JsDate} (now : Z) (req_body : Val)
  (titulo : string) (ordem : Z) : Row :=
  [("titulo", VStr (trim titulo));
   ("imagem_url", get "imagem_url" req_body);
   ("link_mercadolivre", get "link_mercadolivre" req_body);
   ("ordem", VNum ordem);
   ("ativo", VBool true);
   ("criado_em", VStr (toISOString now))].

(** ** Definitions used to state the further properties *)

(** The filter under which a contract-settings record is looked up. *)
Definition settings_key (professor_email aluno_email : string) : list Step :=
  [q_eq "professor_email" (VStr professor_email);
   q_eq "aluno_email" (VStr aluno_email)].

Definition has_settings_key (professor_email aluno_email : string) (r : Row)
  : bool :=
  matches (settings_key professor_email aluno_email) r.

(** ** Registering a student *)

(** Who registers the student, under the three names the request may
    use. *)
Definition creator (req_body : Val) : Val :=
  js_or (js_or (get "criado_por" req_body) (get "criadoPor" req_body))
        (get "criado_by" req_body).

(** The four fields POST /alunos converts to text can be converted. *)
Definition registration_prints (req_body : Val) : bool :=
  printable (get "nome" req_body) && printable (get "email" req_body)
  && printable (get "senha" req_body) && printable (creator req_body).

(** ** Deleting a contract *)

(** The contract names an owner in [field], and it is not [actor]. *)
Definition other_owner (actor : string) (field : string) (contract : Row) : bool :=
  truthy (assoc field contract)
  && negb (String.eqb (normalized (toString (assoc field contract))) actor).

Definition not_authorized : Response :=
  {| status := 403;
     body := VObj [("error", VStr "Não autorizado para excluir este contrato")] |}.

Definition deleted : Response :=
  {| status := 200; body := VObj [("deleted", VBool true)] |}.

(** A contract that names two owners. *)
Definition signed_contract : Row :=
  [("id", VNum 5); ("aluno_email", VStr "ana@x.com");
   ("criado_por", VStr "owner@x.com"); ("professor_email", VStr "Prof@X.com")].

Definition one_contract : DB := {[ "contracts" := [signed_contract] ]}.

(** ** Stores for the examples *)

(** What the store reports for a table it does not have. *)
Definition table_missing (t : string) : Result :=
  failure (pg_error "PGRST205"
    ("Could not find the table 'public." ++ t ++ "' in the schema cache")).

(** A store that has the users table only, and finds [user] there. *)
Definition only_users (user : Val) : Server := fun q =>
  if String.eqb (table q) "users" then Settles (Fulfilled (success user))
  else Settles (Fulfilled (table_missing (table q))).

(** ** Student profiles *)

(** What POST /aluno/verify-or-create answers about a student. *)
Definition enrolled (created : bool) (aluno : Val) : Served :=
  Sent {| status := 200;
          body := VObj [("created", VBool created); ("aluno", aluno)] |}.

(** ** Shapes of a query chain *)

Definition is_filter (s : Step) : bool :=
  match s with q_eq _ _ | q_order _ _ => true | _ => false end.

Definition is_write (s : Step) : bool :=
  match s with
  | q_insert _ | q_update _ | q_delete | q_upsert _ _ => true
  | _ => false
  end.

(** The steps that end a read on the fallback client. *)
Definition ends_read (s : Step) : bool :=
  match s with q_maybeSingle | q_single | q_range _ _ => true | _ => false end.

Definition not_a_function (s : Step) : JsError :=
  new_Error (method_name s ++ " is not a function").

(** ** Contracts of a professor *)

(** The students a professor enrolled, and the contract of one of them:
    its aluno_email is, letter case apart, the email of a student. *)
Definition students_of (professor : string) (users : list Row) : list Row :=
  List.filter (eq_match "criado_por" (VStr professor)) users.

Definition contract_of_student (students : list Row) (contract : Row) : bool :=
  existsb (fun student =>
             String.eqb (toLowerCase (toString (assoc "aluno_email" contract)))
                        (toLowerCase (toString (assoc "email" student))))
          students.

Definition has_text (field : string) (r : Row) : Prop :=
  exists text, assoc field r = VStr text.

(** ** A JSON engine for the examples

    It knows the empty array, null, the booleans and the integers; any
    other text is a syntax error. *)
Module DemoJSON.

Definition stringify (v : Val) : string :=
  match v with
  | VArr [] => "[]"
  | VNum n => Number_toString n
  | VBool true => "true"
  | VBool false => "false"
  | _ => "null"
  end.

Definition parse (s : string) : JsError + Val :=
  if String.eqb s "[]" then inr (VArr [])
  else if String.eqb s "null" then inr VNull
  else if String.eqb s "true" then inr (VBool true)
  else if String.eqb s "false" then inr (VBool false)
  else match NilZero.int_of_string s with
       | Some d => inr (VNum (Z.of_int d))
       | None => inl (new_Error "Unexpected token in JSON")
       end.

#[export] Instance engine : JsJSON :=
  {| JSON_stringify := stringify; JSON_parse := parse |}.

End DemoJSON.

(** A store that never answers. *)
Definition silent : Server := fun _ => Never.

(** ** The progress of a student *)

(** The date GET /progresso/:email gives an entry made from a row of
    progresso, and from a row of consultorias. *)
Definition progresso_date (r : Row) : Val :=
  js_or (js_or (js_or (assoc "criado_em" r) (assoc "created_at" r))
               (assoc "data" r)) VNull.

Definition consultoria_date (r : Row) : Val :=
  js_or (js_or (assoc "data" r) (assoc "criado_em" r)) VNull.

Section Progress.
Context {D : JsDate}.

(** A date the engine can read, or none at all. *)
Definition readable (date : Val) : Prop :=
  truthy date = true -> Date_parse date <> None.

(** Entry [a] is not older than entry [b]. *)
Definition not_older (a b : Val) : Prop :=
  exists ta tb, entry_time a = Some ta /\ entry_time b = Some tb /\ tb <= ta.

End Progress.

(** A student with one finished workout and one later assessment. *)
Definition one_workout : DB :=
  {[ "users" := [student];
     "progresso" := [[("aluno_email", VStr "ana@x.com"); ("treino_id", VStr "3");
                      ("criado_em", VStr "2020-01-01")]];
     "consultorias" := [[("client_id", VNum 7); ("data", VStr "2100-01-01")]] ]}.

(** ** Updating a product *)

(** The value a field has after an update that sends [sent]. *)
Definition sent_or_kept (sent old : Val) : Val :=
  if truthy sent then sent else old.

(** * Properties *)

(** ** The example date engine *)




(** ** Lists and the order of the store *)

Lemma filter_all {A : Type} (f : A -> bool) (l : list A) :
  (forall x, f x = true) -> List.filter f l = l.
Proof.
  intros Hf. induction l as [| x l IH]; simpl; [reflexivity |].
  by rewrite Hf, IH.
Qed.

Lemma filter_out_none {A : Type} (f : A -> bool) (l : list A) :
  List.filter f (List.filter (fun x => negb (f x)) l) = [].
Proof.
  induction l as [| x l IH]; simpl; [reflexivity |].
  destruct (f x) eqn:E; simpl; [assumption | by rewrite E].
Qed.

Lemma map_unmatched {A : Type} (f : A -> bool) (g : A -> A) (l : list A) :
  Forall (fun x => f x = false) l ->
  List.map (fun x => if f x then g x else x) l = l /\
  List.filter f l = [].
Proof.
  induction 1 as [| x l Hx _ [IH1 IH2]]; simpl; [split; reflexivity |].
  rewrite Hx, IH1, IH2. split; reflexivity.
Qed.



Lemma Sorted_Forall2 {A B : Type} (R : A -> A -> Prop) (R' : B -> B -> Prop)
  (P : A -> B -> Prop) (l : list A) (l' : list B) :
  (forall a b a' b', P a a' -> P b b' -> R a b -> R' a' b') ->
  Forall2 P l l' -> Sorted R l -> Sorted R' l'.
Proof.
  intros Hrel Hall. induction Hall as [| a a' l l' Ha Hall IH]; intros Hs.
  - constructor.
  - inversion Hs as [| ? ? Hl Hhd]; subst. constructor; [by apply IH |].
    destruct Hall as [| b b' l l' Hb _]; constructor.
    inversion Hhd; subst. by eapply Hrel.
Qed.



Section Sorting.
Variable leb : Row -> Row -> bool.
Hypothesis leb_total : forall x y, leb x y = true \/ leb y x = true.




End Sorting.


Lemma insert_by_length (leb : Row -> Row -> bool) (x : Row) (l : list Row) :
  length (insert_by leb x l) = S (length l).
Proof.
  induction l as [| y l IH]; simpl; [reflexivity |].
  destruct (leb x y); simpl; by rewrite ?IH.
Qed.

Lemma order_by_length (column : string) (ascending : bool) (rows : list Row) :
  length (order_by column ascending rows) = length rows.
Proof.
  unfold order_by. induction rows as [| r rows IH]; [reflexivity |].
  cbn [fold_right length]. by rewrite insert_by_length, IH.
Qed.

Lemma In_insert_by (leb : Row -> Row -> bool) (x a : Row) (l : list Row) :
  In x (insert_by leb a l) <-> x = a \/ In x l.
Proof.
  induction l as [| y l IH]; simpl; [intuition |].
  destruct (leb a y); simpl; [intuition |]. rewrite IH. intuition.
Qed.

Lemma In_order_by (column : string) (ascending : bool) (x : Row) (rows : list Row) :
  In x (order_by column ascending rows) <-> In x rows.
Proof.
  unfold order_by. induction rows as [| r rows IH]; [reflexivity |].
  cbn [fold_right]. rewrite In_insert_by, IH. simpl. intuition.
Qed.

Lemma row_leb_ordem (ascending : bool) (r1 r2 : Row) (n1 n2 : Z) :
  assoc "ordem" r1 = VNum n1 -> assoc "ordem" r2 = VNum n2 ->
  row_leb "ordem" ascending r1 r2
  = if ascending then n1 <=? n2 else n2 <=? n1.
Proof.
  intros H1 H2. unfold row_leb. rewrite H1, H2. cbn [val_compare].
  destruct ascending.
  - unfold Z.leb. by destruct (n1 ?= n2).
  - unfold Z.leb. rewrite (Z.compare_antisym n1 n2). by destruct (n1 ?= n2).
Qed.

(** The first row of the descending order holds the largest ordem. *)
Lemma order_by_desc_head (rows : list Row) :
  integer_ordem rows ->
  forall h t, order_by "ordem" false rows = h :: t ->
  exists k, assoc "ordem" h = VNum k /\ Z.abs k < 2 ^ 53 /\ In h rows /\
            Forall (fun r => exists n, assoc "ordem" r = VNum n /\ n <= k) rows.
Proof.
  unfold order_by.
  induction 1 as [| r rows (n & Hn & Hb) Hrows IH]; intros h t Hsort;
    [discriminate |].
  cbn [fold_right] in Hsort.
  destruct (fold_right (insert_by (row_leb "ordem" false)) [] rows)
    as [| y s] eqn:Hs.
  - assert (rows = []) as ->.
    { apply (f_equal (@length Row)) in Hs.
      fold (order_by "ordem" false rows) in Hs.
      rewrite order_by_length in Hs. by destruct rows. }
    injection Hsort as <- <-. exists n. split; [assumption |].
    split; [assumption |].
    split; [by left |]. constructor; [| constructor]. exists n. split; [assumption | lia].
  - destruct (IH y s eq_refl) as (k & Hk & Hkb & Hin & Hall).
    cbn [insert_by] in Hsort. rewrite (row_leb_ordem false r y n k Hn Hk) in Hsort.
    destruct (Z.leb_spec k n) as [Hle | Hlt]; injection Hsort as <- <-.
    + exists n. split; [assumption |]. split; [assumption |]. split; [by left |].
      constructor; [exists n; split; [assumption | lia] |].
      eapply Forall_impl; [exact Hall |].
      intros r' (n' & Hn' & Hle'). exists n'. split; [assumption | lia].
    + exists k. split; [assumption |]. split; [assumption |]. split; [by right |].
      constructor; [exists n; split; [assumption | lia] | exact Hall].
Qed.

(** A row above all the others is the last one of the ascending order. *)
Lemma insert_by_snoc (leb : Row -> Row -> bool) (a x : Row) (s : list Row) :
  leb a x = true ->
  insert_by leb a (s ++ [x]) = (insert_by leb a s ++ [x])%list.
Proof.
  intros Hax. induction s as [| y s IH]; simpl.
  - by rewrite Hax.
  - destruct (leb a y); [reflexivity |]. by rewrite IH.
Qed.

Lemma order_by_snoc (column : string) (x : Row) (rows : list Row) :
  Forall (fun r => row_leb column true r x = true) rows ->
  order_by column true (rows ++ [x])
  = (order_by column true rows ++ [x])%list.
Proof.
  unfold order_by. induction 1 as [| r rows Hr _ IH]; [reflexivity |].
  cbn [app fold_right]. rewrite IH. by apply insert_by_snoc.
Qed.

Lemma map_project_star (rows : list Row) :
  List.map (project "*") rows = rows.
Proof. induction rows; simpl; [reflexivity | by f_equal]. Qed.

Lemma assoc_set_field_other (k k' : string) (v : Val) (fs : Row) :
  String.eqb k k' = false ->
  assoc k (set_field k' v fs) = assoc k fs.
Proof.
  intros Hne. induction fs as [| [k0 v0] fs IH]; simpl.
  - by rewrite Hne.
  - destruct (String.eqb_spec k' k0) as [<- | Hk0]; simpl.
    + by rewrite Hne.
    + by rewrite IH.
Qed.


(** ** Running handlers *)

(** Case analysis along the run of a handler against [srv]: the answers
    of the store, their errors and the tests of the handler, each
    remembered so that a second occurrence takes the same branch. *)
Ltac run_cases srv :=
  repeat first
    [ progress cbn -[bool_decide truthy js_or js_and strict_eq toString
                     toLowerCase trim Number_toString String.append
                     contract_iso contract_blocked printable]
    | progress unfold ToString, plus
    | match goal with
      | H : srv ?q = _ |- context [srv ?q] => rewrite H
      | H : error ?r = _ |- context [error ?r] => rewrite H
      | H : ?b = true |- context [if ?b then _ else _] => rewrite H
      | H : ?b = false |- context [if ?b then _ else _] => rewrite H
      | |- context [match error ?r with _ => _ end] => destruct (error r) eqn:?
      | |- context [if ?b then _ else _] => destruct b eqn:?
      | |- context [srv ?q] => destruct (srv q) as [[? | ?] |] eqn:?
      end ].

Lemma given_is_object (k : string) (req_body : Val) :
  truthy (get k req_body) = true -> js_or req_body (VObj []) = req_body.
Proof.
  intros given. unfold js_or.
  destruct req_body; try discriminate given; reflexivity.
Qed.

Lemma call_toString_given (expr : string) (v : Val) :
  truthy v = true -> printable v = true ->
  call_toString expr v = ret (toString v).
Proof.
  intros Hv Hp. unfold call_toString, ToString.
  destruct v; try discriminate Hv; try reflexivity; by rewrite Hp.
Qed.

Lemma call_toString_cases (expr : string) (v : Val) :
  (exists text, call_toString expr v = ret text) \/
  (exists e, call_toString expr v = throw e).
Proof.
  unfold call_toString, ToString.
  destruct v; try destruct (printable _); eauto.
Qed.

Lemma ToString_printable (v : Val) :
  printable v = true -> ToString v = ret (toString v).
Proof. intros Hp. unfold ToString. by rewrite Hp. Qed.

Lemma require_fields_present (ks : list string) (payload : Val) :
  Forall (fun k => truthy (get k payload) = true) ks ->
  require_fields ks payload = ret tt.
Proof.
  induction 1 as [| k ks Hk _ IH]; simpl; [reflexivity |].
  by rewrite Hk.
Qed.


Lemma exec_select_read_only (db : DB) (t columns : string) (rest : list Step) :
  exists r, exec db (supabase_from t (q_select columns :: rest)) = (Fulfilled r, db).
Proof. unfold exec. simpl. destruct (db !! t); eauto. Qed.

Lemma exec_count_read_only (db : DB) (t columns : string) (rest : list Step) :
  exists r, exec db (supabase_from t (q_select_count columns :: rest))
            = (Fulfilled r, db).
Proof. unfold exec. simpl. destruct (db !! t); eauto. Qed.


(** ** C1: POST /contract-settings *)

(** An email that is an object with a field named toString passes the
    test of presence and stops the handler at the conversion to text:
    no query is sent, whereas the machine's first attempt is always
    sent, and the answer is the generic server error. *)
Lemma contract_settings_unprintable_email :
  let req_body :=
    VObj [("professor_email", VObj [("toString", VNum 1)]);
          ("aluno_email", VStr "a@x.com")] in
  let handler := post_contract_settings (D := DemoDate.engine) 7 req_body in
  truthy (get "professor_email" req_body) = true /\
  truthy (get "aluno_email" req_body) = true /\
  forall srv : Server,
    sent_queries srv handler = [] /\
    request srv handler
    = Some (Sent {| status := 500;
                    body := VObj [("error", VStr "Erro ao salvar configurações de contrato");
                                  ("details", VStr
                                     "payload.professor_email.toString is not a function")] |}) /\
    forall professor_email aluno_email record : Val,
      sent_queries srv handler
      <> fst (UpsertEmulation.attempts srv professor_email aluno_email record 3
                UpsertEmulation.NativeUpsert).
Proof.
  intros req_body handler.
  split; [reflexivity | split; [reflexivity |]].
  intros srv. split; [reflexivity | split; [reflexivity |]].
  intros pe ae record.
  change (sent_queries srv handler) with (@nil Query).
  cbn [UpsertEmulation.attempts UpsertEmulation.attempt].
  match goal with
  | |- context [let '(qs, s') := ?run in _] => by destruct run
  end.
Qed.

(** C1. A POST /contract-settings request that carries both emails, each
    of a value that converts to text, runs the three-attempt machine on
    the record keyed by the two normalized emails: the queries it sends
    are the machine's attempts, in order, and its response is the
    machine's terminal state (no response when the store stays silent). *)
Theorem post_contract_settings_upsert_emulation {D : JsDate}
  (now : Z) (req_body : Val) (srv : Server) :
  truthy (get "professor_email" req_body) = true ->
  truthy (get "aluno_email" req_body) = true ->
  printable (get "professor_email" req_body) = true ->
  printable (get "aluno_email" req_body) = true ->
  let professor_email :=
    toLowerCase (trim (toString (get "professor_email" req_body))) in
  let aluno_email :=
    toLowerCase (trim (toString (get "aluno_email" req_body))) in
  let record := upsertPayload now professor_email aluno_email req_body in
  let run :=
    UpsertEmulation.attempts srv (VStr professor_email) (VStr aluno_email)
      record 3 UpsertEmulation.NativeUpsert in
  sent_queries srv (post_contract_settings now req_body) = fst run /\
  request srv (post_contract_settings now req_body)
  = UpsertEmulation.outcome (snd run).
Proof.
  intros Hp Ha Hpp Hpa pe ae record.
  assert (Hobj : js_or req_body (VObj []) = req_body).
  { unfold js_or. destruct req_body; try discriminate; reflexivity. }
  unfold post_contract_settings, sent_queries, request, throw_if_error.
  rewrite Hobj.
  rewrite require_fields_present by (repeat constructor; assumption).
  rewrite !call_toString_given by assumption.
  change (ret tt ;; ?k) with k.
  cbn [bind bindP ret].
  fold pe ae. fold record.
  change (get "professor_email" record) with (VStr pe).
  change (get "aluno_email" record) with (VStr ae).
  generalize record (VStr pe) (VStr ae). clear. intros record pe ae.
  unfold UpsertEmulation.attempts, UpsertEmulation.step, UpsertEmulation.attempt,
    UpsertEmulation.upsert_query, UpsertEmulation.update_query,
    UpsertEmulation.insert_query, report.
  repeat first
    [ progress cbn -[bool_decide]
    | match goal with
      | H : srv ?q = _ |- context [srv ?q] => rewrite H
      | H : error ?r = _ |- context [error ?r] => rewrite H
      | H : bool_decide ?P = _ |- context [bool_decide ?P] => rewrite H
      | H : nonempty_array ?d = _ |- context [nonempty_array ?d] => rewrite H
      | |- context [bool_decide ?P] => destruct (bool_decide P) eqn:?
      | |- context [error ?r] => destruct (error r) eqn:?
      | |- context [nonempty_array ?d] => destruct (nonempty_array d) eqn:?
      | |- context [srv ?q] => destruct (srv q) as [[? | ?] |] eqn:?
      end ].
  all: split; reflexivity.
Qed.

Lemma post_contract_settings_upsert_emulation_witness :
  let req_body :=
    VObj [("professor_email", VStr " Prof@X.com ");
          ("aluno_email", VStr "ANA@x.com"); ("option1_value", VNum 30)] in
  let handler := post_contract_settings (D := DemoDate.engine) 7 req_body in
  truthy (get "professor_email" req_body) = true /\
  truthy (get "aluno_email" req_body) = true /\
  printable (get "professor_email" req_body) = true /\
  printable (get "aluno_email" req_body) = true /\
  length (sent_queries store_without_constraint handler) = 3%nat /\
  request store_without_constraint handler
  = Some (Sent {| status := 200;
                  body := VArr [upsertPayload (D := DemoDate.engine) 7
                                  "prof@x.com" "ana@x.com" req_body] |}).
Proof.
  intros req_body handler.
  do 4 (split; [reflexivity |]).
  destruct (post_contract_settings_upsert_emulation (D := DemoDate.engine)
              7 req_body store_without_constraint eq_refl eq_refl eq_refl eq_refl)
    as [Hq Hr].
  fold handler in Hq, Hr. rewrite Hq, Hr. split; reflexivity.
Defined.


(** ** C2: POST /posts/:id/curtir *)

Section ToggleProofs.
Context {D : JsDate}.
Variables (postId usuario_email : string).
Hypothesis email_given : usuario_email <> EmptyString.

Local Abbreviation mine := (is_like_of postId usuario_email).

Lemma truthy_email : truthy (VStr usuario_email) = true.
Proof.
  simpl. destruct (String.eqb_spec usuario_email EmptyString) as [E | _]; [| reflexivity].
  by destruct email_given.
Qed.

Lemma mine_with_maybeSingle (r : Row) :
  matches (like_key postId usuario_email ++ [q_maybeSingle]) r = mine r.
Proof. reflexivity. Qed.

Lemma exec_like_lookup (db : DB) (likes : list Row) :
  db !! "curtidas" = Some likes ->
  exec db (supabase_from "curtidas"
             [q_select "*"; q_eq "post_id" (VStr postId);
              q_eq "usuario_email" (VStr (toLowerCase usuario_email));
              q_maybeSingle])
  = (Fulfilled match List.filter mine likes with
               | [] => success VNull
               | [r] => success (VObj r)
               | _ => failure not_one_row
               end, db).
Proof.
  intros Hdb. unfold exec. cbn [table chain]. rewrite Hdb.
  unfold answer_rows. cbn [arrange]. rewrite map_project_star.
  rewrite (List.filter_ext _ mine) by (intros r; reflexivity).
  reflexivity.
Qed.

Lemma exec_like_delete (db : DB) (likes : list Row) :
  db !! "curtidas" = Some likes ->
  exec db (supabase_from "curtidas"
             [q_delete; q_eq "post_id" (VStr postId);
              q_eq "usuario_email" (VStr (toLowerCase usuario_email))])
  = (Fulfilled (success VNull),
     <["curtidas" := List.filter (fun r => negb (mine r)) likes]> db).
Proof.
  intros Hdb. unfold exec. cbn [table chain]. rewrite Hdb. reflexivity.
Qed.

Lemma exec_like_insert (db : DB) (likes : list Row) (row : Val) :
  db !! "curtidas" = Some likes ->
  exec db (supabase_from "curtidas" [q_insert (VArr [row])])
  = (Fulfilled (success VNull),
     <["curtidas" := (likes ++ [spread row])%list]> db).
Proof.
  intros Hdb. unfold exec. cbn [table chain]. rewrite Hdb. reflexivity.
Qed.

Lemma toggle_effect (now : Z) (db : DB) (likes : list Row) :
  db !! "curtidas" = Some likes ->
  toggle postId usuario_email now db =
  match List.filter mine likes with
  | [_] => (curtido false,
            <["curtidas" := List.filter (fun r => negb (mine r)) likes]> db)
  | _ => (curtido true,
          <["curtidas" := (likes ++ [[("post_id", VStr postId);
                                        ("usuario_email", VStr (toLowerCase usuario_email));
                                        ("criado_em", VStr (toISOString now))]])%list]> db)
  end.
Proof.
  intros Hdb. unfold toggle, request_db, post_posts_curtir, throw_if_error.
  cbn -[truthy js_or exec].
  replace (js_or (VStr usuario_email) VUndef) with (VStr usuario_email)
    by (unfold js_or; by rewrite truthy_email).
  rewrite truthy_email.
  cbn -[exec]. rewrite (exec_like_lookup db likes Hdb).
  destruct (List.filter mine likes) as [| r [| r' rest]]; cbn -[exec].
  - by rewrite (exec_like_insert db likes _ Hdb).
  - by rewrite (exec_like_delete db likes Hdb).
  - by rewrite (exec_like_insert db likes _ Hdb).
Qed.

Lemma mine_new_like (now : Z) :
  mine [("post_id", VStr postId);
        ("usuario_email", VStr (toLowerCase usuario_email));
        ("criado_em", VStr (toISOString now))] = true.
Proof.
  unfold mine, like_key, matches, eq_match. simpl.
  by rewrite !String.eqb_refl.
Qed.

Lemma like_count_lookup (db : DB) (likes : list Row) :
  db !! "curtidas" = Some likes ->
  like_count db postId usuario_email = length (List.filter mine likes).
Proof. intros Hdb. unfold like_count. by rewrite Hdb. Qed.

(** One call removes a single like, and adds one in every other case. *)
Lemma toggle_count (now : Z) (db : DB) :
  is_Some (db !! "curtidas") ->
  let after := toggle postId usuario_email now db in
  is_Some (snd after !! "curtidas") /\
  like_count (snd after) postId usuario_email =
    match like_count db postId usuario_email with
    | 1%nat => 0%nat
    | n => S n
    end /\
  fst after = curtido (negb (like_count db postId usuario_email =? 1)%nat).
Proof.
  intros [likes Hdb]. cbn zeta.
  rewrite (toggle_effect now db likes Hdb), (like_count_lookup db likes Hdb).
  destruct (List.filter mine likes) as [| r [| r' rest]] eqn:E; cbn [fst snd].
  all: rewrite lookup_insert_eq; split; [eauto |].
  all: erewrite like_count_lookup by apply lookup_insert_eq.
  - rewrite List.filter_app, E. simpl. by rewrite mine_new_like.
  - by rewrite filter_out_none.
  - rewrite List.filter_app, E. simpl. rewrite mine_new_like.
    rewrite length_app. simpl. split; [f_equal; lia | reflexivity].
Qed.

Lemma toggles_liked (times : list Z) : forall db : DB,
  is_Some (db !! "curtidas") ->
  (like_count db postId usuario_email <= 1)%nat ->
  liked (toggles postId usuario_email times db) postId usuario_email
  = xorb (liked db postId usuario_email) (Nat.odd (length times)).
Proof.
  induction times as [| now later IH]; intros db Hdb Hle.
  - cbn [toggles length]. by rewrite xorb_false_r.
  - cbn [toggles length].
    destruct (toggle_count now db Hdb) as (Hdb' & Hcount & _).
    rewrite IH; [| assumption |].
    + rewrite Nat.odd_succ, <- Nat.negb_odd. unfold liked. rewrite Hcount.
      destruct (like_count db postId usuario_email) as [| [| n]];
        [| | lia]; cbn [Nat.eqb negb]; by destruct (Nat.odd _).
    + rewrite Hcount.
      destruct (like_count db postId usuario_email) as [| [| n]]; lia.
Qed.

End ToggleProofs.

(** C2. From a post the user has not liked, [n] consecutive toggle
    calls by that user leave the like present exactly when [n] is odd;
    the first of two calls answers curtido:true and the second
    curtido:false; and from any state two consecutive calls bring the
    presence of the like back to what it was. *)
Theorem like_toggle_parity {D : JsDate}
  (postId usuario_email : string) (db : DB) :
  usuario_email <> EmptyString ->
  is_Some (db !! "curtidas") ->
  (liked db postId usuario_email = false ->
   forall times : list Z,
     liked (toggles postId usuario_email times db) postId usuario_email
     = Nat.odd (length times)) /\
  (liked db postId usuario_email = false ->
   forall t1 t2 : Z,
     let first := toggle postId usuario_email t1 db in
     fst first = curtido true /\
     fst (toggle postId usuario_email t2 (snd first)) = curtido false) /\
  (forall t1 t2 : Z,
     liked (toggles postId usuario_email [t1; t2] db) postId usuario_email
     = liked db postId usuario_email).
Proof.
  intros Hemail Hdb. split; [| split].
  - intros Hzero times.
    rewrite (toggles_liked postId usuario_email Hemail times db Hdb).
    + by rewrite Hzero.
    + unfold liked in Hzero. apply negb_false_iff, Nat.eqb_eq in Hzero. lia.
  - intros Hzero t1 t2 first.
    unfold liked in Hzero. apply negb_false_iff, Nat.eqb_eq in Hzero.
    destruct (toggle_count postId usuario_email Hemail t1 db Hdb)
      as (Hdb1 & Hcount1 & Hfirst).
    fold first in Hdb1, Hcount1, Hfirst.
    destruct (toggle_count postId usuario_email Hemail t2 (snd first) Hdb1)
      as (_ & _ & Hsecond).
    rewrite Hfirst, Hsecond, Hcount1, Hzero. split; reflexivity.
  - intros t1 t2. cbn [toggles].
    destruct (toggle_count postId usuario_email Hemail t1 db Hdb)
      as (Hdb1 & Hcount1 & _).
    destruct (toggle_count postId usuario_email Hemail t2
                (snd (toggle postId usuario_email t1 db)) Hdb1)
      as (_ & Hcount2 & _).
    unfold liked. rewrite Hcount2, Hcount1.
    by destruct (like_count db postId usuario_email) as [| [| n]].
Qed.

Lemma like_toggle_parity_witness :
  let db : DB := {[ "curtidas" := [] ]} in
  "Ana@X.com" <> EmptyString /\
  is_Some (db !! "curtidas") /\
  liked db "12" "Ana@X.com" = false /\
  liked (toggles (D := DemoDate.engine) "12" "Ana@X.com" [5; 6; 7] db)
        "12" "Ana@X.com" = true.
Proof.
  intros db.
  assert (Hemail : "Ana@X.com" <> EmptyString) by discriminate.
  assert (Hdb : is_Some (db !! "curtidas")) by (eexists; reflexivity).
  split; [exact Hemail | split; [exact Hdb | split; [reflexivity |]]].
  exact (proj1 (like_toggle_parity (D := DemoDate.engine)
                  "12" "Ana@X.com" db Hemail Hdb) eq_refl [5; 6; 7]).
Defined.


(** ** C3: PATCH /alunos/:id/contract *)

Section ContractProofs.
Context {D : JsDate}.
Variables (now : Z) (id : string) (req_body : Val).
Hypothesis given : truthy (get "contract_end" req_body) = true.




(** When the store answers every query and the two queries on the users
    table succeed, the response is the success response, whatever the
    answers to the inserts of messages. *)
Lemma contract_notifications_swallowed (srv : Server) :
  (forall q, srv q <> Never) ->
  (forall q, table q = "users" ->
             exists r, srv q = Settles (Fulfilled r) /\ error r = None) ->
  request srv (patch_alunos_contract now id req_body)
  = Some (Sent (contract_updated now id (get "contract_end" req_body))).
Proof.
  intros Hsettles Husers.
  unfold request, patch_alunos_contract, throw_if_error, contract_updated.
  rewrite (given_is_object _ _ given), given.
  cbn -[truthy js_or js_and strict_eq toString contract_iso contract_blocked].
  match goal with
  | |- context [srv ?q] =>
      destruct (Husers q eq_refl) as (r1 & -> & E1)
  end.
  cbn -[truthy js_or js_and strict_eq toString contract_iso contract_blocked].
  rewrite E1.
  cbn -[truthy js_or js_and strict_eq toString contract_iso contract_blocked].
  match goal with
  | |- context [srv ?q] =>
      destruct (Husers q eq_refl) as (r2 & -> & E2)
  end.
  cbn -[truthy js_or js_and strict_eq toString contract_iso contract_blocked].
  rewrite E2.
  run_cases srv.
  all: try reflexivity.
  all: match goal with
       | H : _ ?q = Never |- _ => by destruct (Hsettles q)
       end.
Qed.

End ContractProofs.





(** ** C4: POST /login *)

(** C4. With the users table at hand and both credentials supplied,
    login answers the first record whose email and password are exactly
    the supplied ones, and answers the "invalid credentials" error (401)
    exactly when there is none; that response is one and the same
    whether the email is absent or the password is wrong. The store is
    left as it was. *)
Theorem login_first_match_or_invalid {D : JsDate}
  (now : Z) (req_body : Val) (db : DB) (users : list Row) :
  truthy (get "email" req_body) = true ->
  truthy (get "senha" req_body) = true ->
  db !! "users" = Some users ->
  let matching :=
    List.filter (credentials_match (get "email" req_body) (get "senha" req_body))
                users in
  (forall u rest,
     matching = u :: rest ->
     request_db (post_login now req_body) db
     = (Sent {| status := 200; body := VObj u |}, db)) /\
  (matching = [] ->
   request_db (post_login now req_body) db = (Sent invalid_credentials, db)) /\
  (request_db (post_login now req_body) db = (Sent invalid_credentials, db) ->
   matching = []).
Proof.
  intros Hemail Hsenha Hdb matching.
  assert (Hrun : request_db (post_login now req_body) db
                 = (match matching with
                    | u :: _ => Sent {| status := 200; body := VObj u |}
                    | [] => Sent invalid_credentials
                    end, db)).
  { unfold request_db, post_login, throw_if_error, destructure.
    assert (Hobj : nullish req_body = false)
      by (destruct req_body; try discriminate Hemail; reflexivity).
    rewrite Hobj.
    cbn -[truthy exec]. rewrite Hemail, Hsenha.
    cbn -[truthy exec].
    unfold exec. cbn [table chain]. rewrite Hdb.
    unfold answer_rows. cbn [arrange]. rewrite map_project_star.
    rewrite (List.filter_ext _ (credentials_match (get "email" req_body)
                                                  (get "senha" req_body)))
      by (intros r; unfold credentials_match; simpl; by rewrite andb_true_r).
    fold matching. destruct matching as [| u rest]; reflexivity. }
  rewrite Hrun. split; [| split].
  - by intros u rest ->.
  - by intros ->.
  - destruct matching; [reflexivity | discriminate].
Qed.

Lemma login_first_match_or_invalid_witness :
  let users : list Row :=
    [[("id", VNum 1); ("email", VStr "ana@x.com"); ("senha", VStr "p1")];
     [("id", VNum 2); ("email", VStr "bia@x.com"); ("senha", VStr "p2")];
     [("id", VNum 3); ("email", VStr "ana@x.com"); ("senha", VStr "p1")]] in
  let db : DB := {[ "users" := users ]} in
  let good := VObj [("email", VStr "ana@x.com"); ("senha", VStr "p1")] in
  let wrong_password := VObj [("email", VStr "bia@x.com"); ("senha", VStr "p1")] in
  truthy (get "email" good) = true /\
  truthy (get "senha" good) = true /\
  truthy (get "email" wrong_password) = true /\
  truthy (get "senha" wrong_password) = true /\
  db !! "users" = Some users /\
  request_db (post_login (D := DemoDate.engine) 5 good) db
  = (Sent {| status := 200;
             body := VObj [("id", VNum 1); ("email", VStr "ana@x.com");
                           ("senha", VStr "p1")] |}, db) /\
  request_db (post_login (D := DemoDate.engine) 5 wrong_password) db
  = (Sent invalid_credentials, db).
Proof.
  intros users db good wrong_password.
  do 5 (split; [reflexivity |]). split.
  - exact (proj1 (login_first_match_or_invalid (D := DemoDate.engine)
                    5 good db users eq_refl eq_refl eq_refl) _ _ eq_refl).
  - exact (proj1 (proj2 (login_first_match_or_invalid (D := DemoDate.engine)
                           5 wrong_password db users eq_refl eq_refl eq_refl))
                 eq_refl).
Defined.


(** ** C5: GET /posts/feed/:limit/:offset *)




Lemma round_double_exact (z : Z) :
  Z.abs z <= 2 ^ 53 -> round_double z = z.
Proof.
  intros Hz. unfold round_double.
  destruct (Z.ltb_spec (Z.abs z) (2 ^ 53)) as [_ | Hge]; [reflexivity |].
  assert (Hz' : z = 2 ^ 53 \/ z = - 2 ^ 53) by lia.
  by destruct Hz' as [-> | ->].
Qed.

















(** ** C6: email keys *)

(** Login filters the users table on the email and the password exactly
    as they come in the request. *)
Lemma post_login_query {D : JsDate} (now : Z) (req_body : Val) (srv : Server) :
  truthy (get "email" req_body) = true ->
  truthy (get "senha" req_body) = true ->
  exists rest,
    sent_queries srv (post_login now req_body)
    = supabase_from "users"
        [q_select "*"; q_eq "email" (get "email" req_body);
         q_eq "senha" (get "senha" req_body)] :: rest.
Proof.
  intros Hemail Hsenha. unfold sent_queries, post_login, destructure.
  assert (Hobj : nullish req_body = false)
    by (destruct req_body; try discriminate Hemail; reflexivity).
  rewrite Hobj. cbn -[truthy]. rewrite Hemail, Hsenha. cbn -[truthy].
  destruct (srv _) as [[r | e] |].
  all: try match goal with
           | |- context [run ?s ?p] => destruct (run s p)
           end.
  all: eexists; reflexivity.
Qed.

(** C6 fails on login and on the lookups by email. A student signed up
    as "ANA@X.com" is stored under "ana@x.com" (the creation handler
    normalizes), but login sends the email as typed to the store, so the
    very credentials of the sign-up are refused; the workout and message
    lookups send their path parameter as it comes, too. *)
Theorem login_compares_raw_email :
  let signed_up :=
    snd (request_db (handleCreateAluno (D := DemoDate.engine) 5 ana_signup)
                    no_users) in
  signed_up !! "users"
  = Some [[("nome", VStr "Ana"); ("email", VStr (normalized "ANA@X.com"));
           ("senha", VStr "p1"); ("tipo", VStr "aluno");
           ("criado_por", VStr (normalized "Prof@X.com"))]] /\
  normalized "ANA@X.com" = "ana@x.com" /\
  sent_queries (snapshot signed_up) (post_login (D := DemoDate.engine) 6 ana_login)
  = [supabase_from "users"
       [q_select "*"; q_eq "email" (VStr "ANA@X.com"); q_eq "senha" (VStr "p1")]] /\
  fst (request_db (post_login (D := DemoDate.engine) 6 ana_login) signed_up)
  = Sent invalid_credentials /\
  sent_queries (snapshot signed_up) (get_treinos " Ana@X.com")
  = [supabase_from "treinos"
       [q_select "*"; q_eq "aluno_email" (VStr " Ana@X.com"); q_order "data" false]] /\
  sent_queries (snapshot signed_up) (get_mensagens_para "ANA@X.com")
  = [supabase_from "mensagens"
       [q_select "*"; q_eq "para" (VStr "ANA@X.com"); q_order "data" false]].
Proof. vm_compute. repeat split. Qed.


(** ** C7: best-effort notifications *)

Section ConcluirProofs.
Context {D : JsDate}.
Variables (now : Z) (treinoId : string) (req_body : Val).

(** When the insert of the progress record was sent and succeeded, and
    the store answers the notification queries at all, the response is
    the inserted record, whatever those answers are. *)
Lemma concluir_notifications_swallowed (srv : Server) (q : Query) (r : Result) :
  (forall q, srv q <> Never) ->
  In q (sent_queries srv (post_treinos_concluir now treinoId req_body)) ->
  table q = "progresso" ->
  srv q = Settles (Fulfilled r) ->
  error r = None ->
  request srv (post_treinos_concluir now treinoId req_body)
  = Some (Sent {| status := 200; body := js_or (data r) (VArr []) |}).
Proof.
  intros Hsettles Hin Htable Hq Hok. revert Hin.
  unfold request, sent_queries, post_treinos_concluir, throw_if_error.
  generalize (js_or req_body (VObj [])) as b. intros b.
  destruct (truthy (VStr treinoId)); [| intros []].
  destruct (truthy (get "aluno_email" b)); [| intros []].
  cbn [negb].
  destruct (call_toString_cases "aluno_email" (get "aluno_email" b))
    as [[text ->] | [e ->]];
    [| intros []].
  run_cases srv.
  all: try match goal with
           | H : _ ?q = Never |- _ => by destruct (Hsettles q)
           end.
  all: intros Hin; cbn [In] in Hin.
  all: repeat match type of Hin with
              | _ \/ _ => destruct Hin as [Hin | Hin]
              | False => destruct Hin
              end.
  all: subst q; try discriminate Htable.
  all: match goal with
       | H : _ _ = Settles _ |- _ => rewrite H in Hq; injection Hq as <-
       | H : _ _ = Settles _ |- _ => rewrite H in Hq; discriminate Hq
       end.
  all: congruence.
Qed.

End ConcluirProofs.

(** C7. For the two mutations that notify on a best-effort basis, once
    the primary store write has succeeded (the insert of the progress
    record was sent and answered without error; the update of the user
    and the fetch that follows it were) the handler answers the success
    response whatever the store answers to the notification queries (an
    error result or a rejected call alike). *)
Theorem notification_failure_never_surfaces {D : JsDate}
  (now : Z) (srv : Server) :
  (forall q, srv q <> Never) ->
  (forall (treinoId : string) (req_body : Val) (q : Query) (r : Result),
     In q (sent_queries srv (post_treinos_concluir now treinoId req_body)) ->
     table q = "progresso" ->
     srv q = Settles (Fulfilled r) ->
     error r = None ->
     request srv (post_treinos_concluir now treinoId req_body)
     = Some (Sent {| status := 200; body := js_or (data r) (VArr []) |})) /\
  (forall (id : string) (req_body : Val),
     truthy (get "contract_end" req_body) = true ->
     (forall q, table q = "users" ->
                exists r, srv q = Settles (Fulfilled r) /\ error r = None) ->
     request srv (patch_alunos_contract now id req_body)
     = Some (Sent (contract_updated now id (get "contract_end" req_body)))).
Proof.
  intros Hsettles. split.
  - intros treinoId req_body q r Hin Htable Hq Hok.
    by apply (concluir_notifications_swallowed now treinoId req_body srv q r).
  - intros id req_body Hgiven Husers.
    by apply contract_notifications_swallowed.
Qed.

Lemma notification_failure_never_surfaces_witness :
  let srv := notifications_down (VObj student) in
  let concluded :=
    post_treinos_concluir (D := DemoDate.engine) 5 "3"
      (VObj [("aluno_email", VStr "Ana@x.com"); ("peso_corporal", VNum 70)]) in
  let req_body := VObj [("contract_end", VStr "2100-01-01")] in
  let renewed := patch_alunos_contract (D := DemoDate.engine) 5 "7" req_body in
  (forall q, srv q <> Never) /\
  List.map table (sent_queries srv concluded)
  = ["progresso"; "users"; "mensagens"] /\
  request srv concluded
  = Some (Sent {| status := 200; body := VObj student |}) /\
  length (sent_queries srv renewed) = 4%nat /\
  request srv renewed
  = Some (Sent {| status := 200;
                  body := VObj [("id", VStr "7");
                                ("contract_end", VStr "2100-01-01T00:00:00.000Z");
                                ("blocked", VNum 0)] |}).
Proof.
  intros srv concluded req_body renewed.
  assert (Hsettles : forall q, srv q <> Never).
  { intros q. unfold srv, notifications_down.
    destruct (String.eqb (table q) "mensagens"); discriminate. }
  split; [exact Hsettles | split; [reflexivity |]].
  pose proof (notification_failure_never_surfaces (D := DemoDate.engine)
                5 srv Hsettles) as [Hconcluded Hrenewed].
  split; [| split; [reflexivity |]].
  - refine (Hconcluded "3" _ _ (success (VObj student)) _ _ _ eq_refl).
    + left. reflexivity.
    + reflexivity.
    + reflexivity.
  - refine (Hrenewed "7" req_body eq_refl _).
    intros q Hq. exists (success (VObj student)).
    unfold srv, notifications_down. rewrite Hq. split; reflexivity.
Defined.


(** ** C8: the fallback client *)

(** Awaiting a [select] followed by filters and orderings only never
    settles on the stub. *)
Lemma supabaseStub_select_hangs (t columns : string) (rest : list Step) :
  Forall (fun s => exists c, (exists v, s = q_eq c v) \/ (exists a, s = q_order c a))
         rest ->
  supabaseStub (supabase_from t (q_select columns :: rest)) = Never.
Proof.
  intros Hrest. unfold supabaseStub. cbn [chain stub_calls stub_method].
  induction Hrest as [| s rest (c & [[v ->] | [a ->]]) _ IH];
    [reflexivity | exact IH | exact IH].
Qed.

(** C8 fails on the stub of supabaseClient.js. A chain that ends in
    [select], [eq] or [order] is awaited on [stubChain], whose [then]
    never calls back: GET /users never answers. Login is rescued by its
    timer, with the timeout error. A method called on the promise that
    [insert] or [update] returned, or [limit], which the stub lacks, is a
    TypeError. Only a chain that ends in [maybeSingle] after [select]
    reaches the "not configured" error. *)
Theorem stub_is_not_uniform :
  request supabaseStub get_users = None /\
  request supabaseStub (get_treinos "ana@x.com") = None /\
  request supabaseStub (post_login (D := DemoDate.engine) 6 ana_login)
  = Some (Sent {| status := 500;
                  body := VObj [("error", VStr "Timeout ao conectar com banco de dados");
                                ("details", VStr "Query timeout - Supabase demorando demais");
                                ("timestamp", VStr "6")] |}) /\
  request supabaseStub
    (post_treinos_concluir (D := DemoDate.engine) 6 "3"
       (VObj [("aluno_email", VStr "ana@x.com")]))
  = Some (Sent {| status := 500;
                  body := VObj [("error", VStr "Erro ao marcar treino como concluído");
                                ("details", VStr "select is not a function")] |}) /\
  request supabaseStub
    (patch_alunos_contract (D := DemoDate.engine) 6 "3"
       (VObj [("contract_end", VStr "2100-01-01")]))
  = Some (Sent {| status := 500;
                  body := VObj [("error", VStr "Erro ao atualizar contrato");
                                ("details", VStr "eq is not a function")] |}) /\
  request supabaseStub
    (post_posts_curtir (D := DemoDate.engine) 6 "3"
       (VObj [("usuario_email", VStr "ana@x.com")]) VUndef)
  = Some (Sent {| status := 500;
                  body := VObj [("error", VStr "Erro ao curtir post");
                                ("details", VStr
                                   "Supabase not configured (SUPABASE_URL/SUPABASE_SERVICE_KEY missing or invalid)")] |}).
Proof. vm_compute. repeat split. Qed.


(** ** C9: PATCH /alunos/:id/contract on an id that matches no user *)

Section UnknownIdProofs.
Context {D : JsDate}.
Variables (id : string) (db : DB) (users : list Row).
Hypothesis table_is : db !! "users" = Some users.
Hypothesis no_such_user :
  Forall (fun r => eq_match "id" (VStr id) r = false) users.

(** The zero-row UPDATE: no error, no row changed. *)
Lemma exec_update_unknown_id (values : Val) :
  exec db (supabase_from "users" [q_update values; q_eq "id" (VStr id)])
  = (Fulfilled (success VNull), db).
Proof.
  assert (Hmatch : Forall (fun r => matches [q_eq "id" (VStr id)] r = false) users).
  { eapply Forall_impl; [exact no_such_user |]. intros r Hr. simpl. by rewrite Hr. }
  destruct (map_unmatched _ (merge (spread values)) users Hmatch) as [Hmap _].
  unfold exec. cbn [table chain]. rewrite table_is, Hmap.
  by rewrite (insert_id db "users" users table_is).
Qed.

(** The follow-up fetch: no user. *)
Lemma exec_fetch_unknown_id (columns : string) :
  exec db (supabase_from "users"
             [q_select columns; q_eq "id" (VStr id); q_maybeSingle])
  = (Fulfilled (success VNull), db).
Proof.
  assert (Hmatch : Forall (fun r => matches [q_eq "id" (VStr id); q_maybeSingle] r
                                    = false) users).
  { eapply Forall_impl; [exact no_such_user |]. intros r Hr. simpl. by rewrite Hr. }
  destruct (map_unmatched _ (fun r => r) users Hmatch) as [_ Hfilter].
  unfold exec. cbn [table chain]. by rewrite table_is, Hfilter.
Qed.

End UnknownIdProofs.

(** C9. When no row of the users table has the requested id, the UPDATE
    changes nothing and reports no error, the follow-up fetch finds no
    user, these two are the only queries sent, nothing is written to any
    table (no message is inserted), and the response is the success
    response that echoes the id, the normalized contract_end and the
    computed flag. *)
Theorem contract_update_unknown_id {D : JsDate}
  (now : Z) (id : string) (req_body : Val) (db : DB) (users : list Row) :
  truthy (get "contract_end" req_body) = true ->
  db !! "users" = Some users ->
  Forall (fun r => eq_match "id" (VStr id) r = false) users ->
  let iso := contract_iso (get "contract_end" req_body) in
  let update :=
    supabase_from "users"
      [q_update (VObj [("contract_end", iso);
                       ("blocked", VNum (if contract_blocked now iso then 1 else 0))]);
       q_eq "id" (VStr id)] in
  let fetch :=
    supabase_from "users"
      [q_select "id,email,tipo,criado_por,contract_end,blocked";
       q_eq "id" (VStr id); q_maybeSingle] in
  exec db update = (Fulfilled (success VNull), db) /\
  exec db fetch = (Fulfilled (success VNull), db) /\
  sent_queries (snapshot db) (patch_alunos_contract now id req_body)
  = [update; fetch] /\
  request_db (patch_alunos_contract now id req_body) db
  = (Sent (contract_updated now id (get "contract_end" req_body)), db).
Proof.
  intros given Hdb Hnone iso update fetch.
  pose proof (exec_update_unknown_id id db users Hdb Hnone) as Hupdate.
  pose proof (exec_fetch_unknown_id id db users Hdb Hnone) as Hfetch.
  split; [apply Hupdate |]. split; [apply Hfetch |]. split.
  - unfold sent_queries, patch_alunos_contract, throw_if_error, snapshot.
    rewrite (given_is_object _ _ given), given.
    cbn -[truthy js_or js_and strict_eq toString contract_iso contract_blocked exec].
    rewrite Hupdate.
    cbn -[truthy js_or js_and strict_eq toString contract_iso contract_blocked exec].
    rewrite Hfetch.
    cbn -[truthy js_or js_and strict_eq toString contract_iso contract_blocked exec].
    rewrite andb_false_r. reflexivity.
  - unfold request_db, patch_alunos_contract, throw_if_error, contract_updated.
    rewrite (given_is_object _ _ given), given.
    cbn -[truthy js_or js_and strict_eq toString contract_iso contract_blocked exec].
    rewrite Hupdate.
    cbn -[truthy js_or js_and strict_eq toString contract_iso contract_blocked exec].
    rewrite Hfetch.
    cbn -[truthy js_or js_and strict_eq toString contract_iso contract_blocked exec].
    rewrite andb_false_r. reflexivity.
Qed.

Lemma contract_update_unknown_id_witness :
  let req_body := VObj [("contract_end", VStr "2020-01-01");
                        ("professor_email", VStr "prof@x.com")] in
  let handler :=
    patch_alunos_contract (D := DemoDate.engine) (DemoDate.t2020 + 5) "8" req_body in
  truthy (get "contract_end" req_body) = true /\
  one_student !! "users" = Some [student] /\
  Forall (fun r => eq_match "id" (VStr "8") r = false) [student] /\
  length (sent_queries (snapshot one_student) handler) = 2%nat /\
  request_db handler one_student
  = (Sent {| status := 200;
             body := VObj [("id", VStr "8");
                           ("contract_end", VStr "2020-01-01T00:00:00.000Z");
                           ("blocked", VNum 1)] |},
     one_student).
Proof.
  intros req_body handler.
  assert (Hnone : Forall (fun r => eq_match "id" (VStr "8") r = false) [student])
    by (repeat constructor).
  split; [reflexivity | split; [reflexivity | split; [exact Hnone |]]].
  destruct (contract_update_unknown_id (D := DemoDate.engine)
              (DemoDate.t2020 + 5) "8" req_body one_student [student]
              eq_refl eq_refl Hnone) as (_ & _ & Hsent & Hrun).
  fold handler in Hsent, Hrun. rewrite Hsent. split; [reflexivity | exact Hrun].
Defined.


(** ** C10: POST /produtos *)

(** C10. The ordem of a new product is not always above the others.
    Once PUT /produtos/2 has stored a null ordem, the descending order
    that POST /produtos asks for puts that row first, the product
    created next gets ordem 1, below the 4 of a product in the table,
    and GET /produtos lists it first; and next to a product of ordem
    2^53 the new product gets 2^53 again, the sum being rounded. *)
Theorem new_product_after_null_ordem :
  let cleared :=
    snd (request_db (put_produtos_id (D := DemoDate.engine) 5 "2"
                       (VObj [("ordem", VNull)])) two_products) in
  let created := request_db (post_produtos (D := DemoDate.engine) 6 new_product)
                            cleared in
  let novo := created_product (D := DemoDate.engine) 6 new_product " Luvas " 1 in
  let whey := [("id", VNum 1); ("titulo", VStr "Whey"); ("ordem", VNum 4);
               ("ativo", VBool true)] in
  let largest :=
    snd (request_db (put_produtos_id (D := DemoDate.engine) 5 "2"
                       (VObj [("ordem", VNum (2 ^ 53))])) two_products) in
  cleared !! "produtos_loja"
  = Some [whey;
          [("id", VNum 2); ("titulo", VStr "Corda"); ("ordem", VNull);
           ("ativo", VBool false); ("atualizado_em", VStr "5")]] /\
  fst created
  = Sent {| status := 200;
            body := VObj [("success", VBool true); ("data", VObj novo)] |} /\
  assoc "ordem" novo = VNum 1 /\
  fst (request_db get_produtos (snd created))
  = Sent {| status := 200; body := VArr [VObj novo; VObj whey] |} /\
  fst (request_db (post_produtos (D := DemoDate.engine) 6 new_product) largest)
  = Sent {| status := 200;
            body := VObj [("success", VBool true);
                          ("data", VObj (created_product (D := DemoDate.engine) 6
                                           new_product " Luvas " (2 ^ 53)))] |}.
Proof. vm_compute. repeat split. Qed.

Section ProductProofs.
Context {D : JsDate}.
Variables (now : Z) (req_body : Val) (titulo : string).
Variables (db : DB) (produtos : list Row).
Hypothesis titulo_is : get "titulo" req_body = VStr titulo.
Hypothesis titulo_given : titulo <> EmptyString.
Hypothesis imagem_given : truthy (get "imagem_url" req_body) = true.
Hypothesis link_given : truthy (get "link_mercadolivre" req_body) = true.
Hypothesis table_is : db !! "produtos_loja" = Some produtos.
Hypothesis integers : integer_ordem produtos.

(** "Pegar o maior 'ordem' e adicionar 1" *)
Lemma next_ordem :
  exists (last : Result) (m : Z),
    exec db (supabase_from "produtos_loja"
               [q_select "ordem"; q_order "ordem" false; q_limit 1; q_single])
    = (Fulfilled last, db) /\
    plus (js_or (get "ordem" (data last)) (VNum 0)) (VNum 1) = ret (VNum m) /\
    Forall (fun r => exists n, assoc "ordem" r = VNum n /\ n < m) produtos /\
    (produtos = [] -> m = 1) /\
    (produtos <> [] -> exists r, In r produtos /\ assoc "ordem" r = VNum (m - 1)).
Proof.
  assert (Hproject : forall r : Row,
            project "ordem" r
            = [("ordem", match assoc "ordem" r with VUndef => VNull | v => v end)])
    by reflexivity.
  unfold exec. cbn [table chain]. rewrite table_is.
  rewrite filter_all by reflexivity.
  unfold answer_rows. cbn [arrange Z.ltb Z.compare].
  change (Z.to_nat 1) with 1%nat.
  destruct (order_by "ordem" false produtos) as [| h t] eqn:Hsort.
  - assert (produtos = []) as ->.
    { apply (f_equal (@length Row)) in Hsort.
      rewrite order_by_length in Hsort. by destruct produtos. }
    eexists _, 1. split; [reflexivity |]. split; [reflexivity |].
    split; [constructor |]. split; [reflexivity |]. congruence.
  - destruct (order_by_desc_head produtos integers h t Hsort)
      as (k & Hk & Hkb & Hin & Hall).
    cbn [firstn List.map]. rewrite Hproject, Hk.
    change (firstn 0 t) with (@nil Row).
    eexists _, (k + 1). split; [reflexivity |].
    cbn -[js_or plus Z.add].
    split.
    { unfold js_or. simpl truthy.
      destruct (Z.eqb_spec k 0) as [-> | _]; [reflexivity |].
      unfold plus, js_add. cbn -[round_double Z.add].
      by rewrite round_double_exact by lia. }
    split.
    { eapply Forall_impl; [exact Hall |].
      intros r (n & Hn & Hle). exists n. split; [assumption | lia]. }
    split.
    { intros ->. destruct Hin. }
    { intros _. exists h. split; [assumption |].
      rewrite Hk. f_equal. lia. }
Qed.

Lemma post_produtos_appends :
  exists m : Z,
    let novo := created_product now req_body titulo m in
    request_db (post_produtos now req_body) db
    = (Sent {| status := 200;
               body := VObj [("success", VBool true); ("data", VObj novo)] |},
       <["produtos_loja" := (produtos ++ [novo])%list]> db) /\
    Forall (fun r => exists n, assoc "ordem" r = VNum n /\ n < m) produtos /\
    (produtos = [] -> m = 1) /\
    (produtos <> [] -> exists r, In r produtos /\ assoc "ordem" r = VNum (m - 1)).
Proof.
  destruct next_ordem as (last & m & Hexec & Hm & Hall & Hempty & Hmax).
  exists m. cbn zeta. split; [| auto].
  unfold request_db, post_produtos, throw_if_error, destructure.
  assert (Hobj : nullish req_body = false)
    by (destruct req_body; try discriminate imagem_given; reflexivity).
  assert (Htit : truthy (VStr titulo) = true).
  { simpl. destruct (String.eqb_spec titulo EmptyString); [by destruct titulo_given | reflexivity]. }
  rewrite Hobj. cbn -[truthy exec js_or plus].
  rewrite titulo_is, Htit, imagem_given, link_given.
  cbn -[truthy exec js_or plus].
  rewrite Hexec.
  cbn -[truthy exec js_or plus].
  rewrite Hm.
  cbn -[truthy exec js_or].
  unfold exec. cbn [table chain]. rewrite table_is.
  reflexivity.
Qed.

(** After the insert, the listing of GET /produtos ends with the new
    product. *)
Lemma get_produtos_lists_last (m : Z) :
  Forall (fun r => exists n, assoc "ordem" r = VNum n /\ n < m) produtos ->
  let novo := created_product now req_body titulo m in
  exists before,
    fst (request_db get_produtos
           (<["produtos_loja" := (produtos ++ [novo])%list]> db))
    = Sent {| status := 200; body := VArr (before ++ [VObj novo]) |}.
Proof.
  intros Hall novo.
  set (active := matches [q_eq "ativo" (VBool true); q_order "ordem" true]).
  exists (List.map VObj (order_by "ordem" true (List.filter active produtos))).
  unfold request_db, get_produtos, throw_if_error.
  cbn -[exec truthy js_or].
  unfold exec. cbn [table chain]. rewrite lookup_insert_eq.
  fold active. unfold answer_rows.
  rewrite List.filter_app.
  replace (List.filter active [novo]) with [novo] by reflexivity.
  cbn [arrange].
  rewrite order_by_snoc.
  - rewrite map_project_star. unfold cardinality.
    cbn [has_single has_maybeSingle]. rewrite List.map_app. reflexivity.
  - apply List.Forall_forall. intros r Hr.
    apply List.filter_In in Hr as [Hr _].
    rewrite List.Forall_forall in Hall.
    destruct (Hall r Hr) as (n & Hn & Hlt).
    rewrite (row_leb_ordem true r novo n m Hn eq_refl).
    apply Z.leb_le. lia.
Qed.

End ProductProofs.

(** X30. With the ordem column holding integers below 2^53 in magnitude,
    a product created by POST /produtos is appended with an ordem
    strictly greater than that of every product of the table (the
    largest one plus one, or 1 on an empty table), and the listing of
    GET /produtos that follows ends with it. *)
Theorem new_product_sorts_last {D : JsDate}
  (now : Z) (req_body : Val) (titulo : string) (db : DB) (produtos : list Row) :
  get "titulo" req_body = VStr titulo ->
  titulo <> EmptyString ->
  truthy (get "imagem_url" req_body) = true ->
  truthy (get "link_mercadolivre" req_body) = true ->
  db !! "produtos_loja" = Some produtos ->
  integer_ordem produtos ->
  exists m : Z,
    let novo := created_product now req_body titulo m in
    let db' := <["produtos_loja" := (produtos ++ [novo])%list]> db in
    request_db (post_produtos now req_body) db
    = (Sent {| status := 200;
               body := VObj [("success", VBool true); ("data", VObj novo)] |},
       db') /\
    Forall (fun r => exists n, assoc "ordem" r = VNum n /\ n < m) produtos /\
    (produtos = [] -> m = 1) /\
    (produtos <> [] -> exists r, In r produtos /\ assoc "ordem" r = VNum (m - 1)) /\
    exists before,
      fst (request_db get_produtos db')
      = Sent {| status := 200; body := VArr (before ++ [VObj novo]) |}.
Proof.
  intros Htitulo Hgiven Himagem Hlink Hdb Hint.
  destruct (post_produtos_appends now req_body titulo db produtos
              Htitulo Hgiven Himagem Hlink Hdb Hint)
    as (m & Hrun & Hall & Hempty & Hmax).
  exists m. cbn zeta. repeat (split; [assumption |]).
  by apply get_produtos_lists_last.
Qed.

Lemma new_product_sorts_last_witness :
  get "titulo" new_product = VStr " Luvas " /\
  " Luvas " <> EmptyString /\
  truthy (get "imagem_url" new_product) = true /\
  truthy (get "link_mercadolivre" new_product) = true /\
  two_products !! "produtos_loja" <> None /\
  exists m : Z,
    9 < m /\
    exists before,
      fst (request_db get_produtos
             (snd (request_db (post_produtos (D := DemoDate.engine) 5 new_product)
                              two_products)))
      = Sent {| status := 200;
                body := VArr (before ++
                  [VObj (created_product (D := DemoDate.engine) 5 new_product
                           " Luvas " m)]) |}.
Proof.
  split; [reflexivity |]. split; [discriminate |].
  split; [reflexivity |]. split; [reflexivity |]. split; [discriminate |].
  assert (Hint : integer_ordem
                   [[("id", VNum 1); ("titulo", VStr "Whey"); ("ordem", VNum 4);
                     ("ativo", VBool true)];
                    [("id", VNum 2); ("titulo", VStr "Corda"); ("ordem", VNum 9);
                     ("ativo", VBool false)]]).
  { repeat constructor; eexists; (split; [reflexivity | reflexivity]). }
  destruct (new_product_sorts_last (D := DemoDate.engine) 5 new_product " Luvas "
              two_products _ eq_refl ltac:(discriminate) eq_refl eq_refl
              eq_refl Hint)
    as (m & Hrun & Hall & _ & _ & before & Hlist).
  exists m. split.
  - apply Forall_cons in Hall as [_ Hall].
    apply Forall_cons in Hall as [(n & Hn & Hlt) _].
    injection Hn as <-. exact Hlt.
  - exists before. rewrite Hrun. exact Hlist.
Defined.

(** * Further properties *)

(** ** The in-memory store, one query at a time *)

Lemma exec_select (db : DB) (t columns : string) (rest : list Step)
  (rows : list Row) :
  db !! t = Some rows ->
  exec db (supabase_from t (q_select columns :: rest))
  = (Fulfilled (answer_rows columns rest (List.filter (matches rest) rows)), db).
Proof. intros Hdb. unfold exec. cbn [table chain]. by rewrite Hdb. Qed.

Lemma exec_insert (db : DB) (t : string) (values : Val) (rest : list Step)
  (rows : list Row) :
  db !! t = Some rows ->
  exec db (supabase_from t (q_insert values :: rest))
  = (Fulfilled (answer_write rest (rows_of values)),
     <[t := (rows ++ rows_of values)%list]> db).
Proof. intros Hdb. unfold exec. cbn [table chain]. by rewrite Hdb. Qed.

Lemma exec_update (db : DB) (t : string) (values : Val) (rest : list Step)
  (rows : list Row) :
  db !! t = Some rows ->
  exec db (supabase_from t (q_update values :: rest))
  = (Fulfilled (answer_write rest
                  (List.map (merge (spread values))
                            (List.filter (matches rest) rows))),
     <[t := List.map (fun r => if matches rest r
                               then merge (spread values) r else r) rows]> db).
Proof. intros Hdb. unfold exec. cbn [table chain]. by rewrite Hdb. Qed.

Lemma exec_delete (db : DB) (t : string) (rest : list Step) (rows : list Row) :
  db !! t = Some rows ->
  exec db (supabase_from t (q_delete :: rest))
  = (Fulfilled (answer_write rest (List.filter (matches rest) rows)),
     <[t := List.filter (fun r => negb (matches rest r)) rows]> db).
Proof. intros Hdb. unfold exec. cbn [table chain]. by rewrite Hdb. Qed.

Lemma exec_upsert (db : DB) (t : string) (values : Val) (onConflict : string)
  (rest : list Step) (rows : list Row) :
  db !! t = Some rows ->
  exists e, code e = Some "42P10" /\
  exec db (supabase_from t (q_upsert values onConflict :: rest))
  = (Fulfilled (failure e), db).
Proof.
  intros Hdb. unfold exec. cbn [table chain]. rewrite Hdb.
  eexists. split; [| reflexivity]. reflexivity.
Qed.

Lemma filter_none {A : Type} (f : A -> bool) (l : list A) :
  Forall (fun x => f x = false) l -> List.filter f l = [].
Proof.
  induction 1 as [| x l Hx _ IH]; simpl; [reflexivity |]. by rewrite Hx.
Qed.

Lemma filter_nil_unmatched {A : Type} (f : A -> bool) (g : A -> A) (l : list A) :
  List.filter f l = [] ->
  List.map (fun x => if f x then g x else x) l = l.
Proof.
  induction l as [| x l IH]; simpl; [reflexivity |].
  destruct (f x); [discriminate |]. intros E. by rewrite IH.
Qed.

Lemma truthy_nonempty (s : string) : s <> EmptyString -> truthy (VStr s) = true.
Proof.
  intros Hs. simpl. by destruct (String.eqb_spec s EmptyString).
Qed.

(** ** POST and GET /contract-settings on the in-memory store *)

Section SettingsProofs.
Context {D : JsDate}.
Variables (db : DB) (rows : list Row).
Hypothesis table_exists : db !! "contract_settings" = Some rows.

Variables (now : Z) (req_body : Val) (pe ae : string).
Hypothesis professor_given : truthy (get "professor_email" req_body) = true.
Hypothesis aluno_given : truthy (get "aluno_email" req_body) = true.
Hypothesis professor_prints : printable (get "professor_email" req_body) = true.
Hypothesis aluno_prints : printable (get "aluno_email" req_body) = true.
Hypothesis professor_key :
  normalized (toString (get "professor_email" req_body)) = pe.
Hypothesis aluno_key :
  normalized (toString (get "aluno_email" req_body)) = ae.

Lemma record_has_key :
  has_settings_key pe ae (spread (upsertPayload now pe ae req_body)) = true.
Proof.
  unfold has_settings_key, settings_key, matches, eq_match, upsertPayload.
  cbn. by rewrite !String.eqb_refl.
Qed.

Lemma post_contract_settings_on_store :
  request_db (post_contract_settings now req_body) db
  = match List.filter (has_settings_key pe ae) rows with
    | [] =>
        (Sent {| status := 200;
                 body := VArr [VObj (spread (upsertPayload now pe ae req_body))] |},
         <["contract_settings" :=
             (rows ++ [spread (upsertPayload now pe ae req_body)])%list]> db)
    | _ :: _ =>
        (Sent {| status := 200;
                 body := VArr (List.map VObj
                                 (List.map (merge (spread (upsertPayload now pe ae req_body)))
                                    (List.filter (has_settings_key pe ae) rows))) |},
         <["contract_settings" :=
             List.map (fun r => if has_settings_key pe ae r
                                then merge (spread (upsertPayload now pe ae req_body)) r
                                else r) rows]> db)
    end.
Proof.
  unfold request_db, post_contract_settings, throw_if_error.
  rewrite (given_is_object _ _ professor_given).
  rewrite require_fields_present by (repeat constructor; assumption).
  rewrite !call_toString_given by assumption.
  cbn [bind bindP ret].
  fold (normalized (toString (get "professor_email" req_body))).
  fold (normalized (toString (get "aluno_email" req_body))).
  rewrite professor_key, aluno_key.
  change (get "professor_email" (upsertPayload now pe ae req_body)) with (VStr pe).
  change (get "aluno_email" (upsertPayload now pe ae req_body)) with (VStr ae).
  generalize (upsertPayload now pe ae req_body). intros record.
  cbn -[exec].
  destruct (exec_upsert db "contract_settings" (VArr [record])
              "professor_email,aluno_email" [q_select "*"] rows table_exists)
    as (e & He & ->).
  cbn -[exec bool_decide]. rewrite He.
  rewrite bool_decide_eq_false_2 by discriminate.
  rewrite bool_decide_eq_true_2 by reflexivity.
  cbn -[exec].
  rewrite (exec_update db _ _ _ rows table_exists).
  change (matches [q_eq "professor_email" (VStr pe); q_eq "aluno_email" (VStr ae);
                   q_select "*"]) with (has_settings_key pe ae).
  unfold answer_write, answer_rows.
  cbn [returning arrange cardinality has_single has_maybeSingle].
  rewrite map_project_star.
  destruct (List.filter (has_settings_key pe ae) rows) as [| r found] eqn:E.
  - cbn -[exec].
    erewrite exec_insert by apply lookup_insert_eq.
    cbn. rewrite insert_insert_eq.
    by rewrite (filter_nil_unmatched _ _ _ E).
  - reflexivity.
Qed.

(** After the call the store holds a record under the key. *)
Lemma settings_stored :
  List.filter (has_settings_key pe ae) rows = [] ->
  snd (request_db (post_contract_settings now req_body) db)
  = <["contract_settings" :=
        (rows ++ [spread (upsertPayload now pe ae req_body)])%list]> db.
Proof. intros E. by rewrite post_contract_settings_on_store, E. Qed.

End SettingsProofs.

(** X1. A record saved by POST /contract-settings is read back by GET
    /contract-settings/:professor_email/:aluno_email. For a request
    whose two emails convert to text, on a store that held no record
    under the two normalized emails, the GET answers 200 with the record
    as it was built from the request, whatever the letter case and the
    surrounding white space of the emails in the path. *)
Theorem contract_settings_read_back {D : JsDate}
  (now : Z) (req_body : Val) (db : DB) (rows : list Row)
  (professor_param aluno_param p a : string) :
  db !! "contract_settings" = Some rows ->
  truthy (get "professor_email" req_body) = true ->
  truthy (get "aluno_email" req_body) = true ->
  printable (get "professor_email" req_body) = true ->
  printable (get "aluno_email" req_body) = true ->
  decodeURIComponent professor_param = Some p ->
  decodeURIComponent aluno_param = Some a ->
  normalized p = normalized (toString (get "professor_email" req_body)) ->
  normalized a = normalized (toString (get "aluno_email" req_body)) ->
  normalized p <> EmptyString ->
  normalized a <> EmptyString ->
  List.filter (has_settings_key (normalized p) (normalized a)) rows = [] ->
  let stored := snd (request_db (post_contract_settings now req_body) db) in
  fst (request_db (get_contract_settings professor_param aluno_param) stored)
  = Sent {| status := 200;
            body := upsertPayload now (normalized p) (normalized a) req_body |}.
Proof.
  intros Hdb Hp Ha Hpp Hpa Hdp Hda Hpe Hae Hpne Hane Hnone stored.
  unfold stored.
  rewrite (settings_stored db rows Hdb now req_body _ _ Hp Ha Hpp Hpa
             (eq_sym Hpe) (eq_sym Hae) Hnone).
  unfold request_db, get_contract_settings, call_decodeURIComponent,
    throw_if_error.
  rewrite Hdp, Hda. cbn -[exec truthy toLowerCase trim].
  fold (normalized p). fold (normalized a).
  rewrite (truthy_nonempty _ Hpne), (truthy_nonempty _ Hane).
  cbn -[exec].
  erewrite exec_select by apply lookup_insert_eq.
  change (matches [q_eq "professor_email" (VStr (normalized p));
                   q_eq "aluno_email" (VStr (normalized a)); q_maybeSingle])
    with (has_settings_key (normalized p) (normalized a)).
  rewrite List.filter_app, Hnone.
  cbn [List.filter app].
  rewrite (record_has_key now req_body (normalized p) (normalized a)).
  reflexivity.
Qed.

Lemma contract_settings_read_back_witness :
  let req_body :=
    VObj [("professor_email", VStr " Prof@X.com ");
          ("aluno_email", VStr "ANA@x.com"); ("option1_value", VNum 30)] in
  let db : DB := {[ "contract_settings" := [] ]} in
  let stored :=
    snd (request_db (post_contract_settings (D := DemoDate.engine) 7 req_body) db) in
  fst (request_db (get_contract_settings "PROF%40x.com" "ana%40X.COM") stored)
  = Sent {| status := 200;
            body := upsertPayload (D := DemoDate.engine) 7
                      "prof@x.com" "ana@x.com" req_body |}.
Proof.
  intros req_body db.
  apply (contract_settings_read_back (D := DemoDate.engine) 7 req_body db []
           "PROF%40x.com" "ana%40X.COM" "PROF@x.com" "ana@X.COM");
    try reflexivity; discriminate.
Defined.

(** X2. On a store without the unique constraint, two POST
    /contract-settings calls with the same pair of emails (letter case
    and white space apart), each email of a value that converts to
    text, leave one record under the key, that of the second call: the
    second call answers 200 with it, and the table is the old one
    followed by that single record. *)
Theorem contract_settings_last_write_wins {D : JsDate}
  (now1 now2 : Z) (first second : Val) (db : DB) (rows : list Row)
  (pe ae : string) :
  db !! "contract_settings" = Some rows ->
  truthy (get "professor_email" first) = true ->
  truthy (get "aluno_email" first) = true ->
  truthy (get "professor_email" second) = true ->
  truthy (get "aluno_email" second) = true ->
  printable (get "professor_email" first) = true ->
  printable (get "aluno_email" first) = true ->
  printable (get "professor_email" second) = true ->
  printable (get "aluno_email" second) = true ->
  normalized (toString (get "professor_email" first)) = pe ->
  normalized (toString (get "aluno_email" first)) = ae ->
  normalized (toString (get "professor_email" second)) = pe ->
  normalized (toString (get "aluno_email" second)) = ae ->
  List.filter (has_settings_key pe ae) rows = [] ->
  let once := snd (request_db (post_contract_settings now1 first) db) in
  request_db (post_contract_settings now2 second) once
  = (Sent {| status := 200; body := VArr [upsertPayload now2 pe ae second] |},
     <["contract_settings" :=
         (rows ++ [spread (upsertPayload now2 pe ae second)])%list]> db).
Proof.
  intros Hdb Hp1 Ha1 Hp2 Ha2 Hpp1 Hpa1 Hpp2 Hpa2 Hpe1 Hae1 Hpe2 Hae2 Hnone once.
  unfold once.
  rewrite (settings_stored db rows Hdb now1 first pe ae Hp1 Ha1 Hpp1 Hpa1
             Hpe1 Hae1 Hnone).
  rewrite (post_contract_settings_on_store _ _ (lookup_insert_eq _ _ _)
             now2 second pe ae Hp2 Ha2 Hpp2 Hpa2 Hpe2 Hae2).
  rewrite List.filter_app, Hnone.
  cbn [List.filter app].
  rewrite (record_has_key now1 first pe ae).
  rewrite List.map_app, (filter_nil_unmatched _ _ _ Hnone).
  cbn [List.map]. rewrite (record_has_key now1 first pe ae).
  rewrite insert_insert_eq.
  reflexivity.
Qed.

Lemma contract_settings_last_write_wins_witness :
  let first :=
    VObj [("professor_email", VStr " Prof@X.com ");
          ("aluno_email", VStr "ANA@x.com"); ("option1_value", VNum 30)] in
  let second :=
    VObj [("professor_email", VStr "prof@x.com");
          ("aluno_email", VStr "Ana@X.com"); ("option1_value", VNum 45)] in
  let db : DB := {[ "contract_settings" := [] ]} in
  let once :=
    snd (request_db (post_contract_settings (D := DemoDate.engine) 7 first) db) in
  snd (request_db (post_contract_settings (D := DemoDate.engine) 8 second) once)
    !! "contract_settings"
  = Some [spread (upsertPayload (D := DemoDate.engine) 8
                    "prof@x.com" "ana@x.com" second)].
Proof.
  intros first second db once. unfold once.
  rewrite (contract_settings_last_write_wins (D := DemoDate.engine)
             7 8 first second db [] "prof@x.com" "ana@x.com");
    try reflexivity.
Defined.

(** ** Creating a student *)

Lemma exec_other_table (db : DB) (q : Query) (t : string) :
  table q <> t -> snd (exec db q) !! t = db !! t.
Proof.
  intros Hne. unfold exec.
  destruct (db !! table q) as [rows |]; [| reflexivity].
  destruct (chain q) as [| [] rest]; cbn [snd]; try reflexivity;
    by rewrite lookup_insert_ne.
Qed.

Lemma matches_credentials (email senha : Val) (r : Row) :
  matches [q_eq "email" email; q_eq "senha" senha] r
  = credentials_match email senha r.
Proof. unfold credentials_match. simpl. by rewrite andb_true_r. Qed.

Lemma post_login_on_store {D : JsDate} (now : Z) (email senha : Val)
  (db : DB) (users : list Row) :
  db !! "users" = Some users ->
  truthy email = true ->
  truthy senha = true ->
  request_db (post_login now (VObj [("email", email); ("senha", senha)])) db
  = (match List.filter (credentials_match email senha) users with
     | [] => Sent invalid_credentials
     | user :: _ => Sent {| status := 200; body := VObj user |}
     end, db).
Proof.
  intros Hdb Hemail Hsenha.
  unfold request_db, post_login, throw_if_error.
  cbn -[exec truthy]. rewrite Hemail, Hsenha. cbn -[exec truthy].
  rewrite (exec_select db _ _ _ users Hdb).
  rewrite (List.filter_ext _ _ (matches_credentials email senha)).
  unfold answer_rows. cbn [arrange cardinality has_single has_maybeSingle].
  rewrite map_project_star.
  by destruct (List.filter (credentials_match email senha) users).
Qed.

Lemma normalize_creator (c : Val) :
  printable c = true ->
  (if truthy c
   then let* criado_por_text := call_toString "criado_por" c in
        ret (VStr (toLowerCase (trim criado_por_text)))
   else ret c)
  = ret (if truthy c then VStr (toLowerCase (trim (toString c))) else c).
Proof.
  intros Hc. destruct (truthy c) eqn:Ht; [| reflexivity].
  by rewrite call_toString_given.
Qed.

Lemma registration_prints_fields (req_body : Val) :
  registration_prints req_body = true ->
  printable (get "nome" req_body) = true /\
  printable (get "email" req_body) = true /\
  printable (get "senha" req_body) = true /\
  printable (js_or (creator req_body) VNull) = true.
Proof.
  unfold registration_prints. rewrite !andb_true_iff.
  intros [[[Hn He] Hs] Hc]. repeat split; try assumption.
  unfold js_or. by destruct (truthy (creator req_body)).
Qed.

Lemma handleCreateAluno_on_store {D : JsDate} (now : Z) (req_body : Val)
  (db : DB) (users : list Row) :
  db !! "users" = Some users ->
  truthy (get "nome" req_body) = true ->
  truthy (get "email" req_body) = true ->
  truthy (get "senha" req_body) = true ->
  registration_prints req_body = true ->
  exists (user : Row) (db' : DB),
    request_db (handleCreateAluno now req_body) db
    = (Sent {| status := 200; body := VObj user |}, db') /\
    db' !! "users" = Some (users ++ [user])%list /\
    assoc "nome" user = VStr (trim (toString (get "nome" req_body))) /\
    assoc "email" user = VStr (normalized (toString (get "email" req_body))) /\
    assoc "senha" user = VStr (toString (get "senha" req_body)) /\
    assoc "tipo" user = js_or (get "tipo" req_body) (VStr "aluno").
Proof.
  intros Hdb Hnome Hemail Hsenha Hprints.
  destruct (registration_prints_fields _ Hprints) as (Hpn & Hpe & Hps & Hpc).
  unfold request_db, handleCreateAluno.
  rewrite (given_is_object _ _ Hnome), Hnome, Hemail, Hsenha.
  cbn [negb orb].
  rewrite !call_toString_given by assumption.
  fold (creator req_body).
  rewrite normalize_creator by assumption.
  cbn -[exec truthy js_or toLowerCase trim toString strict_eq].
  fold (normalized (toString (get "email" req_body))).
  erewrite exec_insert by exact Hdb.
  match goal with
  | |- context [("criado_por", ?c) :: ?tl] => generalize c tl
  end.
  intros criado_por contract_end.
  match goal with
  | |- context [("professor_email", ?p)] => generalize p
  end.
  intros professor_email.
  cbn -[exec truthy js_or toLowerCase trim toString strict_eq normalized].
  destruct (strict_eq _ _).
  - cbn -[exec].
    match goal with
    | |- context [exec ?d ?q] =>
        pose proof (exec_other_table d q "users") as Hother;
        destruct (exec d q) as [s db']
    end.
    cbn [snd] in Hother. rewrite lookup_insert_eq in Hother.
    do 2 eexists. split; [| split; [apply Hother; discriminate |]].
    + destruct s; reflexivity.
    + repeat split; reflexivity.
  - cbn. do 2 eexists. split; [reflexivity |].
    split; [apply lookup_insert_eq |]. repeat split; reflexivity.
Qed.

(** X3. A student registered through POST /alunos, with fields that
    convert to text, can log in with the normalized email and the
    password: when no other user has these credentials, POST /login
    answers with the very record the registration returned. *)
Theorem created_student_can_log_in {D : JsDate}
  (now later : Z) (req_body : Val) (db : DB) (users : list Row) :
  let email := VStr (normalized (toString (get "email" req_body))) in
  let senha := VStr (toString (get "senha" req_body)) in
  db !! "users" = Some users ->
  truthy (get "nome" req_body) = true ->
  truthy (get "email" req_body) = true ->
  truthy (get "senha" req_body) = true ->
  registration_prints req_body = true ->
  truthy email = true ->
  truthy senha = true ->
  List.filter (credentials_match email senha) users = [] ->
  let registered := request_db (handleCreateAluno now req_body) db in
  exists user : Val,
    fst registered = Sent {| status := 200; body := user |} /\
    fst (request_db
           (post_login later (VObj [("email", email); ("senha", senha)]))
           (snd registered))
    = Sent {| status := 200; body := user |} /\
    get "email" user = email /\
    get "senha" user = senha.
Proof.
  intros email senha Hdb Hnome Hemail Hsenha Hprints Hemail' Hsenha' Hnone
    registered.
  destruct (handleCreateAluno_on_store now req_body db users Hdb Hnome Hemail
              Hsenha Hprints)
    as (user & db' & Hrun & Hdb' & _ & Huser_email & Huser_senha & _).
  unfold registered. rewrite Hrun. cbn [fst snd].
  exists (VObj user). split; [reflexivity |].
  rewrite (post_login_on_store later email senha db' _ Hdb' Hemail' Hsenha').
  rewrite List.filter_app, Hnone. cbn [List.filter app fst].
  unfold credentials_match, eq_match. rewrite Huser_email, Huser_senha.
  subst email senha. cbn [get pg_text].
  rewrite !String.eqb_refl, Huser_email, Huser_senha. by cbn.
Qed.

Lemma created_student_can_log_in_witness :
  let registered :=
    request_db (handleCreateAluno (D := DemoDate.engine) 7 ana_signup) no_users in
  exists user : Val,
    fst registered = Sent {| status := 200; body := user |} /\
    fst (request_db
           (post_login (D := DemoDate.engine) 9
              (VObj [("email", VStr "ana@x.com"); ("senha", VStr "p1")]))
           (snd registered))
    = Sent {| status := 200; body := user |} /\
    get "email" user = VStr "ana@x.com" /\
    get "senha" user = VStr "p1".
Proof.
  apply (created_student_can_log_in (D := DemoDate.engine)
           7 9 ana_signup no_users []); reflexivity.
Defined.

Lemma listing_on_store (h : Handler unit) (msg tipo : string)
  (db : DB) (users : list Row) :
  h = try_catch
        (let* r := await (supabase_from "users"
                            [q_select "*"; q_eq "tipo" (VStr tipo)]) in
         throw_if_error r ;;
         res_json (js_or (data r) (VArr [])))
        (fun error => res_status_json 500 (error_body msg error)) ->
  db !! "users" = Some users ->
  request_db h db
  = (Sent {| status := 200;
             body := VArr (List.map VObj
                             (List.filter (eq_match "tipo" (VStr tipo)) users)) |},
     db).
Proof.
  intros -> Hdb. unfold request_db, throw_if_error. cbn -[exec].
  rewrite (exec_select db _ _ _ users Hdb).
  unfold answer_rows. cbn [arrange cardinality has_single has_maybeSingle].
  rewrite map_project_star.
  rewrite (List.filter_ext _ (eq_match "tipo" (VStr tipo)))
    by (intros r; apply andb_true_r).
  reflexivity.
Qed.

(** X4. A record created through POST /alunos without a [tipo], with
    fields that convert to text, is a student: GET /alunos lists it and
    GET /professores does not. *)
Theorem created_student_is_listed {D : JsDate}
  (now : Z) (req_body : Val) (db : DB) (users : list Row) :
  db !! "users" = Some users ->
  truthy (get "nome" req_body) = true ->
  truthy (get "email" req_body) = true ->
  truthy (get "senha" req_body) = true ->
  registration_prints req_body = true ->
  truthy (get "tipo" req_body) = false ->
  let registered := request_db (handleCreateAluno now req_body) db in
  exists (user : Val) (alunos professores : list Val),
    fst registered = Sent {| status := 200; body := user |} /\
    fst (request_db get_alunos (snd registered))
    = Sent {| status := 200; body := VArr alunos |} /\
    fst (request_db get_professores (snd registered))
    = Sent {| status := 200; body := VArr professores |} /\
    In user alunos /\
    ~ In user professores.
Proof.
  intros Hdb Hnome Hemail Hsenha Hprints Htipo registered.
  destruct (handleCreateAluno_on_store now req_body db users Hdb Hnome Hemail
              Hsenha Hprints)
    as (user & db' & Hrun & Hdb' & _ & _ & _ & Huser_tipo).
  unfold js_or in Huser_tipo. rewrite Htipo in Huser_tipo.
  unfold registered. rewrite Hrun. cbn [fst snd].
  rewrite (listing_on_store get_alunos _ "aluno" db' _ eq_refl Hdb').
  rewrite (listing_on_store get_professores _ "professor" db' _ eq_refl Hdb').
  do 3 eexists. do 3 (split; [reflexivity |]). split.
  - apply List.in_map, List.filter_In. split.
    + apply List.in_app_iff. right. by left.
    + unfold eq_match. by rewrite Huser_tipo.
  - intros Hin. apply List.in_map_iff in Hin as (r & Hr & Hin).
    injection Hr as ->. apply List.filter_In in Hin as [_ Hin].
    unfold eq_match in Hin. by rewrite Huser_tipo in Hin.
Qed.

Lemma created_student_is_listed_witness :
  let registered :=
    request_db (handleCreateAluno (D := DemoDate.engine) 7 ana_signup) no_users in
  exists (user : Val) (alunos professores : list Val),
    fst registered = Sent {| status := 200; body := user |} /\
    fst (request_db get_alunos (snd registered))
    = Sent {| status := 200; body := VArr alunos |} /\
    fst (request_db get_professores (snd registered))
    = Sent {| status := 200; body := VArr professores |} /\
    In user alunos /\
    ~ In user professores.
Proof.
  apply (created_student_is_listed (D := DemoDate.engine)
           7 ana_signup no_users []); reflexivity.
Defined.

(** X5. When the store refuses the new user as a duplicate (code 23505,
    or details saying that the key already exists), POST /alunos, on
    fields that convert to text, answers 409 "Email já cadastrado" and
    sends nothing but that one insert: no profile is written to the
    alunos table. *)
Theorem duplicate_email_is_conflict {D : JsDate}
  (now : Z) (req_body : Val) (srv : Server) (r : Result) (e : JsError) :
  truthy (get "nome" req_body) = true ->
  truthy (get "email" req_body) = true ->
  truthy (get "senha" req_body) = true ->
  registration_prints req_body = true ->
  (forall q, table q = "users" -> srv q = Settles (Fulfilled r)) ->
  error r = Some e ->
  code e = Some "23505"
  \/ (exists d, details e = Some d
                /\ includes "already exists" (toLowerCase d) = true) ->
  request srv (handleCreateAluno now req_body)
  = Some (Sent {| status := 409;
                  body := VObj [("error", VStr "Email já cadastrado");
                                ("details", VStr (message e))] |}) /\
  exists insert,
    sent_queries srv (handleCreateAluno now req_body)
    = [supabase_from "users" (q_insert insert :: [q_select "*"; q_maybeSingle])].
Proof.
  intros Hnome Hemail Hsenha Hprints Husers He Hdup.
  destruct (registration_prints_fields _ Hprints) as (Hpn & Hpe & Hps & Hpc).
  assert (Hdup' : bool_decide (code e = Some "23505")
                  || match details e with
                     | Some d => includes "already exists" (toLowerCase d)
                     | None => false
                     end = true).
  { destruct Hdup as [Hcode | (d & -> & Hd)].
    - by rewrite bool_decide_eq_true_2.
    - rewrite Hd. apply orb_true_r. }
  unfold request, sent_queries, handleCreateAluno.
  rewrite (given_is_object _ _ Hnome), Hnome, Hemail, Hsenha.
  cbn [negb orb].
  rewrite !call_toString_given by assumption.
  fold (creator req_body).
  rewrite normalize_creator by assumption.
  cbn -[truthy js_or toLowerCase trim toString strict_eq bool_decide includes].
  rewrite !Husers by reflexivity.
  cbn -[truthy js_or toLowerCase trim toString strict_eq bool_decide includes].
  rewrite He, Hdup'. split; [reflexivity | eexists; reflexivity].
Qed.

Lemma duplicate_email_is_conflict_witness :
  let taken : Result :=
    failure (pg_error "23505"
               "duplicate key value violates unique constraint") in
  let srv : Server := fun _ => Settles (Fulfilled taken) in
  request srv (handleCreateAluno (D := DemoDate.engine) 7 ana_signup)
  = Some (Sent {| status := 409;
                  body := VObj [("error", VStr "Email já cadastrado");
                                ("details", VStr
                                   "duplicate key value violates unique constraint")] |}).
Proof.
  intros taken srv.
  exact (proj1 (duplicate_email_is_conflict (D := DemoDate.engine)
                  7 ana_signup srv taken _ eq_refl eq_refl eq_refl eq_refl
                  (fun _ _ => eq_refl) eq_refl (or_introl eq_refl))).
Defined.

(** X6. The profile row POST /alunos adds to the alunos table is best
    effort: for fields that convert to text, once the users table has
    accepted the record, the answer is 200 with that record whether the
    second insert succeeds, reports an error or is rejected. *)
Theorem student_profile_is_best_effort {D : JsDate}
  (now : Z) (req_body : Val) (srv : Server) (r : Result) :
  truthy (get "nome" req_body) = true ->
  truthy (get "email" req_body) = true ->
  truthy (get "senha" req_body) = true ->
  registration_prints req_body = true ->
  (forall q, table q = "users" -> srv q = Settles (Fulfilled r)) ->
  error r = None ->
  truthy (data r) = true ->
  (forall q, table q = "alunos" -> srv q <> Never) ->
  request srv (handleCreateAluno now req_body)
  = Some (Sent {| status := 200; body := data r |}).
Proof.
  intros Hnome Hemail Hsenha Hprints Husers He Hdata Halunos.
  destruct (registration_prints_fields _ Hprints) as (Hpn & Hpe & Hps & Hpc).
  unfold request, handleCreateAluno.
  rewrite (given_is_object _ _ Hnome), Hnome, Hemail, Hsenha.
  cbn [negb orb].
  rewrite !call_toString_given by assumption.
  fold (creator req_body).
  rewrite normalize_creator by assumption.
  cbn -[truthy js_or toLowerCase trim toString strict_eq bool_decide includes].
  rewrite !Husers by reflexivity.
  cbn -[truthy js_or toLowerCase trim toString strict_eq bool_decide includes].
  rewrite He, Hdata.
  cbn -[truthy js_or toLowerCase trim toString strict_eq bool_decide includes].
  destruct (strict_eq _ _); [| reflexivity].
  cbn -[truthy js_or toLowerCase trim toString strict_eq bool_decide includes].
  match goal with
  | |- context [srv ?q] =>
      pose proof (Halunos q eq_refl) as Hq; destruct (srv q) as [[? | ?] |]
  end; [reflexivity | reflexivity | by destruct Hq].
Qed.

Lemma student_profile_is_best_effort_witness :
  let created : Result := success (VObj [("id", VNum 1)]) in
  let srv : Server := fun q =>
    if String.eqb (table q) "users" then Settles (Fulfilled created)
    else Settles (Rejected (new_Error "fetch failed")) in
  request srv (handleCreateAluno (D := DemoDate.engine) 7 ana_signup)
  = Some (Sent {| status := 200; body := VObj [("id", VNum 1)] |}).
Proof.
  intros created srv.
  apply (student_profile_is_best_effort (D := DemoDate.engine)
           7 ana_signup srv created); try reflexivity.
  - intros [t c] Ht. cbn in Ht. subst t. reflexivity.
  - intros [t c] Ht. cbn in Ht. subst t. discriminate.
Defined.

(** ** DELETE /contracts/:id *)

Section DeleteContractProofs.
Variables (id : string) (db : DB) (contracts : list Row) (existing : Row).
Hypothesis table_exists : db !! "contracts" = Some contracts.
Hypothesis id_given : id <> EmptyString.
Hypothesis one_contract :
  List.filter (eq_match "id" (VStr id)) contracts = [existing].

Lemma exec_find_contract :
  exec db (supabase_from "contracts"
             [q_select "*"; q_eq "id" (VStr id); q_maybeSingle])
  = (Fulfilled (success (VObj existing)), db).
Proof.
  rewrite (exec_select db _ _ _ contracts table_exists).
  rewrite (List.filter_ext _ (eq_match "id" (VStr id)))
    by (intros r; apply andb_true_r).
  rewrite one_contract. unfold answer_rows, project. by cbn.
Qed.

Lemma exec_delete_contract :
  exec db (supabase_from "contracts" [q_delete; q_eq "id" (VStr id)])
  = (Fulfilled (success VNull),
     <["contracts" :=
         List.filter (fun r => negb (eq_match "id" (VStr id) r)) contracts]> db).
Proof.
  rewrite (exec_delete db _ _ contracts table_exists).
  f_equal. f_equal. apply List.filter_ext. intros r. cbn. by rewrite andb_true_r.
Qed.

Lemma delete_contracts_id_on_store (professor_email : Val) (actor : Val) :
  (if truthy professor_email
   then exists d, decodeURIComponent (toString professor_email) = Some d
                  /\ actor = VStr (normalized d)
   else actor = VNull) ->
  request_db (delete_contracts_id id professor_email) db
  = if truthy actor
       && other_owner (toString actor) "criado_por" existing
       && other_owner (toString actor) "professor_email" existing
    then (Sent not_authorized, db)
    else (Sent deleted,
          <["contracts" :=
              List.filter (fun r => negb (eq_match "id" (VStr id) r)) contracts]> db).
Proof.
  intros Hactor.
  unfold request_db, delete_contracts_id, call_decodeURIComponent, throw_if_error.
  assert (Hrun : forall k : Val -> Handler unit,
    bind (if truthy professor_email
          then bind match decodeURIComponent (toString professor_email) with
                    | Some d => ret d
                    | None => throw (new_Error "URI malformed")
                    end
                    (fun d => ret (VStr (toLowerCase (trim d))))
          else ret VNull) k = k actor).
  { intros k. destruct (truthy professor_email).
    - destruct Hactor as (d & -> & ->). reflexivity.
    - by rewrite Hactor. }
  match goal with
  | |- context [try_catch (bind _ ?k)] => rewrite (Hrun k)
  end.
  rewrite (truthy_nonempty _ id_given).
  cbn -[exec truthy strict_eq toLowerCase trim toString].
  rewrite exec_find_contract.
  cbn -[exec truthy strict_eq toLowerCase trim toString].
  unfold other_owner. fold (normalized (toString (assoc "criado_por" existing))).
  fold (normalized (toString (assoc "professor_email" existing))).
  assert (Hshape : actor = VNull \/ exists a, actor = VStr a).
  { destruct (truthy professor_email); [| by left].
    destruct Hactor as (d & _ & ->). right. by eexists. }
  destruct Hshape as [-> | [a ->]]; cbn [strict_eq toString].
  - cbn -[exec]. by rewrite exec_delete_contract.
  - destruct (truthy (VStr a)),
      (truthy (assoc "criado_por" existing)),
      (truthy (assoc "professor_email" existing)),
      (String.eqb (normalized (toString (assoc "criado_por" existing))) a),
      (String.eqb (normalized (toString (assoc "professor_email" existing))) a);
      cbn -[exec]; try rewrite exec_delete_contract; reflexivity.
Qed.

End DeleteContractProofs.

(** X7. DELETE /contracts/:id refuses a request that names a professor
    exactly when the contract carries both owner fields, criado_por and
    professor_email, and neither of them is that professor; a refused
    request leaves the store as it was. *)
Theorem contract_delete_refused_iff
  (id : string) (professor_email : Val) (d : string)
  (db : DB) (contracts : list Row) (existing : Row) :
  db !! "contracts" = Some contracts ->
  id <> EmptyString ->
  List.filter (eq_match "id" (VStr id)) contracts = [existing] ->
  truthy professor_email = true ->
  decodeURIComponent (toString professor_email) = Some d ->
  let actor := normalized d in
  let answer := request_db (delete_contracts_id id professor_email) db in
  (fst answer = Sent not_authorized
   <-> actor <> EmptyString
       /\ truthy (assoc "criado_por" existing) = true
       /\ normalized (toString (assoc "criado_por" existing)) <> actor
       /\ truthy (assoc "professor_email" existing) = true
       /\ normalized (toString (assoc "professor_email" existing)) <> actor) /\
  (fst answer = Sent not_authorized -> snd answer = db).
Proof.
  intros Hdb Hid Hone Hgiven Hd actor answer.
  unfold answer.
  rewrite (delete_contracts_id_on_store id db contracts existing Hdb Hid Hone
             professor_email (VStr actor))
    by (rewrite Hgiven; eauto).
  unfold other_owner. cbn [toString truthy].
  destruct (String.eqb_spec actor EmptyString) as [Ha | Ha];
    destruct (truthy (assoc "criado_por" existing));
    destruct (truthy (assoc "professor_email" existing));
    destruct (String.eqb_spec
                (normalized (toString (assoc "criado_por" existing))) actor);
    destruct (String.eqb_spec
                (normalized (toString (assoc "professor_email" existing))) actor);
    cbn [negb andb fst snd]; (split; [split |]); try done; try tauto;
    intros (? & ? & ? & ? & ?); done.
Qed.

Lemma contract_delete_refused_iff_witness :
  fst (request_db (delete_contracts_id "5" (VStr "Other%40x.com")) one_contract)
  = Sent not_authorized.
Proof.
  apply (proj1 (contract_delete_refused_iff "5" (VStr "Other%40x.com")
                  "Other@x.com" one_contract [signed_contract] signed_contract
                  eq_refl ltac:(discriminate) eq_refl eq_refl eq_refl)).
  repeat split; discriminate.
Defined.

(** X8. DELETE /contracts/:id without a professor_email parameter checks
    nothing: the contract with that id is removed whoever owns it, the
    other contracts stay, and GET /contracts/:id no longer finds it. *)
Theorem contract_delete_without_professor
  (id : string) (professor_email : Val)
  (db : DB) (contracts : list Row) (existing : Row) :
  db !! "contracts" = Some contracts ->
  id <> EmptyString ->
  List.filter (eq_match "id" (VStr id)) contracts = [existing] ->
  truthy professor_email = false ->
  let answer := request_db (delete_contracts_id id professor_email) db in
  answer
  = (Sent deleted,
     <["contracts" :=
         List.filter (fun r => negb (eq_match "id" (VStr id) r)) contracts]> db) /\
  fst (request_db (get_contracts_id id) (snd answer))
  = Sent {| status := 404;
            body := VObj [("error", VStr "Contrato não encontrado")] |}.
Proof.
  intros Hdb Hid Hone Habsent answer. unfold answer.
  rewrite (delete_contracts_id_on_store id db contracts existing Hdb Hid Hone
             professor_email VNull) by (by rewrite Habsent).
  cbn [truthy andb snd]. split; [reflexivity |].
  unfold request_db, get_contracts_id, throw_if_error.
  rewrite (truthy_nonempty _ Hid). cbn -[exec].
  erewrite exec_select by apply lookup_insert_eq.
  rewrite (List.filter_ext _ (eq_match "id" (VStr id)))
    by (intros r; apply andb_true_r).
  by rewrite filter_out_none.
Qed.

Lemma contract_delete_without_professor_witness :
  request_db (delete_contracts_id "5" VUndef) one_contract
  = (Sent deleted, <["contracts" := []]> one_contract).
Proof.
  exact (proj1 (contract_delete_without_professor "5" VUndef one_contract
                  [signed_contract] signed_contract
                  eq_refl ltac:(discriminate) eq_refl eq_refl)).
Defined.

(** ** POST /admin-contracts/renovar *)

Lemma exec_update_fulfilled (db : DB) (t : string) (values : Val)
  (rest : list Step) :
  exists r, fst (exec db (supabase_from t (q_update values :: rest))) = Fulfilled r.
Proof. unfold exec. cbn [table chain]. destruct (db !! t); eauto. Qed.

(** X9. Renewing the contract of a professor who has no record in
    admin_contracts reports success with no data, and creates no record:
    the update matches nothing, the store reports no error for that, and
    the insert is tied to an error. *)
Theorem renewal_never_creates {D : JsDate}
  (now : Z) (req_body : Val) (professor : string)
  (db : DB) (contracts : list Row) :
  get "professor_email" req_body = VStr professor ->
  professor <> EmptyString ->
  truthy (get "contract_end" req_body) = true ->
  db !! "admin_contracts" = Some contracts ->
  List.filter (eq_match "professor_email" (VStr (toLowerCase professor)))
              contracts = [] ->
  let answer := request_db (post_admin_contracts_renovar now req_body) db in
  fst answer
  = Sent {| status := 200;
            body := VObj [("message", VStr "Contrato renovado com sucesso");
                          ("data", VArr [])] |} /\
  snd answer !! "admin_contracts" = Some contracts.
Proof.
  intros Hprofessor Hne Hend Hdb Hnone answer.
  assert (Hbody : nullish req_body = false).
  { destruct req_body; try discriminate Hprofessor; reflexivity. }
  unfold answer, request_db, post_admin_contracts_renovar, destructure.
  rewrite Hbody. cbn -[exec truthy normalizedDate toLowerCase].
  rewrite Hprofessor, Hend, (truthy_nonempty _ Hne).
  cbn -[exec truthy normalizedDate toLowerCase].
  rewrite (exec_update db _ _ _ contracts Hdb).
  rewrite (List.filter_ext _ (eq_match "professor_email" (VStr (toLowerCase professor))))
    by (intros r; apply andb_true_r).
  rewrite Hnone.
  cbn -[exec truthy normalizedDate toLowerCase].
  match goal with
  | |- context [exec ?d (supabase_from ?t (q_update ?v :: ?rest))] =>
      pose proof (exec_other_table d (supabase_from t (q_update v :: rest))
                    "admin_contracts") as Hother;
      destruct (exec_update_fulfilled d t v rest) as [r Hr];
      destruct (exec d (supabase_from t (q_update v :: rest))) as [s db']
  end.
  cbn [fst] in Hr. subst s.
  cbn [snd] in Hother. rewrite lookup_insert_eq in Hother.
  rewrite (List.map_ext _ (fun r =>
             if eq_match "professor_email" (VStr (toLowerCase professor)) r
             then merge (spread (VObj [("contract_end",
                                        normalizedDate (get "contract_end" req_body));
                                       ("updated_at", VStr (toISOString now))])) r
             else r)) in Hother
    by (intros r0; cbn [matches]; by rewrite andb_true_r).
  rewrite (filter_nil_unmatched _ _ _ Hnone) in Hother.
  cbn. split; [reflexivity | apply Hother; discriminate].
Qed.

Lemma renewal_never_creates_witness :
  let req_body :=
    VObj [("professor_email", VStr "Prof@X.com");
          ("contract_end", VStr "2100-01-01")] in
  let db : DB := {[ "admin_contracts" := []; "users" := [] ]} in
  let answer :=
    request_db (post_admin_contracts_renovar (D := DemoDate.engine) 7 req_body) db in
  fst answer
  = Sent {| status := 200;
            body := VObj [("message", VStr "Contrato renovado com sucesso");
                          ("data", VArr [])] |} /\
  snd answer !! "admin_contracts" = Some [].
Proof.
  intros req_body db.
  apply (renewal_never_creates (D := DemoDate.engine) 7 req_body "Prof@X.com" db []);
    try reflexivity; discriminate.
Defined.

(** X10. When the update of admin_contracts fails with no data and a
    message other than "No rows found", POST /admin-contracts/renovar
    reads the length of that missing data: the request ends in a 500
    that carries the message of this TypeError, not the one of the
    store, and no second query is sent. *)
Theorem renewal_error_is_masked {D : JsDate}
  (now : Z) (req_body : Val) (professor : string)
  (srv : Server) (r : Result) (e : JsError) :
  get "professor_email" req_body = VStr professor ->
  professor <> EmptyString ->
  truthy (get "contract_end" req_body) = true ->
  (forall q, table q = "admin_contracts" -> srv q = Settles (Fulfilled r)) ->
  error r = Some e ->
  data r = VNull ->
  includes "No rows found" (message e) = false ->
  request srv (post_admin_contracts_renovar now req_body)
  = Some (Sent {| status := 500;
                  body := VObj [("error", VStr
                    "Cannot read properties of null (reading 'length')")] |}) /\
  length (sent_queries srv (post_admin_contracts_renovar now req_body)) = 1%nat.
Proof.
  intros Hprofessor Hne Hend Hsrv He Hdata Hmsg.
  assert (Hbody : nullish req_body = false).
  { destruct req_body; try discriminate Hprofessor; reflexivity. }
  unfold request, sent_queries, post_admin_contracts_renovar, destructure.
  rewrite Hbody. cbn -[truthy normalizedDate toLowerCase includes].
  rewrite Hprofessor, Hend, (truthy_nonempty _ Hne).
  cbn -[truthy normalizedDate toLowerCase includes].
  rewrite !Hsrv by reflexivity.
  cbn -[truthy normalizedDate toLowerCase includes].
  rewrite He, Hmsg, Hdata. split; reflexivity.
Qed.

Lemma renewal_error_is_masked_witness :
  let req_body :=
    VObj [("professor_email", VStr "Prof@X.com");
          ("contract_end", VStr "2100-01-01")] in
  let down : Result := failure (pg_error "PGRST301" "JWT expired") in
  request (fun _ => Settles (Fulfilled down))
          (post_admin_contracts_renovar (D := DemoDate.engine) 7 req_body)
  = Some (Sent {| status := 500;
                  body := VObj [("error", VStr
                    "Cannot read properties of null (reading 'length')")] |}).
Proof.
  intros req_body down.
  exact (proj1 (renewal_error_is_masked (D := DemoDate.engine) 7 req_body
                  "Prof@X.com" (fun _ => Settles (Fulfilled down)) down _
                  eq_refl ltac:(discriminate) eq_refl (fun _ _ => eq_refl)
                  eq_refl eq_refl eq_refl)).
Defined.


(** ** Store errors that routes turn into answers *)

(** X11. GET /consultorias/:clientId takes a store error for a missing
    table, and answers the empty list, exactly when its code is 42P01 or
    its message says "does not exist"; any other error is a 500 that
    carries the message and the code of the store. *)
Theorem consultorias_store_error
  (clientId : string) (n : Z) (srv : Server) (r : Result) (e : JsError) :
  clientId <> EmptyString ->
  parseInt10 (trim (before_colon clientId)) = VNum n ->
  n <> 0 ->
  (forall q, table q = "consultorias" -> srv q = Settles (Fulfilled r)) ->
  error r = Some e ->
  (code e = Some "42P01" \/ includes "does not exist" (message e) = true ->
   request srv (get_consultorias clientId)
   = Some (Sent {| status := 200; body := VArr [] |})) /\
  (code e <> Some "42P01" ->
   includes "does not exist" (message e) = false ->
   request srv (get_consultorias clientId)
   = Some (Sent {| status := 500;
                   body := VObj [("error", VStr "Erro ao buscar consultorias");
                                 ("details", VStr (message e));
                                 ("code", opt_str (code e))] |})).
Proof.
  intros Hid Hn Hn0 Hsrv He.
  assert (Hrun : forall b : bool,
    bool_decide (code e = Some "42P01")
    || includes "does not exist" (message e) = b ->
    request srv (get_consultorias clientId)
    = Some (Sent (if b then {| status := 200; body := VArr [] |}
                  else {| status := 500;
                          body := VObj [("error", VStr "Erro ao buscar consultorias");
                                        ("details", VStr (message e));
                                        ("code", opt_str (code e))] |}))).
  { intros b Hb. unfold request, get_consultorias.
    rewrite (truthy_nonempty _ Hid), Hn.
    cbn -[bool_decide includes]. 
    destruct (Z.eqb_spec n 0) as [? | _]; [done |].
    cbn -[bool_decide includes].
    rewrite Hsrv by reflexivity. cbn -[bool_decide includes].
    rewrite He, Hb. by destruct b. }
  split.
  - intros [Hcode | Hmsg]; apply (Hrun true).
    + by rewrite bool_decide_eq_true_2.
    + rewrite Hmsg. apply orb_true_r.
  - intros Hcode Hmsg. apply (Hrun false).
    by rewrite bool_decide_eq_false_2, Hmsg.
Qed.

Lemma consultorias_store_error_witness :
  let missing : Result :=
    failure (pg_error "PGRST205"
      "Could not find the table 'public.consultorias' in the schema cache") in
  request (fun _ => Settles (Fulfilled missing)) (get_consultorias "7:1")
  = Some (Sent {| status := 500;
                  body := VObj [("error", VStr "Erro ao buscar consultorias");
                                ("details", VStr
                                   "Could not find the table 'public.consultorias' in the schema cache");
                                ("code", VStr "PGRST205")] |}).
Proof.
  intros missing.
  apply (proj2 (consultorias_store_error "7:1" 7
                  (fun _ => Settles (Fulfilled missing)) missing _
                  ltac:(discriminate) eq_refl ltac:(discriminate)
                  (fun _ _ => eq_refl) eq_refl));
    [discriminate | reflexivity].
Defined.

Section AdminContractsProofs.
Context {D : JsDate}.

Local Abbreviation invalid_time := (new_Error "Invalid time value").

Lemma normalized_contract_cases (c : Row) :
  (exists v, normalized_contract (VObj c) = ret v)
  \/ normalized_contract (VObj c) = throw invalid_time.
Proof.
  unfold normalized_contract, iso_day. cbn.
  destruct (truthy (assoc "contract_end" c)),
    (Date_parse (assoc "contract_end" c)),
    (truthy (assoc "contract_start" c)),
    (Date_parse (assoc "contract_start" c));
    cbn; first [by right | left; eexists; reflexivity].
Qed.

Lemma normalized_contract_unreadable (c : Row) :
  truthy (assoc "contract_end" c) = true ->
  Date_parse (assoc "contract_end" c) = None ->
  normalized_contract (VObj c) = throw invalid_time.
Proof.
  intros Htruthy Hparse. unfold normalized_contract, iso_day.
  cbn. by rewrite Htruthy, Hparse.
Qed.

Lemma for_each_unreadable (bad : Row) (contracts : list Row) :
  In bad contracts ->
  truthy (assoc "contract_end" bad) = true ->
  Date_parse (assoc "contract_end" bad) = None ->
  for_each normalized_contract (List.map VObj contracts) = throw invalid_time.
Proof.
  intros Hin Htruthy Hparse.
  induction contracts as [| c contracts IH]; [destruct Hin |].
  cbn [List.map for_each].
  destruct Hin as [-> | Hin].
  - by rewrite (normalized_contract_unreadable bad Htruthy Hparse).
  - destruct (normalized_contract_cases c) as [[v ->] | ->]; [| reflexivity].
    cbn. by rewrite (IH Hin).
Qed.

End AdminContractsProofs.

(** X12. GET /admin-contracts hides every error the store reports, and
    answers 200 with the empty list; yet a single contract whose
    contract_end the engine cannot read as a date fails the whole
    listing with a 500 "Invalid time value". *)
Theorem admin_contracts_failures {D : JsDate}
  (srv : Server) (r : Result) :
  (forall q, table q = "admin_contracts" -> srv q = Settles (Fulfilled r)) ->
  (forall e, error r = Some e ->
     request srv get_admin_contracts
     = Some (Sent {| status := 200; body := VArr [] |})) /\
  (forall (contracts : list Row) (bad : Row),
     error r = None ->
     data r = VArr (List.map VObj contracts) ->
     In bad contracts ->
     truthy (assoc "contract_end" bad) = true ->
     Date_parse (assoc "contract_end" bad) = None ->
     request srv get_admin_contracts
     = Some (Sent {| status := 500;
                     body := VObj [("error", VStr "Invalid time value")] |})).
Proof.
  intros Hsrv. split.
  - intros e He. unfold request, get_admin_contracts. cbn.
    rewrite Hsrv by reflexivity. cbn. by rewrite He.
  - intros contracts bad He Hdata Hin Htruthy Hparse.
    unfold request, get_admin_contracts. cbn -[for_each].
    rewrite Hsrv by reflexivity. cbn -[for_each].
    rewrite He, Hdata. cbn -[for_each].
    by rewrite (for_each_unreadable bad contracts Hin Htruthy Hparse).
Qed.

Lemma admin_contracts_failures_witness :
  request (fun _ => Settles (Fulfilled (table_missing "admin_contracts")))
          (get_admin_contracts (D := DemoDate.engine))
  = Some (Sent {| status := 200; body := VArr [] |}).
Proof.
  exact (proj1 (admin_contracts_failures (D := DemoDate.engine)
                  (fun _ => Settles (Fulfilled (table_missing "admin_contracts")))
                  (table_missing "admin_contracts") (fun _ _ => eq_refl))
               _ eq_refl).
Defined.

(** ** GET /progresso/:email *)

Section ProgressoProofs.
Context {D : JsDate}.
Variables (email decoded : string) (srv : Server) (u p : Result) (pe : JsError).
Hypothesis email_decodes : decodeURIComponent email = Some decoded.
Hypothesis email_given : normalized decoded <> EmptyString.
Hypothesis users_answer :
  forall q, table q = "users" -> srv q = Settles (Fulfilled u).
Hypothesis user_found : error u = None.
Hypothesis progresso_answer :
  forall q, table q = "progresso" -> srv q = Settles (Fulfilled p).
Hypothesis progresso_fails : error p = Some pe.

Lemma progresso_missing_table :
  code pe = Some "PGRST205" ->
  (forall q, table q = "consultorias" ->
     (exists ce, srv q = Settles (Rejected ce))
     \/ (exists c ce, srv q = Settles (Fulfilled c) /\ error c = Some ce)) ->
  request srv (get_progresso email)
  = Some (Sent {| status := 200; body := VArr [] |}).
Proof.
  intros Hcode Hconsultorias.
  unfold request, get_progresso, call_decodeURIComponent, throw_if_error.
  rewrite email_decodes. cbn -[truthy toLowerCase trim bool_decide js_and].
  fold (normalized decoded). rewrite (truthy_nonempty _ email_given).
  cbn -[truthy toLowerCase trim bool_decide js_and].
  rewrite users_answer by reflexivity.
  cbn -[truthy toLowerCase trim bool_decide js_and]. rewrite user_found.
  cbn -[truthy toLowerCase trim bool_decide js_and].
  rewrite progresso_answer by reflexivity.
  cbn -[truthy toLowerCase trim bool_decide js_and]. rewrite progresso_fails.
  cbn -[truthy toLowerCase trim bool_decide js_and].
  rewrite Hcode, bool_decide_eq_true_2 by reflexivity.
  cbn -[truthy toLowerCase trim bool_decide js_and].
  destruct (truthy (js_and (data u) (get "id" (data u)))); [| reflexivity].
  cbn -[truthy toLowerCase trim bool_decide js_and].
  match goal with
  | |- context [srv ?q] =>
      destruct (Hconsultorias q eq_refl) as [[ce ->] | (c & ce & -> & Hc)]
  end.
  - reflexivity.
  - cbn. rewrite Hc. reflexivity.
Qed.

Lemma progresso_other_error :
  code pe <> Some "PGRST205" ->
  request srv (get_progresso email)
  = Some (Sent {| status := 500;
                  body := error_body "Erro ao buscar progresso" pe |}).
Proof.
  intros Hcode.
  unfold request, get_progresso, call_decodeURIComponent, throw_if_error.
  rewrite email_decodes. cbn -[truthy toLowerCase trim bool_decide js_and].
  fold (normalized decoded). rewrite (truthy_nonempty _ email_given).
  cbn -[truthy toLowerCase trim bool_decide js_and].
  rewrite users_answer by reflexivity.
  cbn -[truthy toLowerCase trim bool_decide js_and]. rewrite user_found.
  cbn -[truthy toLowerCase trim bool_decide js_and].
  rewrite progresso_answer by reflexivity.
  cbn -[truthy toLowerCase trim bool_decide js_and]. rewrite progresso_fails.
  cbn -[truthy toLowerCase trim bool_decide js_and].
  rewrite bool_decide_eq_false_2 by exact Hcode.
  reflexivity.
Qed.

End ProgressoProofs.

(** X13. For GET /progresso/:email the progresso table is optional and
    the consultorias are best effort: when the store reports the table
    missing (PGRST205) and the consultorias cannot be read either, the
    answer is 200 with the empty list; any other error of the progresso
    query is a 500 with its message. *)
Theorem progresso_table_is_optional {D : JsDate}
  (email decoded : string) (srv : Server) (u p : Result) (pe : JsError) :
  decodeURIComponent email = Some decoded ->
  normalized decoded <> EmptyString ->
  (forall q, table q = "users" -> srv q = Settles (Fulfilled u)) ->
  error u = None ->
  (forall q, table q = "progresso" -> srv q = Settles (Fulfilled p)) ->
  error p = Some pe ->
  (code pe = Some "PGRST205" ->
   (forall q, table q = "consultorias" ->
      (exists ce, srv q = Settles (Rejected ce))
      \/ (exists c ce, srv q = Settles (Fulfilled c) /\ error c = Some ce)) ->
   request srv (get_progresso email)
   = Some (Sent {| status := 200; body := VArr [] |})) /\
  (code pe <> Some "PGRST205" ->
   request srv (get_progresso email)
   = Some (Sent {| status := 500;
                   body := error_body "Erro ao buscar progresso" pe |})).
Proof.
  intros Hdecoded Hgiven Husers Hu Hprogresso Hp. split.
  - by apply (progresso_missing_table email decoded srv u p pe).
  - by apply (progresso_other_error email decoded srv u p pe).
Qed.

Lemma progresso_table_is_optional_witness :
  request (only_users (VObj student))
          (get_progresso (D := DemoDate.engine) "Ana%40X.com")
  = Some (Sent {| status := 200; body := VArr [] |}).
Proof.
  refine (proj1 (progresso_table_is_optional (D := DemoDate.engine)
                   "Ana%40X.com" "Ana@X.com" (only_users (VObj student))
                   (success (VObj student)) (table_missing "progresso")
                   _ eq_refl ltac:(discriminate) _ eq_refl _ eq_refl) eq_refl _).
  - intros [t c] Ht. cbn in Ht. subst t. reflexivity.
  - intros [t c] Ht. cbn in Ht. subst t. reflexivity.
  - intros [t c] Ht. cbn in Ht. subst t. right. do 2 eexists.
    split; reflexivity.
Defined.

(** ** GET /posts/:id/curtido-por/:usuario_email *)

Section LikedProofs.
Context {D : JsDate}.
Variables (postId usuario_email : string).
Hypothesis email_given : usuario_email <> EmptyString.

Lemma curtido_por_on_store (db : DB) :
  is_Some (db !! "curtidas") ->
  request_db (get_posts_curtido_por postId usuario_email) db
  = (Sent {| status := 200;
             body := VObj [("curtido",
                            VBool (like_count db postId usuario_email =? 1)%nat)] |},
     db).
Proof.
  intros [likes Hdb].
  unfold request_db, get_posts_curtido_por. cbn -[exec toLowerCase].
  rewrite (exec_like_lookup postId usuario_email db likes Hdb).
  rewrite (like_count_lookup postId usuario_email db likes Hdb).
  by destruct (List.filter _ likes) as [| r [| r' rest]].
Qed.

Lemma toggles_at_most_one (times : list Z) : forall db : DB,
  is_Some (db !! "curtidas") ->
  (like_count db postId usuario_email <= 1)%nat ->
  is_Some (toggles postId usuario_email times db !! "curtidas") /\
  (like_count (toggles postId usuario_email times db) postId usuario_email <= 1)%nat.
Proof.
  induction times as [| now later IH]; intros db Hdb Hle; [by split |].
  cbn [toggles].
  destruct (toggle_count postId usuario_email email_given now db Hdb)
    as (Hdb' & Hcount & _).
  apply IH; [assumption |]. rewrite Hcount.
  destruct (like_count db postId usuario_email) as [| [| n]]; lia.
Qed.

End LikedProofs.

(** X14. The like check agrees with the toggle: after [n] consecutive
    toggles of a post the user had not liked, GET
    /posts/:id/curtido-por/:usuario_email answers curtido:true exactly
    when [n] is odd, whatever the case of the letters of the email. *)
Theorem curtido_por_after_toggles {D : JsDate}
  (postId usuario_email : string) (times : list Z) (db : DB) :
  usuario_email <> EmptyString ->
  is_Some (db !! "curtidas") ->
  liked db postId usuario_email = false ->
  fst (request_db (get_posts_curtido_por postId usuario_email)
         (toggles postId usuario_email times db))
  = Sent {| status := 200;
            body := VObj [("curtido", VBool (Nat.odd (length times)))] |}.
Proof.
  intros Hemail Hdb Hzero.
  assert (Hle : (like_count db postId usuario_email <= 1)%nat).
  { unfold liked in Hzero. apply negb_false_iff, Nat.eqb_eq in Hzero. lia. }
  destruct (toggles_at_most_one postId usuario_email Hemail times db Hdb Hle)
    as [Hdb' Hle'].
  rewrite (curtido_por_on_store postId usuario_email _ Hdb'). cbn [fst].
  pose proof (toggles_liked postId usuario_email Hemail times db Hdb Hle) as Hliked.
  rewrite Hzero in Hliked. cbn [xorb] in Hliked. rewrite <- Hliked.
  unfold liked.
  destruct (like_count (toggles postId usuario_email times db)
              postId usuario_email) as [| [| n]];
    [reflexivity | reflexivity | lia].
Qed.

Lemma curtido_por_after_toggles_witness :
  let db : DB := {[ "curtidas" := [] ]} in
  fst (request_db (get_posts_curtido_por "12" "ANA@x.com")
         (toggles (D := DemoDate.engine) "12" "ANA@x.com" [5; 6; 7] db))
  = Sent {| status := 200; body := VObj [("curtido", VBool true)] |}.
Proof.
  intros db.
  apply (curtido_por_after_toggles (D := DemoDate.engine)
           "12" "ANA@x.com" [5; 6; 7] db);
    [discriminate | eexists; reflexivity | reflexivity].
Defined.

(** X15. The like check answers curtido:true only for a like stored
    exactly once: a like the table holds twice reads as not liked. *)
Theorem curtido_por_needs_single_row
  (postId usuario_email : string) (db : DB) :
  is_Some (db !! "curtidas") ->
  request_db (get_posts_curtido_por postId usuario_email) db
  = (Sent {| status := 200;
             body := VObj [("curtido",
                            VBool (like_count db postId usuario_email =? 1)%nat)] |},
     db).
Proof. apply curtido_por_on_store. Qed.

Lemma curtido_por_needs_single_row_witness :
  let like : Row := [("post_id", VStr "12"); ("usuario_email", VStr "ana@x.com")] in
  let db : DB := {[ "curtidas" := [like; like] ]} in
  liked db "12" "Ana@X.com" = true /\
  fst (request_db (get_posts_curtido_por "12" "Ana@X.com") db)
  = Sent {| status := 200; body := VObj [("curtido", VBool false)] |}.
Proof.
  intros like db. split; [reflexivity |].
  by rewrite (curtido_por_needs_single_row "12" "Ana@X.com" db
                ltac:(eexists; reflexivity)).
Defined.

(** ** DELETE /produtos/:id *)

Lemma assoc_set_field_same (k : string) (v : Val) (fs : Row) :
  assoc k (set_field k v fs) = v.
Proof.
  induction fs as [| [k0 v0] fs IH]; simpl.
  - by rewrite String.eqb_refl.
  - destruct (String.eqb_spec k k0) as [<- | Hk0]; simpl.
    + by rewrite String.eqb_refl.
    + by destruct (String.eqb_spec k k0).
Qed.

(** The products GET /produtos shows once those with [id] are retired. *)
Lemma retire_hides (id : string) (products : list Row) :
  List.filter (eq_match "ativo" (VBool true))
    (List.map (fun r => if eq_match "id" (VStr id) r
                        then merge [("ativo", VBool false)] r else r) products)
  = List.filter (fun r => eq_match "ativo" (VBool true) r
                          && negb (eq_match "id" (VStr id) r)) products.
Proof.
  induction products as [| r products IH]; [reflexivity |].
  cbn [List.map List.filter]. rewrite IH.
  destruct (eq_match "id" (VStr id) r).
  - unfold merge. cbn [fold_left fst snd].
    unfold eq_match at 1. rewrite assoc_set_field_same. cbn.
    by rewrite andb_false_r.
  - by rewrite andb_true_r.
Qed.

(** X16. DELETE /produtos/:id retires a product instead of removing it:
    the table keeps all its rows, and GET /produtos lists, in the order
    of ordem, the active products it listed before without those of
    that id. *)
Theorem product_delete_is_soft (id : string) (db : DB) (products : list Row) :
  db !! "produtos_loja" = Some products ->
  let answer := request_db (delete_produtos_id id) db in
  fst answer
  = Sent {| status := 200;
            body := VObj [("success", VBool true);
                          ("message", VStr "Produto deletado")] |} /\
  (exists retired,
     snd answer !! "produtos_loja" = Some retired /\
     length retired = length products) /\
  fst (request_db get_produtos (snd answer))
  = Sent {| status := 200;
            body := VArr (List.map VObj
                            (order_by "ordem" true
                               (List.filter
                                  (fun r => eq_match "ativo" (VBool true) r
                                            && negb (eq_match "id" (VStr id) r))
                                  products))) |}.
Proof.
  intros Hdb answer.
  unfold answer, request_db, delete_produtos_id, throw_if_error.
  cbn -[exec]. rewrite (exec_update db _ _ _ products Hdb).
  cbn -[exec]. split; [reflexivity |]. split.
  - eexists. split; [apply lookup_insert_eq |]. apply length_map.
  - unfold get_produtos, throw_if_error. cbn -[exec].
    erewrite exec_select by apply lookup_insert_eq.
    unfold answer_rows. cbn [arrange cardinality has_single has_maybeSingle].
    rewrite map_project_star.
    rewrite (List.filter_ext _ (eq_match "ativo" (VBool true)))
      by (intros r; apply andb_true_r).
    rewrite (List.map_ext _ (fun r => if eq_match "id" (VStr id) r
                                      then merge [("ativo", VBool false)] r else r))
      by (intros r; cbn [matches]; by rewrite andb_true_r).
    by rewrite retire_hides.
Qed.

Lemma product_delete_is_soft_witness :
  let answer := request_db (delete_produtos_id "1") two_products in
  fst (request_db get_produtos (snd answer))
  = Sent {| status := 200; body := VArr [] |}.
Proof.
  intros answer.
  exact (proj2 (proj2 (product_delete_is_soft "1" two_products _ eq_refl))).
Defined.

(** ** POST /aluno/verify-or-create *)

Lemma null_for_undefined_or (a b : Val) :
  b <> VUndef ->
  match js_or a b with VUndef => VNull | v => v end = js_or a b.
Proof.
  intros Hb. unfold js_or. destruct (truthy a) eqn:E.
  - destruct a; try discriminate E; reflexivity.
  - destruct b; congruence.
Qed.

Lemma project_email_nome (r : Row) :
  project "email, nome" r
  = [("email", match assoc "email" r with VUndef => VNull | v => v end);
     ("nome", match assoc "nome" r with VUndef => VNull | v => v end)].
Proof. reflexivity. Qed.

Section VerifyProofs.
Context {D : JsDate}.
Variables (req_body : Val) (email : string).
Hypothesis body_email : get "email" req_body = VStr email.
Hypothesis email_given : email <> EmptyString.

Local Abbreviation same_email := (eq_match "email" (VStr (toLowerCase email))).

Lemma verify_or_create_on_store (now : Z) (db : DB) (alunos : list Row) :
  db !! "alunos" = Some alunos ->
  request_db (post_aluno_verify_or_create now req_body) db
  = match List.filter same_email alunos with
    | [r] => (enrolled false (VObj (project "email, nome" r)), db)
    | _ =>
        let nome := js_or (get "nome" req_body)
                          (VStr (before "@" (toLowerCase email))) in
        (enrolled true (VObj [("email", VStr (toLowerCase email)); ("nome", nome)]),
         <["alunos" := (alunos ++ [[("email", VStr (toLowerCase email));
                                     ("nome", nome);
                                     ("criado_em", VStr (toISOString now))]])%list]> db)
    end.
Proof.
  intros Hdb.
  assert (Hbody : nullish req_body = false).
  { destruct req_body; try discriminate body_email; reflexivity. }
  unfold request_db, post_aluno_verify_or_create, destructure, throw_if_error.
  rewrite Hbody. cbn -[exec truthy toLowerCase before bool_decide].
  rewrite body_email, (truthy_nonempty _ email_given).
  cbn -[exec truthy toLowerCase before bool_decide].
  rewrite (exec_select db _ _ _ alunos Hdb).
  rewrite (List.filter_ext _ same_email) by (intros r; apply andb_true_r).
  unfold answer_rows. cbn [arrange cardinality has_single has_maybeSingle].
  destruct (List.filter same_email alunos) as [| r [| r' rest]].
  - cbn -[exec toLowerCase before js_or].
    rewrite (exec_insert db _ _ _ alunos Hdb).
    unfold answer_write, answer_rows.
    cbn -[toLowerCase before js_or project]. rewrite project_email_nome.
    cbn -[toLowerCase before js_or].
    rewrite null_for_undefined_or by discriminate. reflexivity.
  - reflexivity.
  - cbn -[exec toLowerCase before js_or bool_decide].
    rewrite bool_decide_eq_true_2 by reflexivity.
    cbn -[exec toLowerCase before js_or].
    rewrite (exec_insert db _ _ _ alunos Hdb).
    unfold answer_write, answer_rows.
    cbn -[toLowerCase before js_or project]. rewrite project_email_nome.
    cbn -[toLowerCase before js_or].
    rewrite null_for_undefined_or by discriminate. reflexivity.
Qed.

Lemma enrolled_has_email (now : Z) :
  same_email [("email", VStr (toLowerCase email));
              ("nome", js_or (get "nome" req_body)
                             (VStr (before "@" (toLowerCase email))));
              ("criado_em", VStr (toISOString now))] = true.
Proof. unfold eq_match. cbn. apply String.eqb_refl. Qed.

End VerifyProofs.

(** X17. POST /aluno/verify-or-create is idempotent for an address the
    alunos table does not hold yet: the first call creates the student,
    named after the part of the address before the at sign when no name
    is given; a second call creates nothing, leaves the store untouched
    and answers with the same student. *)
Theorem verify_or_create_is_idempotent {D : JsDate}
  (now later : Z) (req_body : Val) (email : string)
  (db : DB) (alunos : list Row) :
  get "email" req_body = VStr email ->
  email <> EmptyString ->
  db !! "alunos" = Some alunos ->
  List.filter (eq_match "email" (VStr (toLowerCase email))) alunos = [] ->
  let aluno :=
    VObj [("email", VStr (toLowerCase email));
          ("nome", js_or (get "nome" req_body)
                         (VStr (before "@" (toLowerCase email))))] in
  let first := request_db (post_aluno_verify_or_create now req_body) db in
  let second :=
    request_db (post_aluno_verify_or_create later req_body) (snd first) in
  fst first = enrolled true aluno /\
  second = (enrolled false aluno, snd first).
Proof.
  intros Hemail Hne Hdb Hnone aluno first second.
  unfold second, first.
  rewrite (verify_or_create_on_store req_body email Hemail Hne now db alunos Hdb).
  rewrite Hnone. cbn [fst snd]. split; [reflexivity |].
  rewrite (verify_or_create_on_store req_body email Hemail Hne later _ _
             (lookup_insert_eq _ _ _)).
  rewrite List.filter_app, Hnone. cbn [List.filter app].
  rewrite enrolled_has_email.
  rewrite project_email_nome. cbn -[toLowerCase before js_or].
  by rewrite null_for_undefined_or by discriminate.
Qed.

Lemma verify_or_create_is_idempotent_witness :
  let req_body := VObj [("email", VStr "Ana.Lima@X.com")] in
  let db : DB := {[ "alunos" := [] ]} in
  let aluno := VObj [("email", VStr "ana.lima@x.com"); ("nome", VStr "ana.lima")] in
  let first :=
    request_db (post_aluno_verify_or_create (D := DemoDate.engine) 7 req_body) db in
  fst first = enrolled true aluno /\
  request_db (post_aluno_verify_or_create (D := DemoDate.engine) 8 req_body)
             (snd first)
  = (enrolled false aluno, snd first).
Proof.
  intros req_body db.
  apply (verify_or_create_is_idempotent (D := DemoDate.engine)
           7 8 req_body "Ana.Lima@X.com" db []);
    [reflexivity | discriminate | reflexivity | reflexivity].
Defined.

(** ** POST /aluno/perfil and GET /aluno/perfil/:email *)

Lemma project_perfil (r : Row) :
  project "nome, email, data_aniversario, bio, foto_url" r
  = [("nome", match assoc "nome" r with VUndef => VNull | v => v end);
     ("email", match assoc "email" r with VUndef => VNull | v => v end);
     ("data_aniversario",
      match assoc "data_aniversario" r with VUndef => VNull | v => v end);
     ("bio", match assoc "bio" r with VUndef => VNull | v => v end);
     ("foto_url", match assoc "foto_url" r with VUndef => VNull | v => v end)].
Proof. reflexivity. Qed.

Lemma filter_map_updated {A : Type} (f : A -> bool) (g : A -> A) (l : list A) :
  (forall x, f (g x) = f x) ->
  List.filter f (List.map (fun x => if f x then g x else x) l)
  = List.map g (List.filter f l).
Proof.
  intros Hg. induction l as [| x l IH]; [reflexivity |].
  cbn [List.map List.filter]. destruct (f x) eqn:E.
  - rewrite Hg, E. cbn [List.map]. by rewrite IH.
  - by rewrite E.
Qed.

Section PerfilProofs.
Context {D : JsDate}.
Variables (now : Z) (req_body : Val) (email : string).
Hypothesis body_email : get "email" req_body = VStr email.
Hypothesis email_given : email <> EmptyString.
Hypothesis nome_given : truthy (get "nome" req_body) = true.

Local Abbreviation same_email := (eq_match "email" (VStr (toLowerCase email))).

Lemma post_aluno_perfil_on_store (db : DB) (alunos : list Row) :
  db !! "alunos" = Some alunos ->
  snd (request_db (post_aluno_perfil now req_body) db)
  = match List.filter same_email alunos with
    | [_] =>
        <["alunos" :=
            List.map (fun r =>
              if same_email r
              then merge [("nome", get "nome" req_body);
                          ("data_aniversario",
                           js_or (get "data_aniversario" req_body) VNull);
                          ("bio", js_or (get "bio" req_body) VNull);
                          ("foto_url", js_or (get "foto_url" req_body) VNull);
                          ("atualizado_em", VStr (toISOString now))] r
              else r) alunos]> db
    | _ =>
        <["alunos" :=
            (alunos ++ [[("email", VStr (toLowerCase email));
                         ("nome", get "nome" req_body);
                         ("data_aniversario",
                          js_or (get "data_aniversario" req_body) VNull);
                         ("bio", js_or (get "bio" req_body) VNull);
                         ("foto_url", js_or (get "foto_url" req_body) VNull);
                         ("criado_em", VStr (toISOString now))]])%list]> db
    end.
Proof.
  intros Hdb.
  assert (Hbody : nullish req_body = false).
  { destruct req_body; try discriminate body_email; reflexivity. }
  unfold request_db, post_aluno_perfil, destructure, throw_if_error.
  rewrite Hbody. cbn -[exec truthy toLowerCase js_or].
  rewrite body_email, (truthy_nonempty _ email_given), nome_given.
  cbn -[exec truthy toLowerCase js_or].
  rewrite (exec_select db _ _ _ alunos Hdb).
  rewrite (List.filter_ext _ same_email) by (intros r; apply andb_true_r).
  unfold answer_rows. cbn [arrange cardinality has_single has_maybeSingle].
  destruct (List.filter same_email alunos) as [| r [| r' rest]].
  - cbn -[exec toLowerCase js_or].
    by rewrite (exec_insert db _ _ _ alunos Hdb).
  - cbn -[exec toLowerCase js_or].
    rewrite (exec_update db _ _ _ alunos Hdb). cbn -[toLowerCase js_or merge].
    f_equal. apply List.map_ext. intros r0. by rewrite andb_true_r.
  - cbn -[exec toLowerCase js_or].
    by rewrite (exec_insert db _ _ _ alunos Hdb).
Qed.

Lemma get_aluno_perfil_on_store (param : string) (db : DB) (alunos : list Row)
  (r : Row) :
  toLowerCase param = toLowerCase email ->
  db !! "alunos" = Some alunos ->
  List.filter same_email alunos = [r] ->
  fst (request_db (get_aluno_perfil param) db)
  = Sent {| status := 200;
            body := VObj (project "nome, email, data_aniversario, bio, foto_url" r) |}.
Proof.
  intros Hparam Hdb Hone.
  unfold request_db, get_aluno_perfil, throw_if_error.
  rewrite Hparam. cbn -[exec toLowerCase].
  rewrite (exec_select db _ _ _ alunos Hdb).
  rewrite (List.filter_ext _ same_email) by (intros r0; apply andb_true_r).
  rewrite Hone. unfold answer_rows.
  cbn -[project toLowerCase]. reflexivity.
Qed.

End PerfilProofs.

(** X18. What POST /aluno/perfil saves is what GET /aluno/perfil/:email
    reads back, in either of its branches (a student already in the
    table is updated, another one is created) and whatever the case of
    the letters of the address in the two requests: the name as sent,
    and null for each optional field that was left out. *)
Theorem perfil_round_trip {D : JsDate}
  (now : Z) (req_body : Val) (email param : string)
  (db : DB) (alunos : list Row) :
  get "email" req_body = VStr email ->
  email <> EmptyString ->
  truthy (get "nome" req_body) = true ->
  db !! "alunos" = Some alunos ->
  (length (List.filter (eq_match "email" (VStr (toLowerCase email))) alunos)
   <= 1)%nat ->
  toLowerCase param = toLowerCase email ->
  let saved := snd (request_db (post_aluno_perfil now req_body) db) in
  exists perfil : Val,
    fst (request_db (get_aluno_perfil param) saved)
    = Sent {| status := 200; body := perfil |} /\
    get "nome" perfil = get "nome" req_body /\
    get "data_aniversario" perfil
    = js_or (get "data_aniversario" req_body) VNull /\
    get "bio" perfil = js_or (get "bio" req_body) VNull /\
    get "foto_url" perfil = js_or (get "foto_url" req_body) VNull.
Proof.
  intros Hemail Hne Hnome Hdb Hle Hparam saved.
  unfold saved.
  rewrite (post_aluno_perfil_on_store now req_body email Hemail Hne Hnome
             db alunos Hdb).
  destruct (List.filter _ alunos) as [| r [| r' rest]] eqn:E;
    [| | cbn [length] in Hle; lia].
  - erewrite (get_aluno_perfil_on_store email param _ _ _ Hparam
                (lookup_insert_eq _ _ _)).
    2: { rewrite List.filter_app, E. cbn [List.filter app].
         unfold eq_match. cbn. by rewrite String.eqb_refl. }
    eexists. split; [reflexivity |].
    rewrite project_perfil. cbn -[js_or].
    rewrite !null_for_undefined_or by discriminate.
    by destruct (get "nome" req_body).
  - erewrite (get_aluno_perfil_on_store email param _ _ _ Hparam
                (lookup_insert_eq _ _ _)).
    2: { rewrite filter_map_updated, E; [reflexivity |].
         intros x. unfold eq_match, merge. cbn [fold_left fst snd].
         by rewrite !assoc_set_field_other by reflexivity. }
    eexists. split; [reflexivity |].
    rewrite project_perfil. unfold merge. cbn [fold_left fst snd get assoc].
    cbn -[js_or set_field].
    repeat (rewrite ?assoc_set_field_same;
            rewrite ?assoc_set_field_other by reflexivity).
    rewrite !null_for_undefined_or by discriminate.
    by destruct (get "nome" req_body).
Qed.

Lemma perfil_round_trip_witness :
  let req_body :=
    VObj [("email", VStr "Ana@X.com"); ("nome", VStr "Ana Lima");
          ("bio", VStr "corredora")] in
  let db : DB :=
    {[ "alunos" := [[("email", VStr "ana@x.com"); ("nome", VStr "ana")]] ]} in
  let saved :=
    snd (request_db (post_aluno_perfil (D := DemoDate.engine) 7 req_body) db) in
  exists perfil : Val,
    fst (request_db (get_aluno_perfil "ANA@x.com") saved)
    = Sent {| status := 200; body := perfil |} /\
    get "nome" perfil = VStr "Ana Lima" /\
    get "data_aniversario" perfil = VNull /\
    get "bio" perfil = VStr "corredora" /\
    get "foto_url" perfil = VNull.
Proof.
  intros req_body db.
  apply (perfil_round_trip (D := DemoDate.engine) 7 req_body "Ana@X.com"
           "ANA@x.com" db [[("email", VStr "ana@x.com"); ("nome", VStr "ana")]]);
    try reflexivity; discriminate.
Defined.

(** ** Ids in the path *)

Lemma before_colon_suffix (a b : string) :
  before_colon (a ++ String ":" b) = before_colon a.
Proof.
  induction a as [| c a IH]; [reflexivity |].
  change (String c a ++ String ":" b) with (String c (a ++ String ":" b)).
  cbn [before_colon]. destruct (Ascii.eqb c ":"); [reflexivity |].
  by rewrite IH.
Qed.

(** X19. The three routes that take a numeric id from the path, GET
    /alunos/:id, GET /consultorias/:clientId and PUT /alunos/foto/:id,
    drop whatever follows a colon: [a:b] is served as [a]. *)
Theorem id_suffix_is_ignored (a b : string) (req_body : Val) :
  a <> EmptyString ->
  get_alunos_id (a ++ String ":" b) = get_alunos_id a /\
  get_consultorias (a ++ String ":" b) = get_consultorias a /\
  put_alunos_foto (a ++ String ":" b) req_body = put_alunos_foto a req_body.
Proof.
  intros Ha.
  pose proof (before_colon_suffix a b) as Hcut.
  assert (Hgiven : truthy (VStr (a ++ String ":" b)) = true).
  { destruct a; [done | reflexivity]. }
  unfold get_alunos_id, get_consultorias, put_alunos_foto.
  by rewrite Hgiven, (truthy_nonempty _ Ha), Hcut.
Qed.

Lemma id_suffix_is_ignored_witness :
  get_alunos_id "7:1" = get_alunos_id "7".
Proof.
  exact (proj1 (id_suffix_is_ignored "7" "1" VUndef ltac:(discriminate))).
Defined.

(** ** Deleting what is not there *)

Lemma exec_delete_nothing (db : DB) (t id : string) (rows : list Row) :
  db !! t = Some rows ->
  List.filter (eq_match "id" (VStr id)) rows = [] ->
  exec db (supabase_from t [q_delete; q_eq "id" (VStr id)])
  = (Fulfilled (success VNull), db).
Proof.
  intros Hdb Hnone. rewrite (exec_delete db _ _ rows Hdb).
  cbn [answer_write returning]. f_equal.
  rewrite (List.filter_ext _ (fun r => negb (eq_match "id" (VStr id) r)))
    by (intros r; cbn; by rewrite andb_true_r).
  replace (List.filter _ rows) with rows; [by apply insert_id |].
  clear Hdb. induction rows as [| r rows IH]; [reflexivity |].
  cbn in Hnone |- *. destruct (eq_match "id" (VStr id) r); [discriminate |].
  cbn. by rewrite <- IH.
Qed.

(** X20. Deleting an id that no row has: DELETE /consultorias/:id answers
    404, whereas DELETE /alunos/:id and DELETE /mensagens/:id answer
    deleted:true; none of them changes the store. *)
Theorem delete_unknown_id (id : string) (db : DB)
  (consultorias users mensagens : list Row) :
  id <> EmptyString ->
  db !! "consultorias" = Some consultorias ->
  db !! "users" = Some users ->
  db !! "mensagens" = Some mensagens ->
  List.filter (eq_match "id" (VStr id)) consultorias = [] ->
  List.filter (eq_match "id" (VStr id)) users = [] ->
  List.filter (eq_match "id" (VStr id)) mensagens = [] ->
  request_db (delete_consultorias_id id) db
  = (Sent {| status := 404;
             body := VObj [("error", VStr "Consultoria não encontrada")] |}, db) /\
  request_db (delete_alunos_id id) db = (Sent deleted, db) /\
  request_db (delete_mensagens_id id) db = (Sent deleted, db).
Proof.
  intros Hid Hc Hu Hm Hnc Hnu Hnm.
  unfold request_db, delete_consultorias_id, delete_alunos_id,
    delete_mensagens_id, throw_if_error.
  rewrite (truthy_nonempty _ Hid). cbn -[exec].
  rewrite (exec_select db _ _ _ consultorias Hc).
  rewrite (List.filter_ext _ (eq_match "id" (VStr id)))
    by (intros r; apply andb_true_r).
  rewrite Hnc.
  rewrite (exec_delete_nothing db _ id users Hu Hnu).
  rewrite (exec_delete_nothing db _ id mensagens Hm Hnm).
  repeat split; reflexivity.
Qed.

Lemma delete_unknown_id_witness :
  let db : DB := {[ "consultorias" := []; "users" := [student]; "mensagens" := [] ]} in
  request_db (delete_alunos_id "99") db = (Sent deleted, db).
Proof.
  intros db.
  exact (proj1 (proj2 (delete_unknown_id "99" db [] [student] []
                         ltac:(discriminate) eq_refl eq_refl eq_refl
                         eq_refl eq_refl eq_refl))).
Defined.

(** ** POST /mensagens and the two listings *)

(** X21. A message accepted by POST /mensagens is listed for its
    recipient, by GET /mensagens/para/:email and by GET /mensagens with
    the para parameter, and by GET /mensagens without parameters. *)
Theorem sent_message_is_listed
  (req_body : Val) (para : string) (db : DB) (mensagens : list Row) :
  truthy (get "de" req_body) = true ->
  get "para" req_body = VStr para ->
  para <> EmptyString ->
  truthy (get "mensagem" req_body) = true ->
  db !! "mensagens" = Some mensagens ->
  let message :=
    VObj [("de", get "de" req_body); ("para", VStr para);
          ("mensagem", get "mensagem" req_body)] in
  let answer := request_db (post_mensagens req_body) db in
  fst answer = Sent {| status := 200; body := message |} /\
  (exists inbox,
     fst (request_db (get_mensagens_para para) (snd answer))
     = Sent {| status := 200; body := VArr inbox |} /\
     In message inbox) /\
  (exists filtered,
     fst (request_db (get_mensagens (VStr para) VUndef) (snd answer))
     = Sent {| status := 200; body := VArr filtered |} /\
     In message filtered) /\
  (exists every,
     fst (request_db (get_mensagens VUndef VUndef) (snd answer))
     = Sent {| status := 200; body := VArr every |} /\
     In message every).
Proof.
  intros Hde Hpara Hne Hmsg Hdb message answer.
  assert (Hpost : answer
                  = (Sent {| status := 200; body := message |},
                     <["mensagens" := (mensagens ++ [spread message])%list]> db)).
  { unfold answer, request_db, post_mensagens.
    rewrite (given_is_object _ _ Hde), Hde, Hmsg, Hpara, (truthy_nonempty _ Hne).
    cbn -[exec]. by rewrite (exec_insert db _ _ _ mensagens Hdb). }
  rewrite Hpost. cbn [fst snd]. split; [reflexivity |].
  assert (Hmine : eq_match "para" (VStr para) (spread message) = true).
  { unfold eq_match. cbn. apply String.eqb_refl. }
  assert (Hlast : In (spread message) (mensagens ++ [spread message])).
  { apply List.in_app_iff. right. by left. }
  unfold request_db, get_mensagens_para, get_mensagens, throw_if_error.
  rewrite (truthy_nonempty _ Hne). cbn -[exec message].
  erewrite !exec_select by apply lookup_insert_eq.
  unfold answer_rows.
  cbn [arrange cardinality has_single has_maybeSingle matches].
  rewrite !map_project_star. cbn -[order_by message].
  repeat split; eexists; (split; [reflexivity |]);
    apply (List.in_map VObj _ (spread message)).
  - apply In_order_by, List.filter_In. by rewrite andb_true_r.
  - apply List.filter_In. by rewrite andb_true_r.
  - by apply List.filter_In.
Qed.

Lemma sent_message_is_listed_witness :
  let req_body :=
    VObj [("de", VStr "prof@x.com"); ("para", VStr "ana@x.com");
          ("mensagem", VStr "Treino novo")] in
  let db : DB := {[ "mensagens" := [] ]} in
  exists inbox,
    fst (request_db (get_mensagens_para "ana@x.com")
           (snd (request_db (post_mensagens req_body) db)))
    = Sent {| status := 200; body := VArr inbox |} /\
    In req_body inbox.
Proof.
  intros req_body db.
  exact (proj1 (proj2 (sent_message_is_listed req_body "ana@x.com" db []
                         eq_refl eq_refl ltac:(discriminate) eq_refl eq_refl))).
Defined.

(** ** POST /setup-admin *)

Section AdminProofs.
Context {D : JsDate}.

Local Abbreviation is_admin := (eq_match "email" (VStr "mils@admin.com")).

Lemma post_setup_admin_on_store (now : Z) (db : DB) (users : list Row) :
  db !! "users" = Some users ->
  request_db (post_setup_admin now) db
  = match List.filter is_admin users with
    | [admin] =>
        (Sent {| status := 200;
                 body := VObj [("message", VStr "Admin já existe");
                               ("data", VObj admin)] |}, db)
    | _ =>
        (Sent {| status := 200;
                 body := VObj [("message", VStr "Admin criado com sucesso");
                               ("data", adminData);
                               ("adminData", adminData)] |},
         <["users" := (users ++ [spread adminData])%list]> db)
    end.
Proof.
  intros Hdb. unfold request_db, post_setup_admin. cbn -[exec].
  rewrite (exec_select db _ _ _ users Hdb).
  assert (Hcheck : forall rows,
            error (answer_rows "count" [q_limit 1] rows) = None) by reflexivity.
  cbn -[exec answer_rows]. rewrite Hcheck. cbn -[exec].
  rewrite (exec_select db _ _ _ users Hdb).
  rewrite (List.filter_ext _ is_admin) by (intros r; apply andb_true_r).
  unfold answer_rows. cbn [arrange cardinality has_single has_maybeSingle].
  rewrite map_project_star.
  destruct (List.filter is_admin users) as [| admin [| admin' rest]];
    cbn -[exec]; [| reflexivity |];
    by rewrite (exec_insert db _ _ _ users Hdb).
Qed.

End AdminProofs.

(** X22. POST /setup-admin is idempotent on a users table without the
    administrator: the first call inserts the account and a second call
    finds it, inserts nothing and answers "Admin já existe" with it. *)
Theorem setup_admin_is_idempotent {D : JsDate}
  (now later : Z) (db : DB) (users : list Row) :
  db !! "users" = Some users ->
  List.filter (eq_match "email" (VStr "mils@admin.com")) users = [] ->
  let first := request_db (post_setup_admin now) db in
  fst first
  = Sent {| status := 200;
            body := VObj [("message", VStr "Admin criado com sucesso");
                          ("data", adminData);
                          ("adminData", adminData)] |} /\
  snd first = <["users" := (users ++ [spread adminData])%list]> db /\
  request_db (post_setup_admin later) (snd first)
  = (Sent {| status := 200;
             body := VObj [("message", VStr "Admin já existe");
                           ("data", adminData)] |}, snd first).
Proof.
  intros Hdb Hnone first. unfold first.
  rewrite (post_setup_admin_on_store now db users Hdb), Hnone.
  cbn [fst snd]. do 2 (split; [reflexivity |]).
  rewrite (post_setup_admin_on_store later _ _ (lookup_insert_eq _ _ _)).
  by rewrite List.filter_app, Hnone.
Qed.

Lemma setup_admin_is_idempotent_witness :
  let first := request_db (post_setup_admin (D := DemoDate.engine) 7) no_users in
  request_db (post_setup_admin (D := DemoDate.engine) 8) (snd first)
  = (Sent {| status := 200;
             body := VObj [("message", VStr "Admin já existe");
                           ("data", adminData)] |}, snd first).
Proof.
  exact (proj2 (proj2 (setup_admin_is_idempotent (D := DemoDate.engine)
                         7 8 no_users [] eq_refl eq_refl))).
Defined.

(** ** The fallback client, chain by chain *)

Lemma stub_calls_filters (filters rest : list Step) :
  forallb is_filter filters = true ->
  stub_calls stubChain (filters ++ rest) = stub_calls stubChain rest.
Proof.
  induction filters as [| s filters IH]; [reflexivity |].
  cbn [forallb]. intros [Hs Hfilters]%andb_true_iff.
  destruct s; try discriminate Hs; exact (IH Hfilters).
Qed.

(** X23. What the fallback client of supabaseClient.js answers, by the
    shape of the chain. A select followed by filters and orderings only
    is never answered. Such a read ended by maybeSingle, single or range
    resolves to the "not configured" error, as does a lone insert,
    update, delete or upsert. Any method called after a write, and
    limit after a select, is a TypeError that rejects the query. *)
Theorem stub_by_chain_shape
  (t columns : string) (filters : list Step) (s w : Step) (rest : list Step)
  (n : Z) :
  forallb is_filter filters = true ->
  supabaseStub (supabase_from t (q_select columns :: filters)) = Never /\
  (ends_read s = true ->
   supabaseStub (supabase_from t (q_select columns :: filters ++ [s]))
   = Settles (Fulfilled stubResponse)) /\
  supabaseStub (supabase_from t (q_select columns :: filters ++ q_limit n :: rest))
  = Settles (Rejected (not_a_function (q_limit n))) /\
  (is_write w = true ->
   supabaseStub (supabase_from t [w]) = Settles (Fulfilled stubResponse) /\
   supabaseStub (supabase_from t (w :: s :: rest))
   = Settles (Rejected (not_a_function s))).
Proof.
  intros Hfilters. unfold supabaseStub. cbn [chain stub_calls stub_method].
  repeat split.
  - rewrite <- (app_nil_r filters).
    by rewrite (stub_calls_filters filters [] Hfilters).
  - intros Hs. rewrite (stub_calls_filters filters [s] Hfilters).
    by destruct s.
  - by rewrite (stub_calls_filters filters (q_limit n :: rest) Hfilters).
  - destruct w; try discriminate H; reflexivity.
  - destruct w; try discriminate H; by destruct s.
Qed.

Lemma stub_by_chain_shape_witness :
  supabaseStub (supabase_from "produtos_loja"
                  [q_select "*"; q_eq "ativo" (VBool true); q_order "ordem" true])
  = Never.
Proof.
  exact (proj1 (stub_by_chain_shape "produtos_loja" "*"
                  [q_eq "ativo" (VBool true); q_order "ordem" true]
                  q_single q_delete [] 0 eq_refl)).
Defined.

(** ** GET /contracts/professor/:professor_email *)

Lemma project_email (r : Row) :
  project "email" r
  = [("email", match assoc "email" r with VUndef => VNull | v => v end)].
Proof. reflexivity. Qed.

Lemma for_each_student_email (students : list Row) :
  Forall (has_text "email") students ->
  for_each student_email (List.map VObj (List.map (project "email") students))
  = ret (List.map (fun u => VStr (toLowerCase (toString (assoc "email" u))))
                  students).
Proof.
  induction 1 as [| u students [e He] _ IH]; [reflexivity |].
  cbn [List.map for_each]. rewrite IH, project_email, He. reflexivity.
Qed.

Lemma filter_each_of_student (students contracts : list Row) :
  Forall (has_text "aluno_email") contracts ->
  filter_each
    (of_student (List.map (fun u => VStr (toLowerCase (toString (assoc "email" u))))
                          students))
    (List.map VObj contracts)
  = ret (List.map VObj (List.filter (contract_of_student students) contracts)).
Proof.
  induction 1 as [| c contracts [e He] _ IH]; [reflexivity |].
  cbn [List.map filter_each List.filter]. rewrite IH.
  assert (Hc : of_student
                 (List.map (fun u => VStr (toLowerCase (toString (assoc "email" u))))
                           students) (VObj c)
               = ret (contract_of_student students c)).
  { unfold of_student, contract_of_student.
    cbn -[js_or toLowerCase existsb strict_eq toString List.map].
    rewrite He.
    replace (js_or (VStr e) (VStr EmptyString)) with (VStr e)
      by (unfold js_or; cbn; by destruct (String.eqb_spec e EmptyString) as [-> |]).
    cbn -[toLowerCase existsb strict_eq toString List.map].
    f_equal. f_equal. clear.
    induction students as [| u students IHs]; [reflexivity |].
    cbn -[toLowerCase toString]. by rewrite IHs. }
  rewrite Hc. cbn. by destruct (contract_of_student students c).
Qed.

(** X24. GET /contracts/professor/:professor_email lists the contracts of
    the students the professor enrolled: a contract is returned exactly
    when its aluno_email is, letter case apart, the email of a user
    whose criado_por is the professor. The professor_email of the
    contract itself plays no part. *)
Theorem professor_contracts_follow_students
  (professor_email decoded : string) (db : DB) (users contracts : list Row) :
  decodeURIComponent professor_email = Some decoded ->
  normalized decoded <> EmptyString ->
  db !! "users" = Some users ->
  db !! "contracts" = Some contracts ->
  let students := students_of (normalized decoded) users in
  Forall (has_text "email") students ->
  Forall (has_text "aluno_email") contracts ->
  fst (request_db (get_contracts_professor professor_email) db)
  = Sent {| status := 200;
            body := VArr (List.map VObj
                            (List.filter (contract_of_student students)
                                         contracts)) |}.
Proof.
  intros Hdecoded Hne Husers Hcontracts students Hemails Htexts.
  unfold request_db, get_contracts_professor, call_decodeURIComponent.
  rewrite Hdecoded. cbn -[exec truthy toLowerCase trim].
  fold (normalized decoded). rewrite (truthy_nonempty _ Hne).
  cbn -[exec truthy toLowerCase trim].
  rewrite (exec_select db _ _ _ users Husers).
  rewrite (List.filter_ext _ (eq_match "criado_por" (VStr (normalized decoded))))
    by (intros r; apply andb_true_r).
  fold (students_of (normalized decoded) users). fold students.
  unfold answer_rows. cbn [arrange cardinality has_single has_maybeSingle].
  destruct students as [| u students'] eqn:E.
  { cbn. rewrite filter_none; [reflexivity |].
    apply List.Forall_forall. reflexivity. }
  rewrite <- E in *.
  cbn -[exec for_each filter_each students].
  replace (Z.of_nat (length (List.map VObj (List.map (project "email") students)))
           =? 0)
    with false by (rewrite E; reflexivity).
  rewrite (for_each_student_email students Hemails).
  cbn -[exec filter_each students].
  rewrite (exec_select db _ _ _ contracts Hcontracts).
  unfold answer_rows. cbn [arrange cardinality has_single has_maybeSingle matches].
  rewrite map_project_star, filter_all by reflexivity.
  cbn -[exec filter_each students].
  rewrite (filter_each_of_student students contracts Htexts).
  reflexivity.
Qed.

Lemma professor_contracts_follow_students_witness :
  let db : DB :=
    {[ "users" := [student];
       "contracts" := [signed_contract;
                       [("id", VNum 6); ("aluno_email", VStr "bia@x.com");
                        ("professor_email", VStr "prof@x.com")]] ]} in
  fst (request_db (get_contracts_professor "Prof%40X.com") db)
  = Sent {| status := 200; body := VArr [VObj signed_contract] |}.
Proof.
  intros db.
  apply (professor_contracts_follow_students "Prof%40X.com" "Prof@X.com" db
           [student]
           [signed_contract;
            [("id", VNum 6); ("aluno_email", VStr "bia@x.com");
             ("professor_email", VStr "prof@x.com")]]);
    try reflexivity; try discriminate.
  - repeat constructor. by eexists.
  - repeat constructor; by eexists.
Defined.

(** ** POST /treinos *)

(** X25. POST /treinos takes the workout as a text, but the line that
    logs the payload parses that text: a workout sent as a text that is
    not JSON ends in a 500 with the syntax error, and nothing is sent
    to the store. *)
Theorem workout_text_must_be_json {D : JsDate} {J : JsJSON}
  (now : Z) (req_body : Val) (text : string) (e : JsError) (srv : Server) :
  truthy (get "aluno_email" req_body) = true ->
  get "treino" req_body = VStr text ->
  text <> EmptyString ->
  JSON_parse text = inl e ->
  request srv (post_treinos now req_body)
  = Some (Sent {| status := 500;
                  body := error_body "Erro ao salvar treino" e |}) /\
  sent_queries srv (post_treinos now req_body) = [].
Proof.
  intros Haluno Htreino Hne Hparse.
  unfold request, sent_queries, post_treinos.
  rewrite (given_is_object _ _ Haluno), Haluno, Htreino, (truthy_nonempty _ Hne).
  cbn -[truthy js_or]. unfold js_or. rewrite (truthy_nonempty _ Hne).
  cbn. rewrite Hparse. split; reflexivity.
Qed.

Lemma workout_text_must_be_json_witness :
  let req_body :=
    VObj [("aluno_email", VStr "ana@x.com"); ("treino", VStr "leg day")] in
  sent_queries silent
    (post_treinos (D := DemoDate.engine) (J := DemoJSON.engine) 7 req_body)
  = [].
Proof.
  intros req_body.
  exact (proj2 (workout_text_must_be_json (D := DemoDate.engine)
                  (J := DemoJSON.engine) 7 req_body "leg day" _ silent
                  eq_refl eq_refl ltac:(discriminate) eq_refl)).
Defined.

(** ** POST /login and POST /test-login when the store is silent *)

(** X26. POST /login always answers: its query runs against a timer, so
    that a store that stays silent costs a 500 "Timeout ao conectar com
    banco de dados". POST /test-login sends the same query without a
    timer, and a silent store leaves its request unanswered. *)
Theorem login_always_answers {D : JsDate}
  (now : Z) (req_body : Val) (srv : Server) :
  (exists r, request srv (post_login now req_body) = Some (Sent r)) /\
  (truthy (get "email" req_body) = true ->
   truthy (get "senha" req_body) = true ->
   request silent (post_login now req_body)
   = Some (Sent {| status := 500;
                   body := VObj [("error", VStr "Timeout ao conectar com banco de dados");
                                 ("details", VStr "Query timeout - Supabase demorando demais");
                                 ("timestamp", VStr (toISOString now))] |}) /\
   request silent (post_test_login req_body) = None).
Proof.
  split.
  - unfold request, post_login, destructure, throw_if_error.
    destruct (nullish req_body); [cbn; eauto |].
    run_cases srv; eauto.
  - intros Hemail Hsenha.
    assert (Hbody : nullish req_body = false).
    { destruct req_body; try discriminate Hemail; reflexivity. }
    unfold request, post_login, post_test_login, destructure.
    rewrite Hbody. cbn -[truthy]. rewrite Hemail, Hsenha. split; reflexivity.
Qed.

Lemma login_always_answers_witness :
  request silent (post_test_login ana_login) = None.
Proof.
  exact (proj2 (proj2 (login_always_answers (D := DemoDate.engine) 7 ana_login silent)
                  eq_refl eq_refl)).
Defined.

(** ** GET /progresso/:email on the in-memory store *)

Section ProgressSorting.
Context {D : JsDate}.

Local Abbreviation timed := (fun x : Val => is_Some (entry_time x)).

Lemma sort_insert_length (x : Val) (l : list Val) :
  length (sort_insert newest_entry_first x l) = S (length l).
Proof.
  induction l as [| y l IH]; [reflexivity |].
  cbn [sort_insert].
  destruct (newest_entry_first x y) as [c |]; [destruct (c <=? 0) |];
    cbn [length]; by rewrite ?IH.
Qed.

Lemma Array_sort_length (l : list Val) :
  length (Array_sort newest_entry_first l) = length l.
Proof.
  unfold Array_sort. induction l as [| x l IH]; [reflexivity |].
  cbn [fold_right length]. by rewrite sort_insert_length, IH.
Qed.

Lemma sort_insert_timed (x : Val) (l : list Val) :
  timed x -> Forall timed l -> Forall timed (sort_insert newest_entry_first x l).
Proof.
  intros Hx. induction 1 as [| y l Hy Hl IH]; cbn [sort_insert].
  - by repeat constructor.
  - destruct (newest_entry_first x y) as [c |]; [destruct (c <=? 0) |];
      repeat constructor; assumption.
Qed.

Lemma sort_insert_HdRel (a x : Val) (l : list Val) :
  not_older a x -> HdRel not_older a l ->
  HdRel not_older a (sort_insert newest_entry_first x l).
Proof.
  intros Hax Hal. destruct l as [| y l]; cbn [sort_insert].
  - by constructor.
  - destruct (newest_entry_first x y) as [c |]; [destruct (c <=? 0) |];
      constructor; try assumption; by inversion Hal.
Qed.

Lemma sort_insert_sorted (x : Val) (l : list Val) :
  timed x -> Forall timed l ->
  Sorted not_older l ->
  Sorted not_older (sort_insert newest_entry_first x l).
Proof.
  intros [tx Hx] Htimed. induction 1 as [| y l Hl IH Hy]; cbn [sort_insert].
  - repeat constructor.
  - apply Forall_cons_1 in Htimed as [[ty Hty] Htimed].
    unfold newest_entry_first. rewrite Hx, Hty.
    destruct (Z.leb_spec (ty - tx) 0) as [Hle | Hgt].
    + constructor; [by constructor |]. constructor.
      exists tx, ty. repeat split; [assumption | assumption | lia].
    + constructor; [by apply IH |].
      apply sort_insert_HdRel; [| assumption].
      exists ty, tx. repeat split; [assumption | assumption | lia].
Qed.

Lemma Array_sort_sorted (l : list Val) :
  Forall timed l ->
  Forall timed (Array_sort newest_entry_first l) /\
  Sorted not_older (Array_sort newest_entry_first l).
Proof.
  unfold Array_sort. induction 1 as [| x l Hx Hl [IH1 IH2]]; cbn [fold_right].
  - split; constructor.
  - split; [by apply sort_insert_timed | by apply sort_insert_sorted].
Qed.

Lemma for_each_progresso_entry (rows : list Row) :
  Forall (fun r => readable (progresso_date r)) rows ->
  exists entries,
    for_each progresso_entry (List.map VObj rows) = ret entries /\
    length entries = length rows /\
    Forall timed entries.
Proof.
  induction 1 as [| r rows Hr _ (entries & IH & Hlen & Htimed)].
  - exists []. repeat split. constructor.
  - cbn [List.map for_each]. rewrite IH.
    eexists (_ :: entries). split; [reflexivity |].
    split; [cbn [length]; by rewrite Hlen |].
    constructor; [| assumption].
    unfold entry_time. cbn [get assoc String.eqb Ascii.eqb Bool.eqb].
    fold (progresso_date r).
    destruct (truthy (progresso_date r)) eqn:E; [| by eexists].
    destruct (Date_parse (progresso_date r)) eqn:P; [by eexists |].
    by destruct (Hr E).
Qed.

Lemma for_each_consultoria_entry (rows : list Row) :
  Forall (fun r => readable (consultoria_date r)) rows ->
  exists entries,
    for_each consultoria_entry (List.map VObj rows) = ret entries /\
    length entries = length rows /\
    Forall timed entries.
Proof.
  induction 1 as [| r rows Hr _ (entries & IH & Hlen & Htimed)].
  - exists []. repeat split. constructor.
  - cbn [List.map for_each]. rewrite IH.
    eexists (_ :: entries). split; [reflexivity |].
    split; [cbn [length]; by rewrite Hlen |].
    constructor; [| assumption].
    unfold entry_time. cbn [get assoc String.eqb Ascii.eqb Bool.eqb].
    fold (consultoria_date r).
    destruct (truthy (consultoria_date r)) eqn:E; [| by eexists].
    destruct (Date_parse (consultoria_date r)) eqn:P; [by eexists |].
    by destruct (Hr E).
Qed.

End ProgressSorting.

Lemma project_id_email_criado_por (r : Row) :
  project "id,email,criado_por" r
  = [("id", match assoc "id" r with VUndef => VNull | v => v end);
     ("email", match assoc "email" r with VUndef => VNull | v => v end);
     ("criado_por", match assoc "criado_por" r with VUndef => VNull | v => v end)].
Proof. reflexivity. Qed.

Lemma Forall_order_by (P : Row -> Prop) (column : string) (ascending : bool)
  (rows : list Row) :
  Forall P rows -> Forall P (order_by column ascending rows).
Proof.
  rewrite !List.Forall_forall. intros HP r Hr.
  apply HP. by apply (In_order_by column ascending).
Qed.

(** X27. GET /progresso/:email merges the two sources of a student who
    is in the users table: with dates the engine can read (or no date at
    all), the answer has one entry for each progresso row of the email
    and one for each consultoria of the user's id, the entries sorted
    from the newest to the oldest. *)
Theorem progresso_newest_first {D : JsDate}
  (email decoded : string) (db : DB)
  (users progresso consultorias : list Row) (user : Row) :
  decodeURIComponent email = Some decoded ->
  normalized decoded <> EmptyString ->
  db !! "users" = Some users ->
  db !! "progresso" = Some progresso ->
  db !! "consultorias" = Some consultorias ->
  List.filter (eq_match "email" (VStr (normalized decoded))) users = [user] ->
  truthy (assoc "id" user) = true ->
  let workouts :=
    List.filter (eq_match "aluno_email" (VStr (normalized decoded))) progresso in
  let reviews :=
    List.filter (eq_match "client_id" (assoc "id" user)) consultorias in
  Forall (fun r => readable (progresso_date r)) workouts ->
  Forall (fun r => readable (consultoria_date r)) reviews ->
  exists entries,
    fst (request_db (get_progresso email) db)
    = Sent {| status := 200; body := VArr entries |} /\
    length entries = (length workouts + length reviews)%nat /\
    Sorted not_older entries.
Proof.
  intros Hdecoded Hne Husers Hprogresso Hconsultorias Huser Hid
    workouts reviews Hworkouts Hreviews.
  assert (Hid' : match assoc "id" user with VUndef => VNull | v => v end
                 = assoc "id" user) by (by destruct (assoc "id" user)).
  destruct (for_each_progresso_entry
              (order_by "criado_em" false workouts)
              (Forall_order_by _ _ _ _ Hworkouts))
    as (ps & Hps & Hplen & Hptimed).
  destruct (for_each_consultoria_entry
              (order_by "data" false reviews)
              (Forall_order_by _ _ _ _ Hreviews))
    as (cs & Hcs & Hclen & Hctimed).
  destruct (Array_sort_sorted (ps ++ cs))
    as [_ Hsorted]; [by apply Forall_app |].
  exists (Array_sort newest_entry_first (ps ++ cs)).
  split; [| split; [| exact Hsorted]].
  2: { rewrite Array_sort_length, length_app, Hplen, Hclen.
       by rewrite !order_by_length. }
  unfold request_db, get_progresso, call_decodeURIComponent, throw_if_error.
  rewrite Hdecoded. cbn -[exec truthy toLowerCase trim].
  fold (normalized decoded). rewrite (truthy_nonempty _ Hne).
  cbn -[exec truthy toLowerCase trim].
  rewrite (exec_select db _ _ _ users Husers).
  rewrite (List.filter_ext _ (eq_match "email" (VStr (normalized decoded))))
    by (intros r; apply andb_true_r).
  rewrite Huser. unfold answer_rows.
  cbn [arrange cardinality has_single has_maybeSingle List.map].
  rewrite project_id_email_criado_por, Hid'.
  cbn -[exec truthy for_each Array_sort order_by bool_decide].
  rewrite (exec_select db _ _ _ progresso Hprogresso).
  rewrite (List.filter_ext _ (eq_match "aluno_email" (VStr (normalized decoded))))
    by (intros r; apply andb_true_r).
  fold workouts. unfold answer_rows.
  cbn [arrange cardinality has_single has_maybeSingle].
  rewrite map_project_star.
  cbn -[exec truthy for_each Array_sort order_by bool_decide].
  assert (Hand : forall fs x, js_and (VObj fs) x = x) by reflexivity.
  rewrite Hand, Hid.
  cbn -[exec truthy for_each Array_sort order_by bool_decide].
  rewrite (exec_select db _ _ _ consultorias Hconsultorias).
  rewrite (List.filter_ext _ (eq_match "client_id" (assoc "id" user)))
    by (intros r; apply andb_true_r).
  fold reviews. unfold answer_rows.
  cbn [arrange cardinality has_single has_maybeSingle].
  rewrite map_project_star.
  cbn -[exec truthy for_each Array_sort order_by bool_decide].
  assert (Hor : forall items, js_or (VArr items) (VArr []) = VArr items)
    by reflexivity.
  rewrite !Hor. cbn -[exec truthy for_each Array_sort order_by bool_decide].
  rewrite Hps. cbn -[exec truthy for_each Array_sort order_by bool_decide].
  rewrite Hcs. reflexivity.
Qed.

Lemma progresso_newest_first_witness :
  exists entries,
    fst (request_db (get_progresso (D := DemoDate.engine) "Ana%40X.com") one_workout)
    = Sent {| status := 200; body := VArr entries |} /\
    length entries = 2%nat /\
    Sorted (not_older (D := DemoDate.engine)) entries.
Proof.
  apply (progresso_newest_first (D := DemoDate.engine) "Ana%40X.com" "Ana@X.com"
           one_workout [student]
           [[("aluno_email", VStr "ana@x.com"); ("treino_id", VStr "3");
             ("criado_em", VStr "2020-01-01")]]
           [[("client_id", VNum 7); ("data", VStr "2100-01-01")]] student);
    try reflexivity; try discriminate.
  - repeat constructor. intros _. discriminate.
  - repeat constructor. intros _. discriminate.
Defined.

(** ** POST /consultorias and GET /consultorias/:clientId *)

(** X28. An assessment saved by POST /consultorias is listed by GET
    /consultorias/:clientId under the student's id, read as a decimal
    number on both sides: the aluno_id may come as a number, as a text
    or as any other value that converts to text, and the id of the path
    with white space around it. *)
Theorem consultoria_is_listed {D : JsDate}
  (now : Z) (req_body : Val) (clientId : string) (n : Z)
  (db : DB) (consultorias : list Row) :
  truthy (get "aluno_id" req_body) = true ->
  printable (get "aluno_id" req_body) = true ->
  parseInt10 (toString (get "aluno_id" req_body)) = VNum n ->
  clientId <> EmptyString ->
  parseInt10 (trim (before_colon clientId)) = VNum n ->
  n <> 0 ->
  db !! "consultorias" = Some consultorias ->
  let answer := request_db (post_consultorias now req_body) db in
  exists (saved : Val) (listed : list Val),
    fst answer = Sent {| status := 200; body := VArr [saved] |} /\
    get "client_id" saved = VNum n /\
    fst (request_db (get_consultorias clientId) (snd answer))
    = Sent {| status := 200; body := VArr listed |} /\
    In saved listed.
Proof.
  intros Haluno Hprints Hn Hid Hclient Hn0 Hdb answer.
  unfold answer, request_db, post_consultorias, throw_if_error.
  rewrite (given_is_object _ _ Haluno), Haluno.
  cbn -[exec js_or parseInt10 toString truthy ToString]. rewrite Haluno.
  cbn -[exec js_or parseInt10 toString truthy ToString].
  rewrite ToString_printable by assumption.
  cbn -[exec js_or parseInt10 toString truthy]. rewrite Hn.
  rewrite (exec_insert db _ _ _ consultorias Hdb).
  cbn -[exec js_or parseInt10 toString trim before_colon truthy].
  do 2 eexists. split; [reflexivity |]. split; [reflexivity |].
  unfold get_consultorias. rewrite (truthy_nonempty _ Hid), Hclient.
  cbn -[exec js_or order_by].
  destruct (Z.eqb_spec n 0) as [? | _]; [done |].
  cbn -[exec js_or order_by].
  erewrite exec_select by apply lookup_insert_eq.
  unfold answer_rows. cbn [arrange cardinality has_single has_maybeSingle].
  rewrite map_project_star. cbn -[js_or order_by List.filter].
  split; [reflexivity |].
  apply List.in_map, In_order_by, List.filter_In. split.
  - apply List.in_app_iff. right. by left.
  - unfold eq_match. cbn. by rewrite String.eqb_refl.
Qed.

Lemma consultoria_is_listed_witness :
  let req_body := VObj [("aluno_id", VStr "7"); ("tipo", VStr "bioimpedancia")] in
  let db : DB := {[ "consultorias" := [] ]} in
  let answer := request_db (post_consultorias (D := DemoDate.engine) 9 req_body) db in
  exists (saved : Val) (listed : list Val),
    fst answer = Sent {| status := 200; body := VArr [saved] |} /\
    get "client_id" saved = VNum 7 /\
    fst (request_db (get_consultorias " 7 ") (snd answer))
    = Sent {| status := 200; body := VArr listed |} /\
    In saved listed.
Proof.
  intros req_body db.
  apply (consultoria_is_listed (D := DemoDate.engine) 9 req_body " 7 " 7 db []);
    try reflexivity; discriminate.
Defined.

(** ** PUT /produtos/:id *)

(** X29. PUT /produtos/:id changes the fields the request sends and keeps
    the others: an image, a link or a title that is missing (or empty)
    leaves the stored one, the title sent is stored trimmed, and ordem
    is replaced by whatever the request gives, zero and null included,
    unless the request has no ordem at all. The id stays. *)
Theorem product_update_is_sparse {D : JsDate}
  (now : Z) (id : string) (req_body : Val) (titulo : option string)
  (db : DB) (products : list Row) (product : Row) :
  nullish req_body = false ->
  get "titulo" req_body = opt_str titulo ->
  db !! "produtos_loja" = Some products ->
  List.filter (eq_match "id" (VStr id)) products = [product] ->
  exists updated : Row,
    fst (request_db (put_produtos_id now id req_body) db)
    = Sent {| status := 200;
              body := VObj [("success", VBool true); ("data", VObj updated)] |} /\
    assoc "id" updated = assoc "id" product /\
    assoc "titulo" updated
    = match titulo with
      | Some t => if String.eqb t EmptyString then assoc "titulo" product
                  else VStr (trim t)
      | None => assoc "titulo" product
      end /\
    assoc "imagem_url" updated
    = sent_or_kept (get "imagem_url" req_body) (assoc "imagem_url" product) /\
    assoc "link_mercadolivre" updated
    = sent_or_kept (get "link_mercadolivre" req_body)
                   (assoc "link_mercadolivre" product) /\
    assoc "ordem" updated
    = match get "ordem" req_body with
      | VUndef => assoc "ordem" product
      | ordem => ordem
      end.
Proof.
  intros Hbody Htitulo Hdb Hone.
  assert (Hfilter : List.filter (matches [q_eq "id" (VStr id); q_select "*"; q_single])
                                products = [product]).
  { rewrite <- Hone. apply List.filter_ext. intros r. cbn. apply andb_true_r. }
  unfold request_db, put_produtos_id, destructure, throw_if_error, sent_or_kept.
  rewrite Hbody. cbn -[exec truthy trim]. rewrite Htitulo.
  assert (Htruthy : truthy (opt_str titulo)
                    = match titulo with
                      | Some t => negb (String.eqb t EmptyString)
                      | None => false
                      end) by (by destruct titulo).
  rewrite Htruthy. clear Htruthy Htitulo.
  destruct titulo as [t |]; [destruct (String.eqb t EmptyString) |];
    cbn [negb opt_str];
    destruct (truthy (get "imagem_url" req_body));
    destruct (truthy (get "link_mercadolivre" req_body));
    destruct (get "ordem" req_body);
    cbn -[exec trim];
    rewrite (exec_update db _ _ _ products Hdb), Hfilter;
    unfold answer_write, answer_rows, project;
    cbn -[trim merge];
    (eexists; split; [reflexivity |]);
    unfold merge; cbn [fold_left fst snd];
    repeat (rewrite ?assoc_set_field_same;
            rewrite ?assoc_set_field_other by reflexivity);
    repeat split; reflexivity.
Qed.

Lemma product_update_is_sparse_witness :
  exists updated : Row,
    fst (request_db (put_produtos_id (D := DemoDate.engine) 7 "1"
                       (VObj [("ordem", VNum 0)])) two_products)
    = Sent {| status := 200;
              body := VObj [("success", VBool true); ("data", VObj updated)] |} /\
    assoc "id" updated = VNum 1 /\
    assoc "titulo" updated = VStr "Whey" /\
    assoc "imagem_url" updated = VUndef /\
    assoc "link_mercadolivre" updated = VUndef /\
    assoc "ordem" updated = VNum 0.
Proof.
  exact (product_update_is_sparse (D := DemoDate.engine) 7 "1"
           (VObj [("ordem", VNum 0)]) None two_products _ _
           eq_refl eq_refl eq_refl eq_refl).
Defined.
